(** * aitviewer camera subsystem: a shallow embedding of [aitviewer/scene/camera.py]

  The file follows the layout of the Python module:

  - numbers: the arithmetic the code runs on is an interface ([Scalar]);
    its instance [b64] is IEEE-754 binary64 with single-precision casts,
    built on the standard library's [SpecFloat]; its instance [Rexact] is
    exact real arithmetic, used to state what the code computes when no
    rounding takes place;
  - arrays: fixed-shape vectors and matrices with numpy's operations;
  - exceptions: a result type with the Python exceptions the code raises;
  - the classes [PinholeCamera], [WeakPerspectiveCamera], [OpenCVCamera] and
    the base class [Camera] with [show_frustum];
  - the properties of the specification, one theorem each, and further
    properties of the code, read off the source. *)

From Stdlib Require Import ZArith Bool List String Lia Lra.
From Stdlib Require Import Reals RNsatz.
From Stdlib Require Import Floats.SpecFloat.
Import ListNotations.

Set Implicit Arguments.

(* ===================================================================== *)
(** * Python exceptions and results *)
(* ===================================================================== *)

Inductive exn : Type :=
| AttributeError (attr : string)
| ValueError (msg : string)
| AssertionError (msg : string)
| IndexError
| ZeroDivisionError
| LinAlgError
| FileNotFoundError.

Inductive res (A : Type) : Type :=
| Ok (a : A)
| Err (e : exn).

Arguments Ok {A} a.
Arguments Err {A} e.

Definition bind {A B : Type} (r : res A) (k : A -> res B) : res B :=
match r with
| Ok a => k a
| Err e => Err e
end.

Declare Scope res_scope.
Delimit Scope res_scope with res.
Notation "x <- r ;; k" := (bind r (fun x => k))
(at level 61, r at next level, right associativity) : res_scope.
Notation "' p <- r ;; k" := (bind r (fun x => let 'p := x in k))
(at level 61, p pattern, r at next level, right associativity) : res_scope.

Definition is_err {A : Type} (r : res A) : Prop :=
match r with
| Ok _ => False
| Err _ => True
end.

(** An instance attribute: absent from the object ([Unset], reading it raises
  [AttributeError]), bound to [None], or bound to a value. *)
Inductive attr (A : Type) : Type :=
| Unset
| PyNone
| Val (a : A).

Arguments Unset {A}.
Arguments PyNone {A}.
Arguments Val {A} a.

(* ===================================================================== *)
(** * Scalars *)
(* ===================================================================== *)

(** The scalar operations used by the module.  [fadd] .. [fsqrt] are the
  double-precision operations of numpy and of Python floats; [f4] is the
  cast [astype('f4')] of one entry; [fadd32] and [fmul32] are numpy's
  single-precision addition and multiplication (operands of dtype
  float32). *)
Class Scalar (F : Type) : Type := {
of_Z : Z -> F;
fadd : F -> F -> F;
fsub : F -> F -> F;
fmul : F -> F -> F;
fdiv : F -> F -> F;
fneg : F -> F;
fabs : F -> F;
fsqrt : F -> F;
fltb : F -> F -> bool;
feqb : F -> F -> bool;
f4 : F -> F;
fadd32 : F -> F -> F;
fmul32 : F -> F -> F
}.

Declare Scope fl_scope.
Delimit Scope fl_scope with fl.
Notation "a + b" := (fadd a b) : fl_scope.
Notation "a - b" := (fsub a b) : fl_scope.
Notation "a * b" := (fmul a b) : fl_scope.
Notation "a / b" := (fdiv a b) : fl_scope.
Notation "- a" := (fneg a) : fl_scope.
Notation "a <? b" := (fltb a b) : fl_scope.
Notation "a >? b" := (fltb b a) : fl_scope.
Notation "a =? b" := (feqb a b) : fl_scope.

Section ScalarOps.
Context {F : Type} `{Scalar F}.
Local Open Scope fl_scope.

Definition f0 : F := of_Z 0.
Definition f1 : F := of_Z 1.
Definition f2 : F := of_Z 2.

(** A decimal literal [n / d] of the source, [d] a power of ten: the
    correctly rounded quotient is the double the Python parser yields. *)
Definition dec (n d : Z) : F := of_Z n / of_Z d.

(** [/] on Python numbers (viewport and image sizes, clipping planes). *)
Definition pydiv (a b : F) : res F :=
  if b =? f0 then Err ZeroDivisionError else Ok (a / b).

(** The builtins [max(a, b)] and [min(a, b)]: the first argument is kept
    unless the second compares strictly greater (smaller). *)
Definition pymax (a b : F) : F := if b >? a then b else a.
Definition pymin (a b : F) : F := if b <? a then b else a.

(** [np.sign]. *)
Definition np_sign (x : F) : F :=
  if x >? f0 then f1
  else if x <? f0 then - f1
  else if x =? f0 then f0
  else x.
End ScalarOps.

(* ===================================================================== *)
(** * IEEE-754 binary64, with casts to binary32 *)
(* ===================================================================== *)

Module B64.
Definition prec : Z := 53.
Definition emax : Z := 1024.
Definition prec32 : Z := 24.
Definition emax32 : Z := 128.

(** Rounding of a finite value to the format [(p, e)]; every scalar of the
    model is kept in canonical binary64 form, a binary32 value included. *)
Definition round_to (p e : Z) (x : spec_float) : spec_float :=
  match x with
  | S754_finite s m ex => binary_round p e s m ex
  | _ => x
  end.

Definition canon (x : spec_float) : spec_float := round_to prec emax x.
Definition single (x : spec_float) : spec_float := round_to prec32 emax32 x.

Definition of_Z (z : Z) : spec_float := binary_normalize prec emax z 0 false.
Definition add := SFadd prec emax.
Definition sub := SFsub prec emax.
Definition mul := SFmul prec emax.
Definition div := SFdiv prec emax.
Definition sqrt := SFsqrt prec emax.
Definition ltb := SFltb.
Definition eqb := SFeqb.

Definition astype_f4 (x : spec_float) : spec_float := canon (single x).
Definition add32 (x y : spec_float) : spec_float :=
  canon (SFadd prec32 emax32 (single x) (single y)).
Definition mul32 (x y : spec_float) : spec_float :=
  canon (SFmul prec32 emax32 (single x) (single y)).

Definition wf (x : spec_float) : bool := valid_binary prec emax x.

Definition is_finite (x : spec_float) : bool :=
  match x with
  | S754_finite _ _ _ => true
  | _ => false
  end.
End B64.

#[export] Instance b64 : Scalar spec_float := {
of_Z := B64.of_Z;
fadd := B64.add;
fsub := B64.sub;
fmul := B64.mul;
fdiv := B64.div;
fneg := SFopp;
fabs := SFabs;
fsqrt := B64.sqrt;
fltb := B64.ltb;
feqb := B64.eqb;
f4 := B64.astype_f4;
fadd32 := B64.add32;
fmul32 := B64.mul32
}.

(** * Exact real arithmetic *)

Module RExact.
Definition ltb (a b : R) : bool := if Rlt_dec a b then true else false.
Definition eqb (a b : R) : bool := if Req_dec_T a b then true else false.
End RExact.

#[export] Instance Rexact : Scalar R := {
of_Z := IZR;
fadd := Rplus;
fsub := Rminus;
fmul := Rmult;
fdiv := Rdiv;
fneg := Ropp;
fabs := Rabs;
fsqrt := R_sqrt.sqrt;
fltb := RExact.ltb;
feqb := RExact.eqb;
f4 := fun x => x;
fadd32 := Rplus;
fmul32 := Rmult
}.

(* ===================================================================== *)
(** * Arrays of fixed shape *)
(* ===================================================================== *)

Record vec3 (A : Type) : Type := V3 { x0 : A; x1 : A; x2 : A }.
Record vec4 (A : Type) : Type := V4 { w0 : A; w1 : A; w2 : A; w3 : A }.

Arguments V3 {A} _ _ _.
Arguments V4 {A} _ _ _ _.

(** Matrices are stored by rows, as numpy stores them. *)
Definition mat3 (F : Type) : Type := vec3 (vec3 F).
Definition mat34 (F : Type) : Type := vec3 (vec4 F).
Definition mat4 (F : Type) : Type := vec4 (vec4 F).

Definition map3 {A B : Type} (f : A -> B) (v : vec3 A) : vec3 B :=
V3 (f (x0 v)) (f (x1 v)) (f (x2 v)).
Definition map4 {A B : Type} (f : A -> B) (v : vec4 A) : vec4 B :=
V4 (f (w0 v)) (f (w1 v)) (f (w2 v)) (f (w3 v)).
Definition zip3 {A B C : Type} (f : A -> B -> C) (u : vec3 A) (v : vec3 B) : vec3 C :=
V3 (f (x0 u) (x0 v)) (f (x1 u) (x1 v)) (f (x2 u) (x2 v)).

(** [M[:, j]] of a matrix with four columns. *)
Definition col4 {A : Type} (j : vec4 A -> A) (M : vec4 (vec4 A)) : vec4 A := map4 j M.
Definition col34 {A : Type} (j : vec4 A -> A) (M : vec3 (vec4 A)) : vec3 A := map3 j M.
(** [v[:3]] and [M[:3, j]]. *)
Definition head3 {A : Type} (v : vec4 A) : vec3 A := V3 (w0 v) (w1 v) (w2 v).
Definition col3_of4 {A : Type} (j : vec4 A -> A) (M : vec4 (vec4 A)) : vec3 A :=
head3 (col4 j M).
(** [M.T] of a 3 x 3 matrix. *)
Definition transpose3 {A : Type} (M : vec3 (vec3 A)) : vec3 (vec3 A) :=
V3 (map3 (@x0 A) M) (map3 (@x1 A) M) (map3 (@x2 A) M).

Section Linalg.
Context {F : Type} `{Scalar F}.
Local Open Scope fl_scope.

(** Inner products accumulate in index order from zero, the reference loop
    of numpy's [dot] and [matmul]. *)
Definition dot3 (u v : vec3 F) : F :=
  f0 + x0 u * x0 v + x1 u * x1 v + x2 u * x2 v.
Definition dot4 (u v : vec4 F) : F :=
  f0 + w0 u * w0 v + w1 u * w1 v + w2 u * w2 v + w3 u * w3 v.
(** The same over operands of dtype float32. *)
Definition dot4_32 (u v : vec4 F) : F :=
  fadd32 (fadd32 (fadd32 (fadd32 f0 (fmul32 (w0 u) (w0 v))) (fmul32 (w1 u) (w1 v)))
                 (fmul32 (w2 u) (w2 v))) (fmul32 (w3 u) (w3 v)).

Definition vadd (u v : vec3 F) : vec3 F := zip3 fadd u v.
Definition vsub (u v : vec3 F) : vec3 F := zip3 fsub u v.
Definition vneg (u : vec3 F) : vec3 F := map3 fneg u.
Definition vscale (u : vec3 F) (k : F) : vec3 F := map3 (fun a => a * k) u.
Definition vdivs (u : vec3 F) (k : F) : vec3 F := map3 (fun a => a / k) u.
Definition vadd32 (u v : vec3 F) : vec3 F := zip3 fadd32 u v.
Definition vscale32 (u : vec3 F) (k : F) : vec3 F := map3 (fun a => fmul32 a (f4 k)) u.

(** [np.linalg.norm] of a vector: the square root of its inner product
    with itself. *)
Definition linalg_norm (u : vec3 F) : F := fsqrt (dot3 u u).

(** [np.cross]. *)
Definition cross (u v : vec3 F) : vec3 F :=
  V3 (x1 u * x2 v - x2 u * x1 v)
     (x2 u * x0 v - x0 u * x2 v)
     (x0 u * x1 v - x1 u * x0 v).

Definition matvec3 (M : mat3 F) (v : vec3 F) : vec3 F := map3 (fun r => dot3 r v) M.
Definition matvec4 (M : mat4 F) (v : vec4 F) : vec4 F := map4 (fun r => dot4 r v) M.
Definition matmul (A B : mat4 F) : mat4 F :=
  map4 (fun r => V4 (dot4 r (col4 (@w0 F) B)) (dot4 r (col4 (@w1 F) B))
                    (dot4 r (col4 (@w2 F) B)) (dot4 r (col4 (@w3 F) B))) A.
Definition matmul32 (A B : mat4 F) : mat4 F :=
  map4 (fun r => V4 (dot4_32 r (col4 (@w0 F) B)) (dot4_32 r (col4 (@w1 F) B))
                    (dot4_32 r (col4 (@w2 F) B)) (dot4_32 r (col4 (@w3 F) B))) A.

Definition mneg3 (M : mat3 F) : mat3 F := map3 (map3 fneg) M.
Definition eye4 : mat4 F :=
  V4 (V4 f1 f0 f0 f0) (V4 f0 f1 f0 f0) (V4 f0 f0 f1 f0) (V4 f0 f0 f0 f1).

(** [ndarray.astype('f4')]. *)
Definition astype_f4 (M : mat4 F) : mat4 F := map4 (map4 f4) M.
Definition astype_f4_3 (v : vec3 F) : vec3 F := map3 f4 v.

(** [np.concatenate([v, np.array([1])])] and [np.append(v, 1.0)]. *)
Definition homogeneous (v : vec3 F) : vec4 F := V4 (x0 v) (x1 v) (x2 v) f1.

(** Elementwise [==] of two arrays, all entries. *)
Definition veqb (u v : vec3 F) : bool :=
  (x0 u =? x0 v) && (x1 u =? x1 v) && (x2 u =? x2 v).

(** [_transform_vector]: apply an affine 4 x 4 transformation to a 3D
    vector. *)
Definition _transform_vector (transform : mat4 F) (vector : vec3 F) : vec3 F :=
  head3 (matvec4 transform (homogeneous vector)).
End Linalg.

(** Reading an array-valued attribute to pass it to numpy: an absent
  attribute raises [AttributeError], and [np.linalg.inv(None)] raises
  [LinAlgError]. *)
Definition read_array {A : Type} (name : string) (a : attr A) : res A :=
match a with
| Unset => Err (AttributeError name)
| PyNone => Err LinAlgError
| Val m => Ok m
end.

(** The body shared by the nine [get_*_matrix] methods:
  [if self.m is None: raise ValueError(msg)], then [return self.m]. *)
Definition get_matrix {A : Type} (name msg : string) (a : attr A) : res A :=
match a with
| Unset => Err (AttributeError name)
| PyNone => Err (ValueError msg)
| Val m => Ok m
end.

Definition msg_projection : string :=
"update_matrices() must be called before to update the projection matrix".
Definition msg_view : string :=
"update_matrices() must be called before to update the view matrix".
Definition msg_view_projection : string :=
"update_matrices() must be called before to update the view-projection matrix".

(* ===================================================================== *)
(** * class PinholeCamera(CameraInterface) *)
(* ===================================================================== *)

Module PinholeCamera.
Section Defs.
Context {F : Type} `{Scalar F}.
Local Open Scope fl_scope.
Local Open Scope res_scope.

Record t : Type := Build {
  fov : F;
  is_ortho : bool;
  ortho_size : F;
  _position : vec3 F;
  target : vec3 F;
  _up : vec3 F;
  ZOOM_FACTOR : F;
  ROT_FACTOR : F;
  PAN_FACTOR : F;
  near : F;
  far : F;
  projection_matrix : attr (mat4 F);
  view_matrix : attr (mat4 F);
  view_projection_matrix : attr (mat4 F)
}.

(** The collaborators of the class that live outside this file:
    [camera_utils] ([look_at] and the two projections), numpy ([deg2rad],
    [tan], [linalg.inv]), trimesh ([rotation_matrix]) and the
    configuration ([C.camera_zoom_speed]). *)
Variable look_at : vec3 F -> vec3 F -> vec3 F -> res (mat4 F).
Variable orthographic_projection : F -> F -> F -> F -> res (mat4 F).
Variable perspective_projection : F -> F -> F -> F -> res (mat4 F).
Variable deg2rad : F -> F.
Variable tan : F -> F.
Variable inv : mat4 F -> res (mat4 F).
Variable rotation_matrix : F -> vec3 F -> vec3 F -> mat4 F.
Variable camera_zoom_speed : F.

(** [__init__(self, fov=45, orthographic=None, znear=C.znear, zfar=C.zfar)].
    The three matrix attributes are not assigned. *)
Definition __init__ (fov : F) (orthographic : option F) (znear zfar : F) : t :=
  {| fov := fov;
     is_ortho := match orthographic with None => false | Some _ => true end;
     ortho_size := match orthographic with None => f1 | Some o => o end;
     _position := V3 f0 f0 (dec 25 10);
     target := V3 f0 f0 f0;
     _up := V3 f0 f1 f0;
     ZOOM_FACTOR := of_Z 4;
     ROT_FACTOR := dec 25 10000;
     PAN_FACTOR := dec 1 100;
     near := znear;
     far := zfar;
     projection_matrix := Unset;
     view_matrix := Unset;
     view_projection_matrix := Unset |}.

Definition position (c : t) : vec3 F := _position c.
Definition up (c : t) : vec3 F := _up c.

Definition forward (c : t) : vec3 F :=
  let forward := vsub (target c) (position c) in
  vdivs forward (linalg_norm forward).

Definition right (c : t) : vec3 F := cross (up c) (forward c).

Definition set_position (c : t) (p : vec3 F) : t :=
  Build (fov c) (is_ortho c) (ortho_size c) p (target c) (_up c)
        (ZOOM_FACTOR c) (ROT_FACTOR c) (PAN_FACTOR c) (near c) (far c)
        (projection_matrix c) (view_matrix c) (view_projection_matrix c).
Definition set_target (c : t) (p : vec3 F) : t :=
  Build (fov c) (is_ortho c) (ortho_size c) (_position c) p (_up c)
        (ZOOM_FACTOR c) (ROT_FACTOR c) (PAN_FACTOR c) (near c) (far c)
        (projection_matrix c) (view_matrix c) (view_projection_matrix c).
Definition set_ortho_size (c : t) (o : F) : t :=
  Build (fov c) (is_ortho c) o (_position c) (target c) (_up c)
        (ZOOM_FACTOR c) (ROT_FACTOR c) (PAN_FACTOR c) (near c) (far c)
        (projection_matrix c) (view_matrix c) (view_projection_matrix c).
Definition set_matrices (c : t) (P V VP : mat4 F) : t :=
  Build (fov c) (is_ortho c) (ortho_size c) (_position c) (target c) (_up c)
        (ZOOM_FACTOR c) (ROT_FACTOR c) (PAN_FACTOR c) (near c) (far c)
        (Val P) (Val V) (Val VP).

(** ** Persistence *)

(** The dictionary written by [save_cam]. *)
Record cam_dict : Type := {
  d_position : vec3 F;
  d_target : vec3 F;
  d_up : vec3 F;
  d_ZOOM_FACTOR : F;
  d_ROT_FACTOR : F;
  d_PAN_FACTOR : F;
  d_near : F;
  d_far : F
}.

(** The part of the file system the two methods touch: whether the
    directory [C.export_dir + '/camera_params/'] exists, and the content of
    [cam_params.pkl] in it, if that file exists. *)
Record store : Type := {
  cam_dir_exists : bool;
  cam_params_pkl : option cam_dict
}.

Definition save_cam (c : t) (fs : store) : store :=
  let cam_dict :=
    {| d_position := position c; d_target := target c; d_up := up c;
       d_ZOOM_FACTOR := ZOOM_FACTOR c; d_ROT_FACTOR := ROT_FACTOR c;
       d_PAN_FACTOR := PAN_FACTOR c; d_near := near c; d_far := far c |} in
  {| cam_dir_exists := true; cam_params_pkl := Some cam_dict |}.

(** [load_cam]: what is printed, and the camera or the exception.
    [joblib.load] opens the file and raises [FileNotFoundError] when there
    is none. *)
Definition load_cam (c : t) (fs : store) : list string * res t :=
  if negb (cam_dir_exists fs) then
    (["camera config does not exist"%string], Ok c)
  else
    match cam_params_pkl fs with
    | None => ([], Err FileNotFoundError)
    | Some cam_dict =>
        ([], Ok (Build (fov c) (is_ortho c) (ortho_size c)
                       (d_position cam_dict) (d_target cam_dict) (d_up cam_dict)
                       (d_ZOOM_FACTOR cam_dict) (d_ROT_FACTOR cam_dict)
                       (d_PAN_FACTOR cam_dict) (d_near cam_dict) (d_far cam_dict)
                       (projection_matrix c) (view_matrix c)
                       (view_projection_matrix c)))
    end.

(** ** Matrices *)

(** The double-precision projection and view matrices of
    [update_matrices], before they are cast and stored. *)
Definition compute_matrices (c : t) (width height : F) : res (mat4 F * mat4 F) :=
  aspect <- pydiv width height ;;
  P <- (if is_ortho c then
          let yscale := ortho_size c in
          let xscale := aspect * yscale in
          orthographic_projection xscale yscale (near c) (far c)
        else
          perspective_projection (deg2rad (fov c)) aspect (near c) (far c)) ;;
  V <- look_at (position c) (target c) (up c) ;;
  Ok (P, V).

Definition update_matrices (c : t) (width height : F) : res t :=
  '(P, V) <- compute_matrices c width height ;;
  Ok (set_matrices c (astype_f4 P) (astype_f4 V) (astype_f4 (matmul P V))).

Definition get_projection_matrix (c : t) : res (mat4 F) :=
  get_matrix "projection_matrix" msg_projection (projection_matrix c).

Definition get_view_matrix (c : t) : res (mat4 F) :=
  get_matrix "view_matrix" msg_view (view_matrix c).

Definition get_view_projection_matrix (c : t) : res (mat4 F) :=
  get_matrix "view_projection_matrix" msg_view_projection (view_projection_matrix c).

(** ** Navigation *)

(** The movement of [dolly_zoom] when the target stays: the requested
    length, clamped so as not to surpass the target. *)
Definition dolly_movement (c : t) (speed : F) : F :=
  let norm := pymax (linalg_norm (vsub (position c) (target c))) f2 in
  let speed := speed * camera_zoom_speed in
  let movement_length := speed * norm in
  let max_movement_length :=
    pymax (linalg_norm (vsub (target c) (position c)) - dec 1 100) f0 in
  pymin movement_length max_movement_length.

Definition dolly_zoom (c : t) (speed : F) (move_target : bool) : t :=
  let ortho_size := ortho_size c - dec 1 10 * np_sign speed in
  let ortho_size := pymax (dec 1 10000) ortho_size in
  let c1 := set_ortho_size c ortho_size in
  let norm := pymax (linalg_norm (vsub (position c1) (target c1))) f2 in
  let fwd := forward c1 in
  let speed' := speed * camera_zoom_speed in
  if move_target then
    let c2 := set_position c1 (vadd (position c1) (vscale (vscale fwd speed') norm)) in
    set_target c2 (vadd (target c2) (vscale (vscale fwd speed') norm))
  else
    set_position c1 (vadd (position c1) (vscale fwd (dolly_movement c1 speed))).

Definition pan (c : t) (mouse_dx mouse_dy : F) : t :=
  let sideways := cross (forward c) (up c) in
  let up' := cross sideways (forward c) in
  let speed := pymax (linalg_norm (vsub (target c) (position c)) * dec 1 10) (dec 1 10) in
  let speed_x := mouse_dx * PAN_FACTOR c * speed in
  let speed_y := mouse_dy * PAN_FACTOR c * speed in
  let c1 := set_position c (vsub (position c) (vscale sideways speed_x)) in
  let c2 := set_target c1 (vsub (target c1) (vscale sideways speed_x)) in
  let c3 := set_position c2 (vadd (position c2) (vscale up' speed_y)) in
  set_target c3 (vadd (target c3) (vscale up' speed_y)).

(** The test of [rotate_azimuth_elevation] under which the elevation
    rotation is applied. *)
Definition elevation_guard (mouse_dy dot : F) : bool :=
  negb ((mouse_dy >? f0) && (dot >? f0) && (f1 - dot <? dec 1 1000))
  && negb ((mouse_dy <? f0) && (dot <? f0) && (f1 + dot <? dec 1 1000)).

Definition x_speed (c : t) (dot : F) : F :=
  if f1 - fabs dot <? dec 1 100 then ROT_FACTOR c / of_Z 10 else ROT_FACTOR c.

Definition rotate_azimuth_elevation (c : t) (mouse_dx mouse_dy : F) : res t :=
  V <- read_array "view_matrix" (view_matrix c) ;;
  cam_pose <- inv V ;;
  let z_axis := col3_of4 (@w2 F) cam_pose in
  let dot := dot3 z_axis (up c) in
  let rot := eye4 in
  let rot :=
    if elevation_guard mouse_dy dot then
      let x_axis := col3_of4 (@w0 F) cam_pose in
      let rot_x := rotation_matrix (ROT_FACTOR c * - mouse_dy) x_axis (target c) in
      matmul rot_x rot
    else rot in
  let y_axis := col3_of4 (@w1 F) cam_pose in
  let rot := matmul (rotation_matrix (x_speed c dot * - mouse_dx) y_axis (target c)) rot in
  Ok (set_position c (_transform_vector rot (position c))).

Definition rotate_azimuth (c : t) (angle : F) : res t :=
  if fabs angle <? dec 1 100000000 then Ok c
  else
    V <- read_array "view_matrix" (view_matrix c) ;;
    cam_pose <- inv V ;;
    let y_axis := col3_of4 (@w1 F) cam_pose in
    let rot := rotation_matrix angle y_axis (target c) in
    Ok (set_position c (_transform_vector rot (position c))).

(** ** Ray casting *)

Definition get_ray (c : t) (x y width height : F) : res (vec3 F * vec3 F) :=
  let w := width in
  let h := height in
  qx <- pydiv (f2 * (x + dec 5 10)) w ;;
  let screen_x := qx - f1 in
  qy <- pydiv (f2 * (y + dec 5 10)) h ;;
  let screen_y := f1 - qy in
  let scale := if is_ortho c then ortho_size c else tan (deg2rad (fov c) / f2) in
  let screen_x := screen_x * (scale * w / h) in
  let screen_y := screen_y * scale in
  let pixel_2d := V3 screen_x screen_y (if is_ortho c then f0 else - f1) in
  V <- read_array "view_matrix" (view_matrix c) ;;
  cam2world <- inv V ;;
  let pixel_3d := _transform_vector cam2world pixel_2d in
  let '(ray_origin, ray_dir) :=
    if is_ortho c then (pixel_3d, forward c)
    else
      let eye_origin := V3 f0 f0 f0 in
      let ray_origin := _transform_vector cam2world eye_origin in
      (ray_origin, vsub pixel_3d ray_origin) in
  let ray_dir := vdivs ray_dir (linalg_norm ray_dir) in
  Ok (ray_origin, ray_dir).
End Defs.
Arguments t F : clear implicits.
Arguments cam_dict F : clear implicits.
Arguments store F : clear implicits.
End PinholeCamera.


(* ===================================================================== *)
(** * class Camera(Node, CameraInterface): the state of the base classes *)
(* ===================================================================== *)

(** The line lists of a frustum: one list of points per frame. *)
Definition lines (F : Type) : Type := list (vec3 F).

Module CameraBase.
Section Defs.
Context {F : Type}.

(** Modelled from the spec: the fields of [Node] the cameras use, [n_frames]
    and the current frame index [current_frame_id], an integer field whose
    assignment selects the frame; with them the two visual children
    [frustum] and [origin] that [Camera.__init__] sets to [None]. *)
Record t : Type := Build {
  n_frames : nat;
  current_frame_id : nat;
  frustum : option (list (lines F));
  origin : option (vec3 F * mat3 F)
}.

Definition __init__ (n_frames : nat) : t :=
  {| n_frames := n_frames; current_frame_id := 0; frustum := None; origin := None |}.

Definition set_current_frame_id (b : t) (i : nat) : t :=
  Build (n_frames b) i (frustum b) (origin b).

Definition hide_frustum (b : t) : t :=
  Build (n_frames b) (current_frame_id b) None None.

Definition set_frustum (b : t) (all_lines : list (lines F)) : t :=
  Build (n_frames b) (current_frame_id b) (Some all_lines) (origin b).

Definition set_origin (b : t) (o : vec3 F * mat3 F) : t :=
  Build (n_frames b) (current_frame_id b) (frustum b) (Some o).
End Defs.
Arguments t F : clear implicits.
End CameraBase.

(** [a[i]] on a sequence of frames. *)
Definition index {A : Type} (a : list A) (i : nat) : res A :=
match nth_error a i with
| Some x => Ok x
| None => Err IndexError
end.

(* ===================================================================== *)
(** * class WeakPerspectiveCamera(Camera) *)
(* ===================================================================== *)

Module WeakPerspectiveCamera.
Section Defs.
Context {F : Type} `{Scalar F}.
Local Open Scope fl_scope.
Local Open Scope res_scope.

Record t : Type := Build {
  base : CameraBase.t F;
  scale : list (F * F);
  translation : list (F * F);
  cols : F;
  rows : F;
  near : F;
  far : F;
  position : vec3 F;
  _right : vec3 F;
  _up : vec3 F;
  _forward : vec3 F;
  projection_matrix : attr (mat4 F);
  view_matrix : attr (mat4 F);
  view_projection_matrix : attr (mat4 F)
}.

Variable look_at : vec3 F -> vec3 F -> vec3 F -> res (mat4 F).

(** [__init__]: [scale] and [translation] are sequences of [N] pairs (a
    single pair is first wrapped into a sequence of one). *)
Definition __init__ (scale translation : list (F * F)) (cols rows near far : F) : res t :=
  if negb (Nat.eqb (List.length scale) (List.length translation)) then
    Err (AssertionError "Number of frames in scale and translation must match")
  else
    Ok {| base := CameraBase.__init__ (List.length scale);
          scale := scale;
          translation := translation;
          cols := cols;
          rows := rows;
          near := near;
          far := far;
          position := astype_f4_3 (V3 f0 f0 f1);
          _right := astype_f4_3 (V3 f1 f0 f0);
          _up := astype_f4_3 (V3 f0 f1 f0);
          _forward := vneg (astype_f4_3 (V3 f0 f0 f1));
          projection_matrix := Unset;
          view_matrix := Unset;
          view_projection_matrix := Unset |}.

Definition forward (c : t) : vec3 F := _forward c.
Definition up (c : t) : vec3 F := _up c.
Definition right (c : t) : vec3 F := _right c.

Definition set_base (c : t) (b : CameraBase.t F) : t :=
  Build b (scale c) (translation c) (cols c) (rows c) (near c) (far c)
        (position c) (_right c) (_up c) (_forward c)
        (projection_matrix c) (view_matrix c) (view_projection_matrix c).
Definition set_matrices (c : t) (P V VP : mat4 F) : t :=
  Build (base c) (scale c) (translation c) (cols c) (rows c) (near c) (far c)
        (position c) (_right c) (_up c) (_forward c) (Val P) (Val V) (Val VP).

(** [ar = camera_ar / window_ar]. *)
Definition aspect_correction (c : t) (width height : F) : res F :=
  window_ar <- pydiv width height ;;
  camera_ar <- pydiv (cols c) (rows c) ;;
  pydiv camera_ar window_ar.

(** The double-precision matrix [P] of [update_matrices]. *)
Definition projection (c : t) (width height : F) : res (mat4 F) :=
  '(sx, sy) <- index (scale c) (CameraBase.current_frame_id (base c)) ;;
  '(tx, ty) <- index (translation c) (CameraBase.current_frame_id (base c)) ;;
  ar <- aspect_correction c width height ;;
  let znear := near c in
  let zfar := far c in
  P22 <- pydiv f2 (znear - zfar) ;;
  P23 <- pydiv (zfar + znear) (znear - zfar) ;;
  Ok (V4 (V4 (sx * ar) f0 f0 (tx * sx * ar))
         (V4 f0 sy f0 (- ty * sy))
         (V4 f0 f0 P22 P23)
         (V4 f0 f0 f0 f1)).

Definition compute_matrices (c : t) (width height : F) : res (mat4 F * mat4 F) :=
  P <- projection c width height ;;
  V <- look_at (position c) (forward c) (V3 f0 f1 f0) ;;
  Ok (P, V).

Definition update_matrices (c : t) (width height : F) : res t :=
  '(P, V) <- compute_matrices c width height ;;
  Ok (set_matrices c (astype_f4 P) (astype_f4 V) (astype_f4 (matmul P V))).

Definition get_projection_matrix (c : t) : res (mat4 F) :=
  get_matrix "projection_matrix" msg_projection (projection_matrix c).

Definition get_view_matrix (c : t) : res (mat4 F) :=
  get_matrix "view_matrix" msg_view (view_matrix c).

Definition get_view_projection_matrix (c : t) : res (mat4 F) :=
  get_matrix "view_projection_matrix" msg_view_projection (view_projection_matrix c).
End Defs.
Arguments t F : clear implicits.
End WeakPerspectiveCamera.

(* ===================================================================== *)
(** * class OpenCVCamera(Camera) *)
(* ===================================================================== *)

Module OpenCVCamera.
Section Defs.
Context {F : Type} `{Scalar F}.
Local Open Scope fl_scope.
Local Open Scope res_scope.

Record t : Type := Build {
  base : CameraBase.t F;
  node_position : vec3 F;
  node_rotation : mat3 F;
  K : mat3 F;
  Rt : mat34 F;
  dist_coeffs : option (list F);
  cols : F;
  rows : F;
  near : F;
  far : F;
  projection_matrix : attr (mat4 F);
  view_matrix : attr (mat4 F);
  view_projection_matrix : attr (mat4 F)
}.

(** [Rt[:, 0:3]] and [Rt[:, 3]]. *)
Definition rotation_part (Rt : mat34 F) : mat3 F := map3 (@head3 F) Rt.
Definition translation_column (Rt : mat34 F) : vec3 F := col34 (@w3 F) Rt.

(** [__init__]; [n_frames] reaches [Node] through the keyword arguments. *)
Definition __init__ (K : mat3 F) (Rt : mat34 F) (cols rows : F)
    (dist_coeffs : option (list F)) (near far : F) (n_frames : nat) : t :=
  let rot := transpose3 (rotation_part Rt) in
  let pos := matvec3 (mneg3 rot) (translation_column Rt) in
  let rot := map3 (fun r => V3 (x0 r) (x1 r * - f1) (x2 r * - f1)) rot in
  {| base := CameraBase.__init__ n_frames;
     node_position := pos;
     node_rotation := rot;
     K := K;
     Rt := Rt;
     dist_coeffs := dist_coeffs;
     cols := cols;
     rows := rows;
     near := near;
     far := far;
     projection_matrix := Unset;
     view_matrix := Unset;
     view_projection_matrix := Unset |}.

Definition position (c : t) : vec3 F :=
  matvec3 (mneg3 (transpose3 (rotation_part (Rt c)))) (translation_column (Rt c)).
Definition forward (c : t) : vec3 F := head3 (x2 (Rt c)).
Definition up (c : t) : vec3 F := vneg (head3 (x1 (Rt c))).
Definition right (c : t) : vec3 F := head3 (x0 (Rt c)).

Definition set_base (c : t) (b : CameraBase.t F) : t :=
  Build b (node_position c) (node_rotation c) (K c) (Rt c) (dist_coeffs c)
        (cols c) (rows c) (near c) (far c)
        (projection_matrix c) (view_matrix c) (view_projection_matrix c).
Definition set_matrices (c : t) (P V VP : mat4 F) : t :=
  Build (base c) (node_position c) (node_rotation c) (K c) (Rt c) (dist_coeffs c)
        (cols c) (rows c) (near c) (far c) (Val P) (Val V) (Val VP).

(** View and projection matrices which follow the OpenGL conventions. *)
Definition compute_opengl_view_projection (c : t) (width height : F)
    : res (mat4 F * mat4 F) :=
  let lookat := Rt c in
  let lookat := V3 (x0 lookat) (map4 (fun a => a * - f1) (x1 lookat))
                   (map4 (fun a => a * - f1) (x2 lookat)) in
  let V := V4 (x0 lookat) (x1 lookat) (x2 lookat) (V4 f0 f0 f0 f1) in
  let K := K c in
  let rows := rows c in
  let cols := cols c in
  let near := near c in
  let far := far c in
  aspect <- pydiv width height ;;
  let window_cols := aspect * rows in
  let x_offset := (window_cols - cols) * dec 5 10 in
  let Kgl :=
    V4 (V4 (- x0 (x0 K)) f0 (- (cols - x2 (x0 K)) - x_offset) f0)
       (V4 f0 (- x1 (x1 K)) (rows - x2 (x1 K)) f0)
       (V4 f0 f0 (- (near + far)) (- (near * far)))
       (V4 f0 f0 (- f1) f0) in
  n00 <- pydiv (- f2) window_cols ;;
  n11 <- pydiv (- f2) rows ;;
  n22 <- pydiv f2 (far - near) ;;
  n23 <- pydiv (- (far + near)) (far - near) ;;
  let NDC :=
    V4 (V4 n00 f0 f0 f1)
       (V4 f0 n11 f0 (- f1))
       (V4 f0 f0 n22 n23)
       (V4 f0 f0 f0 f1) in
  let P := matmul NDC Kgl in
  Ok (V, P).

Definition update_matrices (c : t) (width height : F) : res t :=
  '(V, P) <- compute_opengl_view_projection c width height ;;
  Ok (set_matrices c (astype_f4 P) (astype_f4 V) (astype_f4 (matmul P V))).

Definition get_projection_matrix (c : t) : res (mat4 F) :=
  get_matrix "projection_matrix" msg_projection (projection_matrix c).

Definition get_view_matrix (c : t) : res (mat4 F) :=
  get_matrix "view_matrix" msg_view (view_matrix c).

Definition get_view_projection_matrix (c : t) : res (mat4 F) :=
  get_matrix "view_projection_matrix" msg_view_projection (view_projection_matrix c).
End Defs.
Arguments t F : clear implicits.
End OpenCVCamera.

(* ===================================================================== *)
(** * class Camera(Node, CameraInterface): the methods *)
(* ===================================================================== *)

Module Camera.
Section Defs.
Context {F : Type} `{Scalar F}.
Local Open Scope fl_scope.
Local Open Scope res_scope.

Variable look_at : vec3 F -> vec3 F -> vec3 F -> res (mat4 F).
Variable inv : mat4 F -> res (mat4 F).

(** The subclasses of [Camera] in this file. *)
Inductive t : Type :=
| Weak (c : WeakPerspectiveCamera.t F)
| OpenCV (c : OpenCVCamera.t F).

Definition base (c : t) : CameraBase.t F :=
  match c with
  | Weak w => WeakPerspectiveCamera.base w
  | OpenCV o => OpenCVCamera.base o
  end.

Definition set_base (c : t) (b : CameraBase.t F) : t :=
  match c with
  | Weak w => Weak (WeakPerspectiveCamera.set_base w b)
  | OpenCV o => OpenCV (OpenCVCamera.set_base o b)
  end.

Definition n_frames (c : t) : nat := CameraBase.n_frames (base c).
Definition current_frame_id (c : t) : nat := CameraBase.current_frame_id (base c).
Definition frustum (c : t) : option (list (lines F)) := CameraBase.frustum (base c).
Definition origin (c : t) : option (vec3 F * mat3 F) := CameraBase.origin (base c).

Definition set_current_frame_id (c : t) (i : nat) : t :=
  set_base c (CameraBase.set_current_frame_id (base c) i).

(** The abstract methods, dispatched on the class of the object. *)
Definition update_matrices (c : t) (width height : F) : res t :=
  match c with
  | Weak w => w' <- WeakPerspectiveCamera.update_matrices look_at w width height ;; Ok (Weak w')
  | OpenCV o => o' <- OpenCVCamera.update_matrices o width height ;; Ok (OpenCV o')
  end.

Definition get_projection_matrix (c : t) : res (mat4 F) :=
  match c with
  | Weak w => WeakPerspectiveCamera.get_projection_matrix w
  | OpenCV o => OpenCVCamera.get_projection_matrix o
  end.

Definition get_view_matrix (c : t) : res (mat4 F) :=
  match c with
  | Weak w => WeakPerspectiveCamera.get_view_matrix w
  | OpenCV o => OpenCVCamera.get_view_matrix o
  end.

Definition get_view_projection_matrix (c : t) : res (mat4 F) :=
  match c with
  | Weak w => WeakPerspectiveCamera.get_view_projection_matrix w
  | OpenCV o => OpenCVCamera.get_view_projection_matrix o
  end.

Definition position (c : t) : vec3 F :=
  match c with
  | Weak w => WeakPerspectiveCamera.position w
  | OpenCV o => OpenCVCamera.position o
  end.

Definition forward (c : t) : vec3 F :=
  match c with
  | Weak w => WeakPerspectiveCamera.forward w
  | OpenCV o => OpenCVCamera.forward o
  end.

Definition up (c : t) : vec3 F :=
  match c with
  | Weak w => WeakPerspectiveCamera.up w
  | OpenCV o => OpenCVCamera.up o
  end.

Definition right (c : t) : vec3 F :=
  match c with
  | Weak w => WeakPerspectiveCamera.right w
  | OpenCV o => OpenCVCamera.right o
  end.

Definition hide_frustum (c : t) : t := set_base c (CameraBase.hide_frustum (base c)).

(** [self.position + self.forward * distance]: single-precision arithmetic
    on the float32 pose of the weak-perspective camera, double-precision
    on the pose read from [Rt]. *)
Definition world_point (c : t) (distance : F) : vec3 F :=
  match c with
  | Weak _ => vadd32 (position c) (vscale32 (forward c) distance)
  | OpenCV _ => vadd (position c) (vscale (forward c) distance)
  end.

(** The 24 corner points in normalised device coordinates, as the array
    literal of [show_frustum] lists them, of dtype float32. *)
Definition ndc_corners (z : F) : lines F :=
  let m := - f1 in
  let p := f1 in
  map astype_f4_3
    [ V3 m m m; V3 m p m;
      V3 m m z; V3 m p z;
      V3 p m m; V3 p p m;
      V3 p m z; V3 p p z;

      V3 m m m; V3 m m z;
      V3 m p m; V3 m p z;
      V3 p m m; V3 p m z;
      V3 p p m; V3 p p z;

      V3 m m m; V3 p m m;
      V3 m m z; V3 p m z;
      V3 m p m; V3 p p m;
      V3 m p z; V3 p p z ].

(** The body of the loop of [show_frustum] after [update_matrices]: the
    frustum coordinates of the current frame. *)
Definition frame_lines (c : t) (distance : F) : res (lines F) :=
  V <- get_view_matrix c ;;
  P <- get_projection_matrix c ;;
  let ndc_from_world := matmul32 P V in
  world_from_ndc <- inv ndc_from_world ;;
  let transform := fun x =>
    let v := matvec4 world_from_ndc (homogeneous x) in
    vdivs (head3 v) (w3 v) in
  let world_p := world_point c distance in
  let ndc_p := matvec4 ndc_from_world (homogeneous world_p) in
  let z := w2 ndc_p / w3 ndc_p in
  let lines := ndc_corners z in
  Ok (map transform lines).

(** The loop [for i in range(self.n_frames)], over the frames left to
    visit; [all_lines[i] = lines] casts to float32. *)
Fixpoint sweep (width height distance : F) (frames : list nat) (c : t)
    : res (t * list (lines F)) :=
  match frames with
  | [] => Ok (c, [])
  | i :: frames' =>
      let c := set_current_frame_id c i in
      c <- update_matrices c width height ;;
      lines <- frame_lines c distance ;;
      '(c, all_lines) <- sweep width height distance frames' c ;;
      Ok (c, map astype_f4_3 lines :: all_lines)
  end.

Definition show_frustum (c : t) (width height distance : F) : res t :=
  let c := hide_frustum c in
  let frame_id := current_frame_id c in
  '(c, all_lines) <- sweep width height distance (seq 0 (n_frames c)) c ;;
  let c := set_base c (CameraBase.set_frustum (base c) all_lines) in
  let orientation := transpose3 (V3 (right c) (up c) (forward c)) in
  let c := set_base c (CameraBase.set_origin (base c) (position c, orientation)) in
  Ok (set_current_frame_id c frame_id).
End Defs.
Arguments t F : clear implicits.
End Camera.

(* ===================================================================== *)
(** * class CameraInterface(ABC): the closed set of implementations *)
(* ===================================================================== *)

Module CameraInterface.
Section Defs.
Context {F : Type} `{Scalar F}.
Local Open Scope res_scope.

Variable look_at : vec3 F -> vec3 F -> vec3 F -> res (mat4 F).
Variable orthographic_projection : F -> F -> F -> F -> res (mat4 F).
Variable perspective_projection : F -> F -> F -> F -> res (mat4 F).
Variable deg2rad : F -> F.

Inductive t : Type :=
| Pinhole (c : PinholeCamera.t F)
| Weak (c : WeakPerspectiveCamera.t F)
| OpenCV (c : OpenCVCamera.t F).

(** The double-precision projection and view matrices that
    [update_matrices] computes, before the casts. *)
Definition compute_matrices (c : t) (width height : F) : res (mat4 F * mat4 F) :=
  match c with
  | Pinhole p =>
      PinholeCamera.compute_matrices look_at orthographic_projection
        perspective_projection deg2rad p width height
  | Weak w => WeakPerspectiveCamera.compute_matrices look_at w width height
  | OpenCV o =>
      '(V, P) <- OpenCVCamera.compute_opengl_view_projection o width height ;;
      Ok (P, V)
  end.

Definition update_matrices (c : t) (width height : F) : res t :=
  match c with
  | Pinhole p =>
      p' <- PinholeCamera.update_matrices look_at orthographic_projection
              perspective_projection deg2rad p width height ;;
      Ok (Pinhole p')
  | Weak w => w' <- WeakPerspectiveCamera.update_matrices look_at w width height ;; Ok (Weak w')
  | OpenCV o => o' <- OpenCVCamera.update_matrices o width height ;; Ok (OpenCV o')
  end.

Definition get_projection_matrix (c : t) : res (mat4 F) :=
  match c with
  | Pinhole p => PinholeCamera.get_projection_matrix p
  | Weak w => WeakPerspectiveCamera.get_projection_matrix w
  | OpenCV o => OpenCVCamera.get_projection_matrix o
  end.

Definition get_view_matrix (c : t) : res (mat4 F) :=
  match c with
  | Pinhole p => PinholeCamera.get_view_matrix p
  | Weak w => WeakPerspectiveCamera.get_view_matrix w
  | OpenCV o => OpenCVCamera.get_view_matrix o
  end.

Definition get_view_projection_matrix (c : t) : res (mat4 F) :=
  match c with
  | Pinhole p => PinholeCamera.get_view_projection_matrix p
  | Weak w => WeakPerspectiveCamera.get_view_projection_matrix w
  | OpenCV o => OpenCVCamera.get_view_projection_matrix o
  end.

(** The cameras as their constructors leave them. *)
Inductive fresh : t -> Prop :=
| fresh_pinhole fov orthographic znear zfar :
    fresh (Pinhole (PinholeCamera.__init__ fov orthographic znear zfar))
| fresh_weak scale translation cols rows near far c :
    WeakPerspectiveCamera.__init__ scale translation cols rows near far = Ok c ->
    fresh (Weak c)
| fresh_opencv K Rt cols rows dist_coeffs near far n_frames :
    fresh (OpenCV (OpenCVCamera.__init__ K Rt cols rows dist_coeffs near far n_frames)).
End Defs.
Arguments t F : clear implicits.
End CameraInterface.

(* ===================================================================== *)
(** * Collaborators *)
(* ===================================================================== *)

(** ** aitviewer.scene.camera_utils *)

Module CameraUtils.
Section Defs.
Context {F : Type} `{Scalar F}.
Local Open Scope fl_scope.

Variable tan : F -> F.

Definition normalize (v : vec3 F) : vec3 F := vdivs v (linalg_norm v).

(** Modelled from the spec: [look_at(eye, target, up)] of [camera_utils],
    which is not part of this file.  It builds the basis
    [forward = normalize(target - eye)],
    [right = normalize(cross(forward, up))], [up' = cross(right, forward)]
    and returns the world-to-camera matrix of a camera at [eye] that looks
    down its negative z axis. *)
Definition look_at (eye target up : vec3 F) : res (mat4 F) :=
  let forward := normalize (vsub target eye) in
  let right := normalize (cross forward up) in
  let up' := cross right forward in
  let back := vneg forward in
  Ok (V4 (V4 (x0 right) (x1 right) (x2 right) (- dot3 right eye))
         (V4 (x0 up') (x1 up') (x2 up') (- dot3 up' eye))
         (V4 (x0 back) (x1 back) (x2 back) (- dot3 back eye))
         (V4 f0 f0 f0 f1)).

(** Modelled from the spec: [perspective_projection(fovy, aspect, near,
    far)] of [camera_utils], the right-handed OpenGL frustum matrix. *)
Definition perspective_projection (fovy aspect near far : F) : res (mat4 F) :=
  let f := f1 / tan (fovy / f2) in
  Ok (V4 (V4 (f / aspect) f0 f0 f0)
         (V4 f0 f f0 f0)
         (V4 f0 f0 ((far + near) / (near - far)) (f2 * far * near / (near - far)))
         (V4 f0 f0 (- f1) f0)).

(** Modelled from the spec: [orthographic_projection(x, y, near, far)] of
    [camera_utils], the OpenGL orthographic matrix of half extents [x], [y]. *)
Definition orthographic_projection (x y near far : F) : res (mat4 F) :=
  Ok (V4 (V4 (f1 / x) f0 f0 f0)
         (V4 f0 (f1 / y) f0 f0)
         (V4 f0 f0 (- f2 / (far - near)) (- (far + near) / (far - near)))
         (V4 f0 f0 f0 f1)).
End Defs.
End CameraUtils.

(** ** trimesh.transformations *)

Module Trimesh.
Section Defs.
Context {F : Type} `{Scalar F}.
Local Open Scope fl_scope.

Variables sin cos : F -> F.

(** [rotation_matrix(angle, direction, point)]: the matrix that rotates
    by [angle] about the axis of direction [direction] through [point]. *)
Definition rotation_matrix (angle : F) (direction point : vec3 F) : mat4 F :=
  let sina := sin angle in
  let cosa := cos angle in
  let d := vdivs direction (fsqrt (dot3 direction direction)) in
  let k := f1 - cosa in
  let s := vscale d sina in
  let R :=
    V3 (V3 (cosa + x0 d * x0 d * k + f0) (f0 + x0 d * x1 d * k + - x2 s) (f0 + x0 d * x2 d * k + x1 s))
       (V3 (f0 + x1 d * x0 d * k + x2 s) (cosa + x1 d * x1 d * k + f0) (f0 + x1 d * x2 d * k + - x0 s))
       (V3 (f0 + x2 d * x0 d * k + - x1 s) (f0 + x2 d * x1 d * k + x0 s) (cosa + x2 d * x2 d * k + f0)) in
  let tr := vsub point (matvec3 R point) in
  V4 (V4 (x0 (x0 R)) (x1 (x0 R)) (x2 (x0 R)) (x0 tr))
     (V4 (x0 (x1 R)) (x1 (x1 R)) (x2 (x1 R)) (x1 tr))
     (V4 (x0 (x2 R)) (x1 (x2 R)) (x2 (x2 R)) (x2 tr))
     (V4 f0 f0 f0 f1).
End Defs.
End Trimesh.

(** ** numpy.linalg *)

Module Numpy.
Section Defs.
Context {F : Type} `{Scalar F}.
Local Open Scope fl_scope.

Definition tab4 {A : Type} (f : nat -> A) : vec4 A := V4 (f 0%nat) (f 1%nat) (f 2%nat) (f 3%nat).

Definition get4 {A : Type} (k : nat) (v : vec4 A) : A :=
  match k with
  | 0%nat => w0 v
  | 1%nat => w1 v
  | 2%nat => w2 v
  | _ => w3 v
  end.

Definition drop4 {A : Type} (k : nat) (v : vec4 A) : vec3 A :=
  match k with
  | 0%nat => V3 (w1 v) (w2 v) (w3 v)
  | 1%nat => V3 (w0 v) (w2 v) (w3 v)
  | 2%nat => V3 (w0 v) (w1 v) (w3 v)
  | _ => V3 (w0 v) (w1 v) (w2 v)
  end.

Definition det3 (M : mat3 F) : F :=
  x0 (x0 M) * (x1 (x1 M) * x2 (x2 M) - x2 (x1 M) * x1 (x2 M))
  - x1 (x0 M) * (x0 (x1 M) * x2 (x2 M) - x2 (x1 M) * x0 (x2 M))
  + x2 (x0 M) * (x0 (x1 M) * x1 (x2 M) - x1 (x1 M) * x0 (x2 M)).

Definition cofactor (i j : nat) (M : mat4 F) : F :=
  let minor := det3 (map3 (drop4 j) (drop4 i M)) in
  if Nat.even (i + j) then minor else - minor.

Definition det (M : mat4 F) : F :=
  w0 (w0 M) * cofactor 0 0 M + w1 (w0 M) * cofactor 0 1 M
  + w2 (w0 M) * cofactor 0 2 M + w3 (w0 M) * cofactor 0 3 M.

(** [np.linalg.inv] as a function of exact arithmetic: the inverse matrix
    (the transposed cofactors over the determinant), [LinAlgError] for a
    singular one.  The floating-point routine is a parameter of the
    classes above; this is the function it approximates. *)
Definition inv (M : mat4 F) : res (mat4 F) :=
  let d := det M in
  if d =? f0 then Err LinAlgError
  else Ok (tab4 (fun i => tab4 (fun j => cofactor j i M / d))).
End Defs.
End Numpy.

(** The collaborators in exact real arithmetic. *)
Module Exact.
Definition deg2rad (x : R) : R := (x * (PI / 180))%R.
Definition look_at := @CameraUtils.look_at R Rexact.
Definition perspective_projection := @CameraUtils.perspective_projection R Rexact Rtrigo1.tan.
Definition orthographic_projection := @CameraUtils.orthographic_projection R Rexact.
Definition rotation_matrix := @Trimesh.rotation_matrix R Rexact Rtrigo_def.sin Rtrigo_def.cos.
Definition inv := @Numpy.inv R Rexact.
End Exact.

(* ===================================================================== *)
(** * The vocabulary of the properties, and the inputs they are tried on *)
(* ===================================================================== *)

Section Vocabulary.
Context {F : Type} `{Scalar F}.
Local Open Scope fl_scope.

Variable look_at : vec3 F -> vec3 F -> vec3 F -> res (mat4 F).
Variable inv : mat4 F -> res (mat4 F).



(** The distance [||target - position||] of a pinhole camera. *)
Definition distance_to_target (c : PinholeCamera.t F) : F :=
  linalg_norm (vsub (PinholeCamera.target c) (PinholeCamera.position c)).

(** The line list of frame [i] of the sequence camera [c], for a viewport
    and a distance.  With [ci] the camera [c] after its frame index is set
    to [i] and [update_matrices(width, height)] has run, [P] and [V] the
    projection and view matrices its getters return, and [z] the depth in
    normalised device coordinates of the point at [distance] in front of the
    camera, the list holds the 24 corners of normalised device coordinates
    with depths [-1] and [z], taken to the world by the inverse of [P @ V]
    with the perspective division, and cast to float32. *)
Definition frustum_of_frame (c : Camera.t F) (width height distance : F) (i : nat)
    (l : lines F) : Prop :=
  exists (ci : Camera.t F) (P V world_from_ndc : mat4 F),
    Camera.update_matrices look_at (Camera.set_current_frame_id c i) width height = Ok ci
    /\ Camera.current_frame_id ci = i
    /\ Camera.get_projection_matrix ci = Ok P
    /\ Camera.get_view_matrix ci = Ok V
    /\ inv (matmul32 P V) = Ok world_from_ndc
    /\ let ndc_p := matvec4 (matmul32 P V) (homogeneous (Camera.world_point ci distance)) in
       let z := w2 ndc_p / w3 ndc_p in
       l = map astype_f4_3
             (map (fun x => let v := matvec4 world_from_ndc (homogeneous x) in
                            vdivs (head3 v) (w3 v))
                  (Camera.ndc_corners z)).

(** The extrinsics of a camera at the origin that looks down the z axis:
    identity rotation, zero translation. *)
Definition identity_Rt : mat34 F :=
  V3 (V4 f1 f0 f0 f0) (V4 f0 f1 f0 f0) (V4 f0 f0 f1 f0).
End Vocabulary.

(** ** Inputs in binary64 *)


(** The pinhole camera as [PinholeCamera()] builds it, with clipping planes
    0.1 and 1000. *)
Definition default_pinhole_camera : PinholeCamera.t spec_float :=
  PinholeCamera.__init__ (of_Z 45) None (dec 1 10) (of_Z 1000).

(** One frame of weak-perspective parameters, scale (1.2, 1.1) and
    translation (0.1, 0.2), for a 640 x 480 image. *)
Definition weak_camera_scale : list (spec_float * spec_float) := [(dec 12 10, dec 11 10)].
Definition weak_camera_translation : list (spec_float * spec_float) :=
  [(dec 1 10, dec 2 10)].
Definition weak_camera : res (WeakPerspectiveCamera.t spec_float) :=
  WeakPerspectiveCamera.__init__ weak_camera_scale weak_camera_translation
    (of_Z 640) (of_Z 480) (dec 1 10) (of_Z 100).

(** ** Inputs in exact arithmetic *)

Module ExactInputs.
Local Open Scope R_scope.

(** [speeds] calls of [dolly_zoom(speed, move_target=False)] in a row. *)
Definition dolly_run (zoom : R) (speeds : list R) (c : PinholeCamera.t R) : PinholeCamera.t R :=
  fold_left (fun c speed => PinholeCamera.dolly_zoom zoom c speed false) speeds c.

Definition sumsq (a b c : R) : R := 0 + a * a + b * b + c * c.

Definition default_pinhole_camera : PinholeCamera.t R :=
  PinholeCamera.__init__ (of_Z 45) None (dec 1 10) (of_Z 1000).

(** The default camera moved to (0, 3, 4), from where it looks down on the
    target at the origin: its own up axis is (0, 4/5, -3/5), not the up
    axis (0, 1, 0) of the scene. *)
Definition tilted_pinhole_camera : PinholeCamera.t R :=
  PinholeCamera.set_position default_pinhole_camera (V3 0 3 4).

(** [update_matrices(800, 600)] with the collaborators of exact arithmetic. *)
Definition update_800_600 (c : PinholeCamera.t R) : res (PinholeCamera.t R) :=
  PinholeCamera.update_matrices Exact.look_at Exact.orthographic_projection
    Exact.perspective_projection Exact.deg2rad c 800 600.

(** The view matrix of the tilted camera and its inverse. *)
Definition tilted_view : mat4 R :=
  V4 (V4 1 0 0 0) (V4 0 (4 / 5) (- 3 / 5) 0) (V4 0 (3 / 5) (4 / 5) (- 5)) (V4 0 0 0 1).

Definition tilted_pose : mat4 R :=
  V4 (V4 1 0 0 0) (V4 0 (4 / 5) (3 / 5) 3) (V4 0 (- 3 / 5) (4 / 5) 4) (V4 0 0 0 1).

(** An OpenCV camera at the origin with the identity calibration, a 2 x 2
    image, clipping planes 1 and 3, and two frames; its view and projection
    matrices for a 2 x 2 viewport, their product and its inverse. *)
Definition two_frame_opencv_camera : OpenCVCamera.t R :=
  OpenCVCamera.__init__ (V3 (V3 1 0 0) (V3 0 1 0) (V3 0 0 1)) identity_Rt 2 2 None 1 3 2.

Definition two_frame_V : mat4 R :=
  V4 (V4 1 0 0 0) (V4 0 (- 1) 0 0) (V4 0 0 (- 1) 0) (V4 0 0 0 1).

Definition two_frame_P : mat4 R :=
  V4 (V4 1 0 1 0) (V4 0 1 (- 1) 0) (V4 0 0 (- 2) (- 3)) (V4 0 0 (- 1) 0).

Definition two_frame_PV : mat4 R :=
  V4 (V4 1 0 (- 1) 0) (V4 0 (- 1) 1 0) (V4 0 0 2 (- 3)) (V4 0 0 1 0).

Definition two_frame_inv : mat4 R :=
  V4 (V4 1 0 0 1) (V4 0 (- 1) 0 1) (V4 0 0 0 1) (V4 0 0 (- 1 / 3) (2 / 3)).

(** The cameras that share the calibration of [two_frame_opencv_camera]. *)
Definition is_two_frame (o : OpenCVCamera.t R) : Prop :=
  OpenCVCamera.K o = V3 (V3 1 0 0) (V3 0 1 0) (V3 0 0 1)
  /\ OpenCVCamera.Rt o = V3 (V4 1 0 0 0) (V4 0 1 0 0) (V4 0 0 1 0)
  /\ OpenCVCamera.cols o = 2 /\ OpenCVCamera.rows o = 2
  /\ OpenCVCamera.near o = 1 /\ OpenCVCamera.far o = 3.
End ExactInputs.

(* ===================================================================== *)
(** * Further vocabulary *)
(* ===================================================================== *)

Section Parameters.
Context {F : Type} `{Scalar F}.

(** What a sequence camera is made of apart from its current frame index
    and the matrices it caches: the camera with the index set to 0 and the
    three matrix attributes absent. *)
Definition parameters (c : Camera.t F) : Camera.t F :=
  match c with
  | Camera.Weak w =>
      let b := WeakPerspectiveCamera.base w in
      Camera.Weak
        (WeakPerspectiveCamera.Build (CameraBase.set_current_frame_id b 0)
           (WeakPerspectiveCamera.scale w) (WeakPerspectiveCamera.translation w)
           (WeakPerspectiveCamera.cols w) (WeakPerspectiveCamera.rows w)
           (WeakPerspectiveCamera.near w) (WeakPerspectiveCamera.far w)
           (WeakPerspectiveCamera.position w) (WeakPerspectiveCamera._right w)
           (WeakPerspectiveCamera._up w) (WeakPerspectiveCamera._forward w)
           Unset Unset Unset)
  | Camera.OpenCV o =>
      let b := OpenCVCamera.base o in
      Camera.OpenCV
        (OpenCVCamera.Build (CameraBase.set_current_frame_id b 0)
           (OpenCVCamera.node_position o) (OpenCVCamera.node_rotation o)
           (OpenCVCamera.K o) (OpenCVCamera.Rt o) (OpenCVCamera.dist_coeffs o)
           (OpenCVCamera.cols o) (OpenCVCamera.rows o)
           (OpenCVCamera.near o) (OpenCVCamera.far o)
           Unset Unset Unset)
  end.

(** The orientation that [show_frustum] hands to the coordinate system it
    shows: the matrix whose columns are [right], [up] and [forward]. *)
Definition orientation (c : Camera.t F) : mat3 F :=
  transpose3 (V3 (Camera.right c) (Camera.up c) (Camera.forward c)).
End Parameters.

Section Affine.
Context {F : Type} `{Scalar F}.

(** An affine transformation: a 4 x 4 matrix whose last row is
    [(0, 0, 0, 1)]. *)
Definition affine (M : mat4 F) : Prop := w3 M = V4 f0 f0 f0 f1.

(** [M[:3, :3]]. *)
Definition linear_part (M : mat4 F) : mat3 F :=
  V3 (head3 (w0 M)) (head3 (w1 M)) (head3 (w2 M)).
End Affine.

(** In exact arithmetic, a rotation about an axis through the point [p]:
    an affine transformation that fixes [p] and whose linear part keeps the
    length of every vector. *)
Definition rotation_about (M : mat4 R) (p : vec3 R) : Prop :=
  affine M
  /\ _transform_vector M p = p
  /\ forall v : vec3 R,
       dot3 (matvec3 (linear_part M) v) (matvec3 (linear_part M) v) = dot3 v v.

(** The rows of the rotation part of [Rt] are orthonormal. *)
Definition orthonormal_rotation (Rt : mat34 R) : Prop :=
  let r0 := head3 (x0 Rt) in
  let r1 := head3 (x1 Rt) in
  let r2 := head3 (x2 Rt) in
  dot3 r0 r0 = 1%R /\ dot3 r1 r1 = 1%R /\ dot3 r2 r2 = 1%R
  /\ dot3 r0 r1 = 0%R /\ dot3 r0 r2 = 0%R /\ dot3 r1 r2 = 0%R.

(** ** Further inputs in exact arithmetic *)

Module MoreExactInputs.
Local Open Scope R_scope.

(** An orthographic pinhole camera of size 2 at (0, 3, 4), looking at the
    origin. *)
Definition ortho_pinhole_camera : PinholeCamera.t R :=
  PinholeCamera.set_position
    (PinholeCamera.__init__ (of_Z 45) (Some 2) (dec 1 10) (of_Z 1000)) (V3 0 3 4).

(** One frame of weak-perspective parameters, scale (2, 3) and translation
    (1/2, 1/4), for a 4 x 2 image and clipping planes 1 and 3. *)
Definition weak_exact_camera : res (WeakPerspectiveCamera.t R) :=
  WeakPerspectiveCamera.__init__ [(2, 3)] [(1 / 2, 1 / 4)] 4 2 1 3.
End MoreExactInputs.

(* ===================================================================== *)
(** * class Camera: the [active] property *)
(* ===================================================================== *)

Module CameraAppearance.
Section Defs.
Context {F : Type}.

(** The attributes of [Camera] that the [active] property touches: the
    flag [_active], the two colours and the colour of the camera mesh. *)
Record t : Type := Build {
  _active : bool;
  active_color : vec4 F;
  inactive_color : vec4 F;
  mesh_color : vec4 F
}.

(** [Camera.__init__(inactive_color, active_color)]: the camera starts
    inactive, its mesh in the inactive colour. *)
Definition __init__ (inactive_color active_color : vec4 F) : t :=
  {| _active := false;
     active_color := active_color;
     inactive_color := inactive_color;
     mesh_color := inactive_color |}.

Definition active (c : t) : bool := _active c.

(** The setter of [active]. *)
Definition set_active (c : t) (active : bool) : t :=
  let c := Build active (active_color c) (inactive_color c) (mesh_color c) in
  if active then Build (_active c) (active_color c) (inactive_color c) (active_color c)
  else Build (_active c) (active_color c) (inactive_color c) (inactive_color c).
End Defs.
Arguments t F : clear implicits.
End CameraAppearance.

(* ===================================================================== *)
(** * The cameras on which [update_matrices] was never called *)
(* ===================================================================== *)

Section BeforeUpdate.
Context {F : Type} `{Scalar F}.

Variable inv : mat4 F -> res (mat4 F).
Variable rotation_matrix : F -> vec3 F -> vec3 F -> mat4 F.
Variable camera_zoom_speed : F.

(** The three matrix attributes of a camera. *)
Definition matrices (c : CameraInterface.t F) : attr (mat4 F) * attr (mat4 F) * attr (mat4 F) :=
  match c with
  | CameraInterface.Pinhole p =>
      (PinholeCamera.projection_matrix p, PinholeCamera.view_matrix p,
       PinholeCamera.view_projection_matrix p)
  | CameraInterface.Weak w =>
      (WeakPerspectiveCamera.projection_matrix w, WeakPerspectiveCamera.view_matrix w,
       WeakPerspectiveCamera.view_projection_matrix w)
  | CameraInterface.OpenCV o =>
      (OpenCVCamera.projection_matrix o, OpenCVCamera.view_matrix o,
       OpenCVCamera.view_projection_matrix o)
  end.

(** One call that returns, on a camera, of a method or a property setter of
    its class other than [update_matrices] and [show_frustum] (which calls
    it), and the camera it leaves.  The calls that leave the camera as it
    is ([save_cam], [get_ray], the getters) are left out. *)
Inductive call : CameraInterface.t F -> CameraInterface.t F -> Prop :=
| call_set_position (p : PinholeCamera.t F) (position : vec3 F) :
    call (CameraInterface.Pinhole p)
         (CameraInterface.Pinhole (PinholeCamera.set_position p position))
| call_set_target (p : PinholeCamera.t F) (target : vec3 F) :
    call (CameraInterface.Pinhole p)
         (CameraInterface.Pinhole (PinholeCamera.set_target p target))
| call_set_up (p : PinholeCamera.t F) (up : vec3 F) :
    call (CameraInterface.Pinhole p)
         (CameraInterface.Pinhole
            (PinholeCamera.Build (PinholeCamera.fov p) (PinholeCamera.is_ortho p)
               (PinholeCamera.ortho_size p) (PinholeCamera._position p)
               (PinholeCamera.target p) up
               (PinholeCamera.ZOOM_FACTOR p) (PinholeCamera.ROT_FACTOR p)
               (PinholeCamera.PAN_FACTOR p) (PinholeCamera.near p) (PinholeCamera.far p)
               (PinholeCamera.projection_matrix p) (PinholeCamera.view_matrix p)
               (PinholeCamera.view_projection_matrix p)))
| call_gui (p : PinholeCamera.t F) (is_ortho : bool) (fov : F) :
    call (CameraInterface.Pinhole p)
         (CameraInterface.Pinhole
            (PinholeCamera.Build fov is_ortho
               (PinholeCamera.ortho_size p) (PinholeCamera._position p)
               (PinholeCamera.target p) (PinholeCamera._up p)
               (PinholeCamera.ZOOM_FACTOR p) (PinholeCamera.ROT_FACTOR p)
               (PinholeCamera.PAN_FACTOR p) (PinholeCamera.near p) (PinholeCamera.far p)
               (PinholeCamera.projection_matrix p) (PinholeCamera.view_matrix p)
               (PinholeCamera.view_projection_matrix p)))
| call_dolly_zoom (p : PinholeCamera.t F) (speed : F) (move_target : bool) :
    call (CameraInterface.Pinhole p)
         (CameraInterface.Pinhole
            (PinholeCamera.dolly_zoom camera_zoom_speed p speed move_target))
| call_pan (p : PinholeCamera.t F) (mouse_dx mouse_dy : F) :
    call (CameraInterface.Pinhole p)
         (CameraInterface.Pinhole (PinholeCamera.pan p mouse_dx mouse_dy))
| call_rotate_azimuth_elevation (p p' : PinholeCamera.t F) (mouse_dx mouse_dy : F) :
    PinholeCamera.rotate_azimuth_elevation inv rotation_matrix p mouse_dx mouse_dy = Ok p' ->
    call (CameraInterface.Pinhole p) (CameraInterface.Pinhole p')
| call_rotate_azimuth (p p' : PinholeCamera.t F) (angle : F) :
    PinholeCamera.rotate_azimuth inv rotation_matrix p angle = Ok p' ->
    call (CameraInterface.Pinhole p) (CameraInterface.Pinhole p')
| call_load_cam (p p' : PinholeCamera.t F) (fs : PinholeCamera.store F)
    (printed : list string) :
    PinholeCamera.load_cam p fs = (printed, Ok p') ->
    call (CameraInterface.Pinhole p) (CameraInterface.Pinhole p')
| call_weak_set_frame (w : WeakPerspectiveCamera.t F) (i : nat) :
    call (CameraInterface.Weak w)
         (CameraInterface.Weak
            (WeakPerspectiveCamera.set_base w
               (CameraBase.set_current_frame_id (WeakPerspectiveCamera.base w) i)))
| call_weak_hide_frustum (w : WeakPerspectiveCamera.t F) :
    call (CameraInterface.Weak w)
         (CameraInterface.Weak
            (WeakPerspectiveCamera.set_base w
               (CameraBase.hide_frustum (WeakPerspectiveCamera.base w))))
| call_opencv_set_frame (o : OpenCVCamera.t F) (i : nat) :
    call (CameraInterface.OpenCV o)
         (CameraInterface.OpenCV
            (OpenCVCamera.set_base o
               (CameraBase.set_current_frame_id (OpenCVCamera.base o) i)))
| call_opencv_hide_frustum (o : OpenCVCamera.t F) :
    call (CameraInterface.OpenCV o)
         (CameraInterface.OpenCV
            (OpenCVCamera.set_base o (CameraBase.hide_frustum (OpenCVCamera.base o)))).

(** The states of a camera before any call of [update_matrices]: the camera
    as its constructor leaves it, and then any number of the calls above. *)
Inductive before_update_matrices : CameraInterface.t F -> Prop :=
| constructed (c : CameraInterface.t F) :
    CameraInterface.fresh c -> before_update_matrices c
| called (c c' : CameraInterface.t F) :
    before_update_matrices c -> call c c' -> before_update_matrices c'.
End BeforeUpdate.

(* ===================================================================== *)
(** * Properties that hold in every arithmetic *)
(* ===================================================================== *)

Section Generic.
Context {F : Type} `{Scalar F}.
Local Open Scope fl_scope.

Variable look_at : vec3 F -> vec3 F -> vec3 F -> res (mat4 F).
Variable orthographic_projection : F -> F -> F -> F -> res (mat4 F).
Variable perspective_projection : F -> F -> F -> F -> res (mat4 F).
Variable deg2rad : F -> F.
Variable tan : F -> F.
Variable inv : mat4 F -> res (mat4 F).
Variable rotation_matrix : F -> vec3 F -> vec3 F -> mat4 F.

Lemma bind_ok {A B : Type} (r : res A) (k : A -> res B) (b : B) :
  bind r k = Ok b -> exists a, r = Ok a /\ k a = Ok b.
Proof.
  destruct r as [a | e]; simpl; intros E.
  - exists a. split; [reflexivity | exact E].
  - discriminate E.
Qed.

Lemma pydiv_ok (a b q : F) :
  pydiv a b = Ok q -> (b =? f0) = false /\ q = a / b.
Proof.
  unfold pydiv. destruct (b =? f0); intros E; [discriminate E | ].
  injection E as <-. split; reflexivity.
Qed.

(** A getter returns the stored matrix once it is there, and raises
    otherwise: [ValueError] for [None], [AttributeError] for an attribute
    that was never assigned. *)
Lemma get_matrix_ok {A : Type} (name msg : string) (a : attr A) (m : A) :
  get_matrix name msg a = Ok m <-> a = Val m.
Proof.
  destruct a; simpl; split; intros E; try discriminate E; congruence.
Qed.

Lemma get_matrix_none {A : Type} (name msg : string) :
  get_matrix name msg (@PyNone A) = Err (ValueError msg).
Proof. reflexivity. Qed.

Lemma pinhole_update_matrices_stores (c c' : PinholeCamera.t F) (width height : F) :
  PinholeCamera.update_matrices look_at orthographic_projection perspective_projection
    deg2rad c width height = Ok c' ->
  exists P V,
    PinholeCamera.compute_matrices look_at orthographic_projection perspective_projection
      deg2rad c width height = Ok (P, V)
    /\ c' = PinholeCamera.set_matrices c (astype_f4 P) (astype_f4 V) (astype_f4 (matmul P V)).
Proof.
  unfold PinholeCamera.update_matrices. intros E.
  apply bind_ok in E. destruct E as [[P V] [E1 E2]].
  exists P, V. split; [exact E1 | congruence].
Qed.

Lemma weak_update_matrices_stores (c c' : WeakPerspectiveCamera.t F) (width height : F) :
  WeakPerspectiveCamera.update_matrices look_at c width height = Ok c' ->
  exists P V,
    WeakPerspectiveCamera.compute_matrices look_at c width height = Ok (P, V)
    /\ c' = WeakPerspectiveCamera.set_matrices c (astype_f4 P) (astype_f4 V)
              (astype_f4 (matmul P V)).
Proof.
  unfold WeakPerspectiveCamera.update_matrices. intros E.
  apply bind_ok in E. destruct E as [[P V] [E1 E2]].
  exists P, V. split; [exact E1 | congruence].
Qed.

Lemma opencv_update_matrices_stores (c c' : OpenCVCamera.t F) (width height : F) :
  OpenCVCamera.update_matrices c width height = Ok c' ->
  exists V P,
    OpenCVCamera.compute_opengl_view_projection c width height = Ok (V, P)
    /\ c' = OpenCVCamera.set_matrices c (astype_f4 P) (astype_f4 V)
              (astype_f4 (matmul P V)).
Proof.
  unfold OpenCVCamera.update_matrices. intros E.
  apply bind_ok in E. destruct E as [[V P] [E1 E2]].
  exists V, P. split; [exact E1 | congruence].
Qed.


(** No call other than [update_matrices] assigns a matrix attribute. *)
Lemma call_keeps_matrices (camera_zoom_speed : F) (c c' : CameraInterface.t F) :
  call inv rotation_matrix camera_zoom_speed c c' -> matrices c' = matrices c.
Proof.
  intros [p v | p v | p v | p io fv | p speed [ | ] | p dx dy | p p' dx dy E | p p' angle E
          | p p' fs printed E | w i | w | o i | o]; try reflexivity.
  - unfold PinholeCamera.rotate_azimuth_elevation in E.
    apply bind_ok in E. destruct E as [V [_ E]].
    apply bind_ok in E. destruct E as [M [_ E]].
    injection E as <-. reflexivity.
  - unfold PinholeCamera.rotate_azimuth in E.
    destruct (fabs angle <? dec 1 100000000).
    + injection E as <-. reflexivity.
    + apply bind_ok in E. destruct E as [V [_ E]].
      apply bind_ok in E. destruct E as [M [_ E]].
      injection E as <-. reflexivity.
  - unfold PinholeCamera.load_cam in E.
    destruct (negb (PinholeCamera.cam_dir_exists fs)).
    + injection E as _ <-. reflexivity.
    + destruct (PinholeCamera.cam_params_pkl fs) as [d | ]; [ | discriminate E].
      injection E as _ <-. reflexivity.
Qed.

Lemma fresh_matrices (c : CameraInterface.t F) :
  CameraInterface.fresh c -> matrices c = (Unset, Unset, Unset).
Proof.
  intros [fov o zn zf | sc tr cols rows near far w E | ]; try reflexivity.
  unfold WeakPerspectiveCamera.__init__ in E.
  destruct (negb _) in E; [discriminate E | ].
  injection E as <-. reflexivity.
Qed.

Lemma before_update_matrices_unset (camera_zoom_speed : F) (c : CameraInterface.t F) :
  before_update_matrices inv rotation_matrix camera_zoom_speed c ->
  matrices c = (Unset, Unset, Unset).
Proof.
  induction 1 as [c Hf | c c' _ IH Hc].
  - exact (fresh_matrices Hf).
  - rewrite (call_keeps_matrices Hc). exact IH.
Qed.

(** C2.  The getters on a camera on which [update_matrices] was never
    called: the camera of any of the three classes as its constructor leaves
    it, and then any number of calls of the other methods and setters
    ([pan], [dolly_zoom], the rotations, [load_cam], the assignments of
    [position], [target], [up], of the frame index, [hide_frustum]).  Each
    of the three getters raises and returns no matrix, stale or default; the
    exception is the [AttributeError] of the attribute read in the getter's
    guard, since no constructor binds the matrix attributes.  The
    [ValueError] of the guard, with its message that [update_matrices()]
    must be called before, is what a getter raises when the attribute is
    bound to [None], which no state before [update_matrices] has. *)
Theorem getters_fail_before_update_matrices :
  (forall (camera_zoom_speed : F) (c : CameraInterface.t F),
      before_update_matrices inv rotation_matrix camera_zoom_speed c ->
      matrices c = (Unset, Unset, Unset)
      /\ CameraInterface.get_projection_matrix c = Err (AttributeError "projection_matrix")
      /\ CameraInterface.get_view_matrix c = Err (AttributeError "view_matrix")
      /\ CameraInterface.get_view_projection_matrix c
         = Err (AttributeError "view_projection_matrix"))
  /\ (forall c : CameraInterface.t F,
        matrices c = (PyNone, PyNone, PyNone) ->
        CameraInterface.get_projection_matrix c = Err (ValueError msg_projection)
        /\ CameraInterface.get_view_matrix c = Err (ValueError msg_view)
        /\ CameraInterface.get_view_projection_matrix c
           = Err (ValueError msg_view_projection)).
Proof.
  split.
  - intros zoom c Hc. apply before_update_matrices_unset in Hc.
    split; [exact Hc | ].
    destruct c as [p | w | o]; simpl in Hc; injection Hc as E1 E2 E3;
      unfold CameraInterface.get_projection_matrix, CameraInterface.get_view_matrix,
        CameraInterface.get_view_projection_matrix,
        PinholeCamera.get_projection_matrix, PinholeCamera.get_view_matrix,
        PinholeCamera.get_view_projection_matrix,
        WeakPerspectiveCamera.get_projection_matrix, WeakPerspectiveCamera.get_view_matrix,
        WeakPerspectiveCamera.get_view_projection_matrix,
        OpenCVCamera.get_projection_matrix, OpenCVCamera.get_view_matrix,
        OpenCVCamera.get_view_projection_matrix;
      rewrite E1, E2, E3; repeat split.
  - intros c Hc.
    destruct c as [p | w | o]; simpl in Hc; injection Hc as E1 E2 E3;
      unfold CameraInterface.get_projection_matrix, CameraInterface.get_view_matrix,
        CameraInterface.get_view_projection_matrix,
        PinholeCamera.get_projection_matrix, PinholeCamera.get_view_matrix,
        PinholeCamera.get_view_projection_matrix,
        WeakPerspectiveCamera.get_projection_matrix, WeakPerspectiveCamera.get_view_matrix,
        WeakPerspectiveCamera.get_view_projection_matrix,
        OpenCVCamera.get_projection_matrix, OpenCVCamera.get_view_matrix,
        OpenCVCamera.get_view_projection_matrix;
      rewrite E1, E2, E3; repeat split.
Qed.

(** C10.  On a pinhole camera as its constructor leaves it the navigation
    and ray-casting methods that read [self.view_matrix] raise:
    [rotate_azimuth_elevation] always, [rotate_azimuth] unless the angle is
    below [1e-8] in absolute value (it then returns before the read), and
    [get_ray] always, with the [AttributeError] of the missing attribute
    when the two divisions by [width] and [height] that come first go
    through. *)
Theorem navigation_fails_before_update_matrices :
  forall (fov : F) (orthographic : option F) (znear zfar : F),
    let c := PinholeCamera.__init__ fov orthographic znear zfar in
    (forall mouse_dx mouse_dy,
        PinholeCamera.rotate_azimuth_elevation inv rotation_matrix c mouse_dx mouse_dy
        = Err (AttributeError "view_matrix"))
    /\ (forall angle,
          (fabs angle <? dec 1 100000000) = false ->
          PinholeCamera.rotate_azimuth inv rotation_matrix c angle
          = Err (AttributeError "view_matrix"))
    /\ (forall x y width height,
          is_err (PinholeCamera.get_ray deg2rad tan inv c x y width height))
    /\ (forall x y width height,
          (width =? f0) = false -> (height =? f0) = false ->
          PinholeCamera.get_ray deg2rad tan inv c x y width height
          = Err (AttributeError "view_matrix")).
Proof.
  intros fov o zn zf c. split; [ | split; [ | split]].
  - intros dx dy. reflexivity.
  - intros angle Ha. unfold PinholeCamera.rotate_azimuth. rewrite Ha. reflexivity.
  - intros x y w h. unfold PinholeCamera.get_ray, pydiv.
    destruct (w =? f0); simpl; [exact I | ].
    destruct (h =? f0); simpl; exact I.
  - intros x y w h Hw Hh. unfold PinholeCamera.get_ray, pydiv.
    rewrite Hw, Hh. reflexivity.
Qed.

(** What [load_cam] does when the directory of the parameters is missing:
    it prints the diagnostic and leaves the camera as it is. *)
Lemma load_cam_missing_directory (c : PinholeCamera.t F) (pkl : option (PinholeCamera.cam_dict F)) :
  PinholeCamera.load_cam c {| PinholeCamera.cam_dir_exists := false;
                              PinholeCamera.cam_params_pkl := pkl |}
  = (["camera config does not exist"%string], Ok c).
Proof. reflexivity. Qed.

(** C8, where the code departs from it.  [load_cam] tests the directory
    [camera_params/], not the file [cam_params.pkl]: with the directory there
    and the file missing, nothing is printed and the [FileNotFoundError] of
    [joblib.load] reaches the caller. *)
Theorem load_cam_missing_file_raises :
  forall c : PinholeCamera.t F,
    PinholeCamera.load_cam c {| PinholeCamera.cam_dir_exists := true;
                                PinholeCamera.cam_params_pkl := None |}
    = ([], Err FileNotFoundError).
Proof. reflexivity. Qed.

(** [save_cam] then [load_cam] restores the eight saved fields. *)
Lemma load_cam_after_save_cam (c c0 : PinholeCamera.t F) (fs : PinholeCamera.store F) :
  PinholeCamera.load_cam c0 (PinholeCamera.save_cam c fs)
  = ([], Ok (PinholeCamera.Build (PinholeCamera.fov c0) (PinholeCamera.is_ortho c0)
               (PinholeCamera.ortho_size c0)
               (PinholeCamera.position c) (PinholeCamera.target c) (PinholeCamera.up c)
               (PinholeCamera.ZOOM_FACTOR c) (PinholeCamera.ROT_FACTOR c)
               (PinholeCamera.PAN_FACTOR c) (PinholeCamera.near c) (PinholeCamera.far c)
               (PinholeCamera.projection_matrix c0) (PinholeCamera.view_matrix c0)
               (PinholeCamera.view_projection_matrix c0))).
Proof. reflexivity. Qed.
End Generic.

Section Navigation.
Context {F : Type} `{Scalar F}.
Local Open Scope fl_scope.

Variable inv : mat4 F -> res (mat4 F).
Variable rotation_matrix : F -> vec3 F -> vec3 F -> mat4 F.



(** C5, as the code has it.  [rotate_azimuth(angle)] returns the camera as
    it is when [|angle| < 1e-8], whether or not the matrices were ever
    updated; otherwise, with the view matrix stored and invertible, it
    changes [position] only, to its image under the rotation by [angle]
    through [target] about the camera's own y axis, the second column of
    the inverse view matrix. *)
Theorem rotate_azimuth_spec :
  forall (c : PinholeCamera.t F) (angle : F),
    ((fabs angle <? dec 1 100000000) = true ->
       PinholeCamera.rotate_azimuth inv rotation_matrix c angle = Ok c)
    /\ (forall V cam_pose : mat4 F,
          (fabs angle <? dec 1 100000000) = false ->
          PinholeCamera.view_matrix c = Val V ->
          inv V = Ok cam_pose ->
          PinholeCamera.rotate_azimuth inv rotation_matrix c angle
          = Ok (PinholeCamera.set_position c
                  (_transform_vector
                     (rotation_matrix angle (col3_of4 (@w1 F) cam_pose) (PinholeCamera.target c))
                     (PinholeCamera.position c)))).
Proof.
  intros c angle. unfold PinholeCamera.rotate_azimuth. split.
  - intros ->. reflexivity.
  - intros V cam_pose -> -> E. simpl. rewrite E. reflexivity.
Qed.
End Navigation.

Section Frustum.
Context {F : Type} `{Scalar F}.
Local Open Scope fl_scope.

Variable look_at : vec3 F -> vec3 F -> vec3 F -> res (mat4 F).
Variable inv : mat4 F -> res (mat4 F).

Lemma current_frame_id_set (c : Camera.t F) (i : nat) :
  Camera.current_frame_id (Camera.set_current_frame_id c i) = i.
Proof. destruct c; reflexivity. Qed.

Lemma n_frames_set_current_frame_id (c : Camera.t F) (i : nat) :
  Camera.n_frames (Camera.set_current_frame_id c i) = Camera.n_frames c.
Proof. destruct c; reflexivity. Qed.

Lemma base_update_matrices (c c' : Camera.t F) (width height : F) :
  Camera.update_matrices look_at c width height = Ok c' ->
  Camera.base c' = Camera.base c.
Proof.
  destruct c as [w | o]; simpl; intros E;
    apply bind_ok in E; destruct E as [x [E1 E2]]; injection E2 as <-.
  - apply weak_update_matrices_stores in E1. destruct E1 as [P [V [_ ->]]]. reflexivity.
  - apply opencv_update_matrices_stores in E1. destruct E1 as [V [P [_ ->]]]. reflexivity.
Qed.

Lemma frame_lines_length (c : Camera.t F) (distance : F) (l : lines F) :
  Camera.frame_lines inv c distance = Ok l -> List.length l = 24%nat.
Proof.
  unfold Camera.frame_lines. intros E.
  apply bind_ok in E. destruct E as [V [_ E]].
  apply bind_ok in E. destruct E as [P [_ E]].
  apply bind_ok in E. destruct E as [W [_ E]].
  injection E as <-. reflexivity.
Qed.

Lemma sweep_spec (width height distance : F) (frames : list nat) :
  forall (c c' : Camera.t F) (all_lines : list (lines F)),
    Camera.sweep look_at inv width height distance frames c = Ok (c', all_lines) ->
    Camera.n_frames c' = Camera.n_frames c
    /\ (frames <> [] -> Camera.current_frame_id c' = last frames 0%nat)
    /\ (frames = [] -> c' = c)
    /\ List.length all_lines = List.length frames
    /\ Forall (fun l => List.length l = 24%nat) all_lines.
Proof.
  induction frames as [ | i frames IH]; intros c c' all_lines E; simpl in E.
  - injection E as <- <-. repeat split; auto. intros N. contradiction N. reflexivity.
  - apply bind_ok in E. destruct E as [c1 [E1 E]].
    apply bind_ok in E. destruct E as [raw [E2 E]].
    apply bind_ok in E. destruct E as [[c2 ls] [E3 E]].
    injection E as <- <-.
    destruct (IH _ _ _ E3) as [Hn [Hlast [Hnil [Hlen H24]]]].
    pose proof (base_update_matrices _ _ _ E1) as Hb.
    assert (Hid : Camera.current_frame_id c1 = i).
    { unfold Camera.current_frame_id. rewrite Hb. apply current_frame_id_set. }
    split.
    { rewrite Hn. unfold Camera.n_frames. rewrite Hb.
      apply n_frames_set_current_frame_id. }
    split.
    { intros _. destruct frames as [ | j frames'].
      - rewrite (Hnil eq_refl). exact Hid.
      - rewrite Hlast by discriminate. reflexivity. }
    split; [discriminate | ].
    split; [simpl; rewrite Hlen; reflexivity | ].
    constructor; [ | exact H24].
    rewrite length_map. exact (frame_lines_length _ _ E2).
Qed.

End Frustum.

(* ===================================================================== *)
(** * Facts of binary64 arithmetic *)
(* ===================================================================== *)

Section Binary64.
Local Open Scope Z_scope.

(** The literals of the source are the doubles Python reads them as
    ([float.hex]: [0.01] is [0x1.47ae147ae147bp-7], [2.5] is [0x1.4p+1]). *)
Example literal_0_01 : (dec 1 100 : spec_float) = S754_finite false 0x147AE147AE147B (-59).
Proof. reflexivity. Qed.

Example literal_2_5 : (dec 25 10 : spec_float) = S754_finite false 0x14000000000000 (-51).
Proof. reflexivity. Qed.

Example literal_one : (f1 : spec_float) = S754_finite false 0x10000000000000 (-52).
Proof. reflexivity. Qed.

Lemma div_eucl_mul (m : positive) (k : Z) :
  Z.div_eucl (Z.pos m * k) (Z.pos m) = (k, 0).
Proof.
  pose proof (Z.div_eucl_eq (Z.pos m * k) (Z.pos m)) as E.
  pose proof (Z.mod_pos_bound (Z.pos m * k) (Z.pos m)) as B.
  unfold Z.modulo in B.
  destruct (Z.div_eucl (Z.pos m * k) (Z.pos m)) as [q r].
  specialize (E ltac:(lia)). specialize (B ltac:(lia)).
  assert (q = k) by nia. subst q. f_equal. lia.
Qed.

(** A finite number divided by itself is exactly one. *)
Lemma b64_div_self (s : bool) (m : positive) (e : Z) :
  B64.div (S754_finite s m e) (S754_finite s m e) = f1.
Proof.
  unfold B64.div, SFdiv, SFdiv_core_binary.
  replace (Zdigits2 (Z.pos m) + e - (Zdigits2 (Z.pos m) + e)) with 0 by lia.
  rewrite Z.sub_diag.
  change (Z.min (fexp B64.prec B64.emax 0) 0) with (-53).
  change (0 - -53) with 53.
  rewrite Z.shiftl_mul_pow2 by lia.
  rewrite div_eucl_mul.
  assert (L : new_location (Z.pos m) 0 = loc_Exact).
  { unfold new_location, new_location_even, new_location_odd.
    destruct (Z.even (Z.pos m)); reflexivity. }
  rewrite L. rewrite xorb_nilpotent. reflexivity.
Qed.

(** Multiplication of a binary64 number by one returns it. *)
Lemma b64_mul_one (x : spec_float) :
  B64.wf x = true -> B64.mul x f1 = x.
Proof.
  change (f1 : spec_float) with (S754_finite false 4503599627370496 (-52)).
  destruct x as [s | s | | s m e]; simpl; intros Hwf;
    try (rewrite xorb_false_r; reflexivity); try reflexivity.
  unfold bounded, canonical_mantissa in Hwf.
  apply andb_prop in Hwf. destruct Hwf as [Hc He].
  apply Z.eqb_eq in Hc.
  change B64.prec with 53 in Hc, He. change B64.emax with 1024 in Hc, He.
  unfold B64.mul, SFmul, binary_round_aux, shr_fexp.
  change B64.prec with 53. change B64.emax with 1024.
  rewrite xorb_false_r, Pos.mul_comm.
  cbn [Pos.mul Zdigits2 digits2_pos].
  rewrite !Pos2Z.inj_succ.
  match goal with
  | |- context [fexp 53 1024 ?a - ?b] =>
      replace (fexp 53 1024 a - b) with 52
        by (replace a with (Z.pos (digits2_pos m) + e) by lia; rewrite Hc; lia)
  end.
  cbn [shr shr_record_of_loc iter_pos shr_1 shr_m shr_r shr_s orb
       loc_of_shr_record round_nearest_even].
  replace (e + -52 + 52) with e by lia.
  cbn [Zdigits2]. rewrite Hc, Z.sub_diag. cbn [shr shr_m].
  rewrite He. reflexivity.
Qed.

(** Two numbers that compare equal, one of them finite, are the same
    number. *)
Lemma b64_eqb_finite (x : spec_float) (s : bool) (m : positive) (e : Z) :
  B64.eqb x (S754_finite s m e) = true -> x = S754_finite s m e.
Proof.
  unfold B64.eqb, SFeqb, SFcompare.
  destruct x as [s' | s' | | s' m' e']; try destruct s'; try destruct s;
    try discriminate.
  - destruct (Z.compare_spec e' e) as [-> | _ | _]; try discriminate.
    destruct (Pos.compare_cont Eq m' m) eqn:C; try discriminate.
    apply Pos.compare_eq in C. subst m'. reflexivity.
  - destruct (Z.compare_spec e' e) as [-> | _ | _]; try discriminate.
    destruct (Pos.compare_cont Eq m' m) eqn:C; try discriminate.
    apply Pos.compare_eq in C. subst m'. reflexivity.
Qed.

(** No number is strictly below itself. *)
Lemma b64_ltb_irrefl (x : spec_float) : B64.ltb x x = false.
Proof.
  unfold B64.ltb, SFltb, SFcompare.
  destruct x as [s | s | | s m e]; try destruct s; try reflexivity;
    rewrite Z.compare_refl, Pos.compare_cont_refl; reflexivity.
Qed.
End Binary64.

(* ===================================================================== *)
(** * Properties in binary64 *)
(* ===================================================================== *)

Section Binary64Claims.
Local Open Scope fl_scope.

Variable look_at : vec3 spec_float -> vec3 spec_float -> vec3 spec_float
                   -> res (mat4 spec_float).

(** When the two aspect ratios are the same finite number, the correction
    factor is exactly one. *)
Lemma aspect_correction_matching (c : WeakPerspectiveCamera.t spec_float)
    (width height ar : spec_float) :
  WeakPerspectiveCamera.aspect_correction c width height = Ok ar ->
  (WeakPerspectiveCamera.cols c / WeakPerspectiveCamera.rows c =? width / height) = true ->
  B64.is_finite (width / height) = true ->
  ar = f1.
Proof.
  unfold WeakPerspectiveCamera.aspect_correction. intros E Heq Hfin.
  apply bind_ok in E. destruct E as [window_ar [E1 E]].
  apply bind_ok in E. destruct E as [camera_ar [E2 E]].
  apply pydiv_ok in E1, E2, E.
  destruct E1 as [_ ->], E2 as [_ ->], E as [_ ->].
  destruct (width / height) as [ | | | s m e] eqn:W; try discriminate Hfin.
  apply b64_eqb_finite in Heq. rewrite Heq.
  apply b64_div_self.
Qed.

(** C6.  When [update_matrices(width, height)] returns on a weak-perspective
    camera whose current frame holds [(sx, sy)] and [(tx, ty)], the stored
    projection matrix is the single-precision cast of a matrix [P] with rows
    [[sx * ar, 0, 0, tx * sx * ar]], [[0, sy, 0, -ty * sy]],
    [[0, 0, 2 / (near - far), (far + near) / (near - far)]], [[0, 0, 0, 1]],
    where [ar = (cols / rows) / (width / height)].  When the two ratios are
    the same finite number, [ar] is exactly [1], and the first row of [P] is
    [[sx, 0, 0, tx * sx]]: no correction is left in it. *)
Theorem weak_perspective_projection_entries :
  forall (c c' : WeakPerspectiveCamera.t spec_float) (width height : spec_float),
    WeakPerspectiveCamera.update_matrices look_at c width height = Ok c' ->
    exists (sx sy tx ty ar : spec_float) (P : mat4 spec_float),
      let frame := CameraBase.current_frame_id (WeakPerspectiveCamera.base c) in
      let near := WeakPerspectiveCamera.near c in
      let far := WeakPerspectiveCamera.far c in
      index (WeakPerspectiveCamera.scale c) frame = Ok (sx, sy)
      /\ index (WeakPerspectiveCamera.translation c) frame = Ok (tx, ty)
      /\ WeakPerspectiveCamera.aspect_correction c width height = Ok ar
      /\ ar = (WeakPerspectiveCamera.cols c / WeakPerspectiveCamera.rows c) / (width / height)
      /\ WeakPerspectiveCamera.projection_matrix c' = Val (astype_f4 P)
      /\ w0 P = V4 (sx * ar) f0 f0 (tx * sx * ar)
      /\ w1 P = V4 f0 sy f0 (- ty * sy)
      /\ w2 P = V4 f0 f0 (f2 / (near - far)) ((far + near) / (near - far))
      /\ w3 P = V4 f0 f0 f0 f1
      /\ ((WeakPerspectiveCamera.cols c / WeakPerspectiveCamera.rows c =? width / height) = true ->
          B64.is_finite (width / height) = true ->
          B64.wf sx = true -> B64.wf (tx * sx) = true ->
          ar = f1 /\ w0 P = V4 sx f0 f0 (tx * sx)).
Proof.
  intros c c' width height E.
  apply weak_update_matrices_stores in E. destruct E as [P [V [E ->]]].
  unfold WeakPerspectiveCamera.compute_matrices in E.
  apply bind_ok in E. destruct E as [P' [E E']].
  apply bind_ok in E'. destruct E' as [V' [_ E']]. injection E' as -> ->.
  unfold WeakPerspectiveCamera.projection in E.
  apply bind_ok in E. destruct E as [[sx sy] [Es E]].
  apply bind_ok in E. destruct E as [[tx ty] [Et E]].
  apply bind_ok in E. destruct E as [ar [Ea E]].
  apply bind_ok in E. destruct E as [P22 [E22 E]].
  apply bind_ok in E. destruct E as [P23 [E23 E]].
  injection E as <-.
  apply pydiv_ok in E22, E23. destruct E22 as [_ ->], E23 as [_ ->].
  exists sx, sy, tx, ty, ar. eexists. cbv zeta.
  split; [exact Es | ]. split; [exact Et | ]. split; [exact Ea | ].
  split.
  { unfold WeakPerspectiveCamera.aspect_correction in Ea.
    apply bind_ok in Ea. destruct Ea as [window_ar [E1 Ea]].
    apply bind_ok in Ea. destruct Ea as [camera_ar [E2 Ea]].
    apply pydiv_ok in E1, E2, Ea.
    destruct E1 as [_ ->], E2 as [_ ->], Ea as [_ ->]. reflexivity. }
  split; [reflexivity | ].
  split; [reflexivity | ]. split; [reflexivity | ]. split; [reflexivity | ].
  split; [reflexivity | ].
  intros Heq Hfin Hsx Htx.
  pose proof (aspect_correction_matching _ _ _ Ea Heq Hfin) as ->.
  split; [reflexivity | ]. simpl.
  f_equal; [exact (b64_mul_one sx Hsx) | exact (b64_mul_one _ Htx)].
Qed.
End Binary64Claims.

(** C7.  The pose of an OpenCV camera built from [K] and [Rt], with
    [Rt = [R | t]]: [position] is [(-R^T) @ t], its entry [i] the sum over
    [k] of [-R[k][i] * t[k]]; [forward] is row 2 of [R], [up] is minus row 1
    and [right] is row 0; the position handed to the scene node is the same
    vector.  In binary64, for the identity rotation and zero translation,
    [position] equals the origin (entry by entry under [==]; the entries are
    zeros) and [forward] is [(0, 0, 1)]. *)
Theorem opencv_pose_accessors :
  (forall (F : Type) (S : Scalar F) (K : mat3 F) (Rt : mat34 F) (cols rows : F)
          (dist_coeffs : option (list F)) (near far : F) (n_frames : nat),
      let c := OpenCVCamera.__init__ K Rt cols rows dist_coeffs near far n_frames in
      let r := fun (i : vec3 (vec4 F) -> vec4 F) (j : vec4 F -> F) => j (i Rt) in
      let t := fun (i : vec3 (vec4 F) -> vec4 F) => w3 (i Rt) in
      OpenCVCamera.Rt c = Rt
      /\ OpenCVCamera.position c
         = V3 (f0 + - r (@x0 _) (@w0 _) * t (@x0 _) + - r (@x1 _) (@w0 _) * t (@x1 _)
                  + - r (@x2 _) (@w0 _) * t (@x2 _))
              (f0 + - r (@x0 _) (@w1 _) * t (@x0 _) + - r (@x1 _) (@w1 _) * t (@x1 _)
                  + - r (@x2 _) (@w1 _) * t (@x2 _))
              (f0 + - r (@x0 _) (@w2 _) * t (@x0 _) + - r (@x1 _) (@w2 _) * t (@x1 _)
                  + - r (@x2 _) (@w2 _) * t (@x2 _))
      /\ OpenCVCamera.forward c = V3 (r (@x2 _) (@w0 _)) (r (@x2 _) (@w1 _)) (r (@x2 _) (@w2 _))
      /\ OpenCVCamera.up c
         = V3 (- r (@x1 _) (@w0 _)) (- r (@x1 _) (@w1 _)) (- r (@x1 _) (@w2 _))
      /\ OpenCVCamera.right c = V3 (r (@x0 _) (@w0 _)) (r (@x0 _) (@w1 _)) (r (@x0 _) (@w2 _))
      /\ OpenCVCamera.node_position c = OpenCVCamera.position c)%fl
  /\ (forall (K : mat3 spec_float) (cols rows : spec_float)
             (dist_coeffs : option (list spec_float)) (near far : spec_float)
             (n_frames : nat),
        let c := OpenCVCamera.__init__ K identity_Rt cols rows dist_coeffs near far n_frames in
        veqb (OpenCVCamera.position c) (V3 f0 f0 f0) = true
        /\ OpenCVCamera.forward c = V3 f0 f0 f1).
Proof.
  split.
  - intros F S K Rt cols rows dist near far n c r t.
    repeat (split; [reflexivity | ]). reflexivity.
  - intros K cols rows dist near far n c. split; reflexivity.
Qed.

(** ** The inputs at which the specification's exact statements fail *)


(** C3 fails in floating point.  From the default pose, at distance 2.5 of
    the target, one [dolly_zoom(1.0)] with zoom speed 1 asks for a movement
    of 2.5, which is clamped to [2.5 - 0.01], the double [2.49]; the new
    position is [(0, 0, 2.5 - 2.49)], and [2.5 - 2.49] is the double
    [0.009999999999999787]: the distance to the target is below [0.01]. *)
Lemma dolly_zoom_distance_below_threshold :
  distance_to_target default_pinhole_camera = dec 25 10
  /\ PinholeCamera.dolly_movement f1 default_pinhole_camera f1 = (dec 25 10 - dec 1 100)%fl
  /\ PinholeCamera.position (PinholeCamera.dolly_zoom f1 default_pinhole_camera f1 false)
     = V3 f0 f0 (S754_finite false 0x147AE147AE1400 (-59)%Z)
  /\ (distance_to_target (PinholeCamera.dolly_zoom f1 default_pinhole_camera f1 false)
      <? dec 1 100)%fl = true.
Proof. repeat split; vm_compute; reflexivity. Qed.

(* ===================================================================== *)
(** * Properties in exact arithmetic *)
(* ===================================================================== *)

Section ExactArithmetic.
Import ExactInputs.
Local Open Scope R_scope.

Lemma Reqb_false (a b : R) : a <> b -> RExact.eqb a b = false.
Proof. unfold RExact.eqb. destruct (Req_dec_T a b); [contradiction | reflexivity]. Qed.

Lemma Rltb_false (a b : R) : b <= a -> RExact.ltb a b = false.
Proof. unfold RExact.ltb. destruct (Rlt_dec a b); [lra | reflexivity]. Qed.

Lemma pydiv_R (a b : R) : b <> 0 -> pydiv a b = Ok (a / b).
Proof.
  intros N. unfold pydiv. simpl. unfold f0. simpl.
  rewrite Reqb_false by exact N. reflexivity.
Qed.

Lemma sqrt_eq (x y : R) : 0 <= y -> y * y = x -> sqrt x = y.
Proof. intros Hy <-. apply sqrt_square. exact Hy. Qed.

Lemma pymax_R (a b : R) : pymax a b = Rmax a b.
Proof.
  unfold pymax. simpl. unfold RExact.ltb, Rmax.
  destruct (Rlt_dec a b), (Rle_dec a b); try reflexivity; lra.
Qed.

Lemma pymin_R (a b : R) : pymin a b = Rmin a b.
Proof.
  unfold pymin. simpl. unfold RExact.ltb, Rmin.
  destruct (Rlt_dec b a), (Rle_dec a b); try reflexivity; lra.
Qed.

Lemma V3_eq {A : Type} (a b c a' b' c' : A) :
  a = a' -> b = b' -> c = c' -> V3 a b c = V3 a' b' c'.
Proof. congruence. Qed.

Lemma V4_eq {A : Type} (a b c d a' b' c' d' : A) :
  a = a' -> b = b' -> c = c' -> d = d' -> V4 a b c d = V4 a' b' c' d'.
Proof. congruence. Qed.

(** ** The distance to the target under [dolly_zoom] *)

Lemma sumsq_nonneg (a b c : R) : 0 <= sumsq a b c.
Proof. unfold sumsq. nra. Qed.

Lemma sumsq_pos (a b c : R) : (a, b, c) <> (0, 0, 0) -> 0 < sumsq a b c.
Proof.
  intros N. unfold sumsq.
  destruct (Req_dec a 0) as [-> | Ha]; [ | nra].
  destruct (Req_dec b 0) as [-> | Hb]; [ | nra].
  destruct (Req_dec c 0) as [-> | Hc]; [ | nra].
  contradiction N. reflexivity.
Qed.

(** Moving by [m] along the unit vector towards a point at distance [d]
    leaves the distance [|d - m|]. *)
Lemma norm_after_move (a b c m : R) :
  let d := sqrt (sumsq a b c) in
  0 < d ->
  sqrt (sumsq (a - a / d * m) (b - b / d * m) (c - c / d * m)) = Rabs (d - m).
Proof.
  intros d Hd.
  assert (Hs : d * d = sumsq a b c) by (apply sqrt_sqrt, sumsq_nonneg).
  replace (sumsq (a - a / d * m) (b - b / d * m) (c - c / d * m)) with (Rsqr (d - m)).
  - apply sqrt_Rsqr_abs.
  - unfold Rsqr, sumsq in *.
    assert (E : 0 + (a - a / d * m) * (a - a / d * m) + (b - b / d * m) * (b - b / d * m)
                + (c - c / d * m) * (c - c / d * m)
                = (0 + a * a + b * b + c * c) * ((d - m) / d) * ((d - m) / d))
      by (field; lra).
    rewrite E, <- Hs. field. lra.
Qed.

Lemma distance_pos (c : PinholeCamera.t R) :
  PinholeCamera.position c <> PinholeCamera.target c -> 0 < distance_to_target c.
Proof.
  intros N. unfold distance_to_target, linalg_norm, dot3.
  destruct (PinholeCamera.position c) as [p0 p1 p2] eqn:P.
  destruct (PinholeCamera.target c) as [t0 t1 t2] eqn:T.
  simpl. apply sqrt_lt_R0. apply sumsq_pos.
  intros E. injection E as E0 E1 E2. apply N. f_equal; lra.
Qed.

Lemma distance_after_move (c : PinholeCamera.t R) (o m : R) :
  0 < distance_to_target c ->
  distance_to_target
    (PinholeCamera.set_position (PinholeCamera.set_ortho_size c o)
       (vadd (PinholeCamera.position c) (vscale (PinholeCamera.forward c) m)))
  = Rabs (distance_to_target c - m).
Proof.
  unfold distance_to_target, linalg_norm, PinholeCamera.forward, dot3.
  destruct c as [fov io os [p0 p1 p2] [t0 t1 t2] up zf rf pf nr fr pm vm vpm].
  simpl. intros Hd.
  pose proof (norm_after_move (t0 - p0) (t1 - p1) (t2 - p2) m Hd) as E.
  unfold sumsq in E. rewrite <- E. f_equal.
  set (dd := sqrt _) in *. field. lra.
Qed.

(** One call of [dolly_zoom(speed, move_target=False)] away from the
    target. *)
Lemma dolly_step (zoom speed : R) (c : PinholeCamera.t R) :
  PinholeCamera.position c <> PinholeCamera.target c ->
  let c1 := PinholeCamera.dolly_zoom zoom c speed false in
  let d := distance_to_target c in
  let m := PinholeCamera.dolly_movement zoom c speed in
  PinholeCamera.target c1 = PinholeCamera.target c
  /\ PinholeCamera.position c1
     = vadd (PinholeCamera.position c) (vscale (PinholeCamera.forward c) m)
  /\ m <= Rmax (d - 1 / 100) 0
  /\ distance_to_target c1 = d - m
  /\ Rmin d (1 / 100) <= distance_to_target c1
  /\ PinholeCamera.position c1 <> PinholeCamera.target c1.
Proof.
  intros N c1 d m.
  pose proof (distance_pos c N) as Hd. fold d in Hd.
  assert (Hm : m <= Rmax (d - 1 / 100) 0).
  { unfold m, PinholeCamera.dolly_movement. rewrite pymin_R, !pymax_R.
    apply Rmin_r. }
  assert (Hd1 : distance_to_target c1 = Rabs (d - m)).
  { apply (distance_after_move c _ m Hd). }
  assert (Hpos : 1 / 100 <= d - m \/ (d <= d - m /\ d <= 1 / 100)).
  { unfold Rmax in Hm. destruct (Rle_dec (d - 1 / 100) 0); [right; split | left]; lra. }
  assert (Hge : 0 < d - m) by lra.
  rewrite Rabs_pos_eq in Hd1 by lra.
  split; [reflexivity | ]. split; [reflexivity | ]. split; [exact Hm | ].
  split; [exact Hd1 | ].
  split.
  { rewrite Hd1. unfold Rmin. destruct (Rle_dec d (1 / 100)); lra. }
  intros E. unfold distance_to_target in Hd1. rewrite E in Hd1.
  unfold linalg_norm, dot3 in Hd1. destruct (PinholeCamera.target c1) as [t0 t1 t2].
  simpl in Hd1.
  replace (0 + (t0 - t0) * (t0 - t0) + (t1 - t1) * (t1 - t1) + (t2 - t2) * (t2 - t2))
    with 0 in Hd1 by ring.
  rewrite sqrt_0 in Hd1. lra.
Qed.

(** C3.  What [dolly_zoom(speed, move_target=False)] keeps.

    In every arithmetic, a call keeps [target] and [up] and moves
    [position] along [forward] by the movement
    [m = min(speed * zoom * max(|position - target|, 2),
             max(|target - position| - 0.01, 0))].

    In binary64, the movement is never above the clamp
    [max(|target - position| - 0.01, 0)] the code computes, for any speed,
    a NaN or an infinity included.

    In exact arithmetic, from a pinhole camera that is not at its target,
    at distance [d], any sequence of such calls, of any signs, keeps the
    target and ends at a distance of at least [min(d, 0.01)]: at least 0.01
    when it started there, and never closer than it started otherwise;
    each call moves by at most [max(d - 0.01, 0)] and leaves the distance
    [d - m]. *)
Theorem dolly_zoom_keeps_distance_exact :
  (forall (F : Type) (S : Scalar F) (zoom speed : F) (c : PinholeCamera.t F),
      let c1 := PinholeCamera.dolly_zoom zoom c speed false in
      PinholeCamera.target c1 = PinholeCamera.target c
      /\ PinholeCamera.up c1 = PinholeCamera.up c
      /\ PinholeCamera.position c1
         = vadd (PinholeCamera.position c)
                (vscale (PinholeCamera.forward c) (PinholeCamera.dolly_movement zoom c speed))
      /\ PinholeCamera.dolly_movement zoom c speed
         = pymin (speed * zoom * pymax (linalg_norm (vsub (PinholeCamera.position c)
                                                       (PinholeCamera.target c))) f2)%fl
                 (pymax (distance_to_target c - dec 1 100)%fl f0))
  /\ (forall (zoom speed : spec_float) (c : PinholeCamera.t spec_float),
        fltb (pymax (fsub (distance_to_target c) (dec 1 100)) f0)
             (PinholeCamera.dolly_movement zoom c speed) = false)
  /\ (forall (zoom : R) (speeds : list R) (c : PinholeCamera.t R),
        PinholeCamera.position c <> PinholeCamera.target c ->
        let d := distance_to_target c in
        PinholeCamera.target (dolly_run zoom speeds c) = PinholeCamera.target c
        /\ Rmin d (1 / 100) <= distance_to_target (dolly_run zoom speeds c)
        /\ (forall speed : R,
              let m := PinholeCamera.dolly_movement zoom c speed in
              let c1 := PinholeCamera.dolly_zoom zoom c speed false in
              m <= Rmax (d - 1 / 100) 0
              /\ PinholeCamera.target c1 = PinholeCamera.target c
              /\ PinholeCamera.position c1
                 = vadd (PinholeCamera.position c) (vscale (PinholeCamera.forward c) m)
              /\ distance_to_target c1 = d - m)).
Proof.
  split; [ | split].
  - intros F S zoom speed c c1. unfold c1. destruct c. repeat split.
  - intros zoom speed c. unfold PinholeCamera.dolly_movement, distance_to_target. cbv zeta.
    set (a := fmul _ _). set (b := pymax _ _).
    unfold pymin. destruct (fltb b a) eqn:E.
    + apply b64_ltb_irrefl.
    + exact E.
  - intros zoom speeds. induction speeds as [ | speed speeds IH]; intros c N d.
    + split; [reflexivity | ]. split.
      { simpl. apply Rmin_l. }
      intros speed m c1.
      destruct (dolly_step zoom speed c N) as [Ht [Hp [Hm [Hd _]]]]. auto.
    + destruct (dolly_step zoom speed c N) as [Ht [Hp [Hm [Hd [Hmin Hn]]]]].
      destruct (IH _ Hn) as [IHt [IHd _]].
      change (dolly_run zoom (speed :: speeds) c)
        with (dolly_run zoom speeds (PinholeCamera.dolly_zoom zoom c speed false)).
      split; [rewrite IHt; exact Ht | ].
      split.
      { eapply Rle_trans; [ | exact IHd].
        apply Rmin_glb; [ | apply Rmin_r].
        eapply Rle_trans; [ | exact Hmin]. apply Rle_refl. }
      intros speed' m c1.
      destruct (dolly_step zoom speed' c N) as [Ht' [Hp' [Hm' [Hd' _]]]]. auto.
Qed.
End ExactArithmetic.

(** Evaluation of the model on real numbers: unfold the definitions of this
    file, keep the operations on reals. *)
Ltac rcbn :=
  cbv beta iota zeta delta
    [map3 map4 zip3 col4 col34 head3 col3_of4 transpose3 dot3 dot4 dot4_32
     vadd vsub vneg vscale vdivs vadd32 vscale32 linalg_norm cross matvec3 matvec4
     matmul matmul32 mneg3 eye4 astype_f4 astype_f4_3 homogeneous _transform_vector
     x0 x1 x2 w0 w1 w2 w3 f0 f1 f2 dec of_Z fadd fsub fmul fdiv fneg fabs fsqrt
     fltb feqb f4 fadd32 fmul32 Rexact bind pymax pymin
     Numpy.tab4 Numpy.get4 Numpy.drop4 Numpy.det3 Numpy.cofactor Numpy.det
     Nat.even Nat.add
     PinholeCamera.fov PinholeCamera.is_ortho PinholeCamera.ortho_size
     PinholeCamera._position PinholeCamera.target PinholeCamera._up
     PinholeCamera.ZOOM_FACTOR PinholeCamera.ROT_FACTOR PinholeCamera.PAN_FACTOR
     PinholeCamera.near PinholeCamera.far PinholeCamera.projection_matrix
     PinholeCamera.view_matrix PinholeCamera.view_projection_matrix
     PinholeCamera.position PinholeCamera.up PinholeCamera.set_position
     PinholeCamera.set_target PinholeCamera.set_ortho_size PinholeCamera.set_matrices
     PinholeCamera.__init__ read_array get_matrix].

Ltac rsqrt v :=
  match goal with
  | |- context [sqrt ?x] =>
      lazymatch x with
      | context [sqrt _] => fail
      | _ => replace (sqrt x) with v by (symmetry; apply sqrt_eq; lra)
      end
  end.

Ltac req := repeat first [apply V4_eq | apply V3_eq]; try first [lra | field; lra | field].

Section ExactRuns.
Import ExactInputs.
Local Open Scope R_scope.

Lemma PI_gt_3 : 3 < PI.
Proof. pose proof PI2_3_2. lra. Qed.

(** ** The tilted pinhole camera *)

Lemma look_at_tilted :
  Exact.look_at (V3 0 3 4) (V3 0 0 0) (V3 0 1 0) = Ok tilted_view.
Proof.
  unfold Exact.look_at, CameraUtils.look_at, CameraUtils.normalize.
  rcbn. rsqrt 5. rsqrt (4 / 5).
  unfold tilted_view. apply f_equal. req.
Qed.

Lemma inv_tilted_view : Exact.inv tilted_view = Ok tilted_pose.
Proof.
  unfold Exact.inv, Numpy.inv, tilted_view, tilted_pose. rcbn.
  rewrite Reqb_false by lra.
  apply f_equal. req.
Qed.

Lemma update_tilted_view :
  exists c : PinholeCamera.t R,
    update_800_600 tilted_pinhole_camera = Ok c
    /\ PinholeCamera.view_matrix c = Val tilted_view
    /\ PinholeCamera.position c = V3 0 3 4
    /\ PinholeCamera.target c = V3 0 0 0
    /\ PinholeCamera.up c = V3 0 1 0.
Proof.
  unfold update_800_600, PinholeCamera.update_matrices, PinholeCamera.compute_matrices.
  rewrite pydiv_R by lra.
  unfold tilted_pinhole_camera, default_pinhole_camera.
  rcbn. rewrite look_at_tilted. rcbn.
  eexists. split; [reflexivity | ]. rcbn.
  split; [reflexivity | ]. repeat split.
Qed.

Lemma rotate_about_camera_up :
  _transform_vector (Exact.rotation_matrix PI (V3 0 (4 / 5) (- 3 / 5)) (V3 0 0 0)) (V3 0 3 4)
  = V3 0 (- 3) (- 4).
Proof.
  unfold Exact.rotation_matrix, Trimesh.rotation_matrix.
  rcbn. rewrite sin_PI, cos_PI. rsqrt 1. rcbn. req.
Qed.

Lemma rotate_about_world_up :
  _transform_vector (Exact.rotation_matrix PI (V3 0 1 0) (V3 0 0 0)) (V3 0 3 4)
  = V3 0 3 (- 4).
Proof.
  unfold Exact.rotation_matrix, Trimesh.rotation_matrix.
  rcbn. rewrite sin_PI, cos_PI. rsqrt 1. rcbn. req.
Qed.

(** C5 fails on the axis.  The pinhole camera at (0, 3, 4) looks at the
    origin with the scene's up axis (0, 1, 0); after
    [update_matrices(800, 600)], [rotate_azimuth(pi)] moves it to
    (0, -3, -4), the half turn about the camera's own up axis
    (0, 4/5, -3/5), whereas the half turn about the scene's up axis through
    the target would move it to (0, 3, -4). *)
Lemma rotate_azimuth_axis_is_not_world_up :
  exists c c' : PinholeCamera.t R,
    update_800_600 tilted_pinhole_camera = Ok c
    /\ PinholeCamera.rotate_azimuth Exact.inv Exact.rotation_matrix c PI = Ok c'
    /\ PinholeCamera.position c' = V3 0 (- 3) (- 4)
    /\ _transform_vector
         (Exact.rotation_matrix PI (PinholeCamera.up c) (PinholeCamera.target c))
         (PinholeCamera.position c) = V3 0 3 (- 4)
    /\ PinholeCamera.position c'
       <> _transform_vector
            (Exact.rotation_matrix PI (PinholeCamera.up c) (PinholeCamera.target c))
            (PinholeCamera.position c).
Proof.
  destruct update_tilted_view as [c [Hc [HV [Hp [Ht Hu]]]]].
  assert (Hrot : PinholeCamera.rotate_azimuth Exact.inv Exact.rotation_matrix c PI
                 = Ok (PinholeCamera.set_position c (V3 0 (- 3) (- 4)))).
  { unfold PinholeCamera.rotate_azimuth.
    replace (fltb (fabs PI) (dec 1 100000000)) with false.
    2:{ symmetry. apply Rltb_false. rcbn. pose proof PI_gt_3.
        rewrite Rabs_pos_eq by lra. lra. }
    rewrite HV. unfold read_array, bind. rewrite inv_tilted_view.
    rewrite Ht, Hp.
    replace (col3_of4 (@w1 R) tilted_pose) with (V3 0 (4 / 5) (- 3 / 5)) by reflexivity.
    rewrite rotate_about_camera_up. reflexivity. }
  exists c, (PinholeCamera.set_position c (V3 0 (- 3) (- 4))).
  split; [exact Hc | ]. split; [exact Hrot | ].
  split; [reflexivity | ].
  rewrite Hu, Ht, Hp, rotate_about_world_up.
  split; [reflexivity | ].
  simpl. intros E. injection E as E1. lra.
Qed.

(** ** The two-frame OpenCV camera *)

Lemma two_frame_matrices (o : OpenCVCamera.t R) :
  is_two_frame o ->
  OpenCVCamera.compute_opengl_view_projection o 2 2 = Ok (two_frame_V, two_frame_P).
Proof.
  intros [HK [HRt [Hc [Hr [Hn Hf]]]]].
  unfold OpenCVCamera.compute_opengl_view_projection.
  rewrite HK, HRt, Hc, Hr, Hn, Hf.
  rewrite pydiv_R by lra. rcbn.
  rewrite pydiv_R by lra. rcbn.
  rewrite pydiv_R by lra. rcbn.
  rewrite pydiv_R by lra. rcbn.
  rewrite pydiv_R by lra. rcbn.
  apply f_equal. unfold two_frame_V, two_frame_P. apply f_equal2; req.
Qed.

Lemma two_frame_product :
  matmul32 (astype_f4 two_frame_P) (astype_f4 two_frame_V) = two_frame_PV.
Proof. unfold two_frame_P, two_frame_V, two_frame_PV. rcbn. req. Qed.

Lemma two_frame_inverse : Exact.inv two_frame_PV = Ok two_frame_inv.
Proof.
  unfold Exact.inv, Numpy.inv, two_frame_PV, two_frame_inv. rcbn.
  rewrite Reqb_false by lra. apply f_equal. req.
Qed.

Lemma two_frame_step (o : OpenCVCamera.t R) (distance : R) :
  is_two_frame o ->
  exists (o' : OpenCVCamera.t R) (l : lines R),
    Camera.update_matrices Exact.look_at (Camera.OpenCV o) 2 2 = Ok (Camera.OpenCV o')
    /\ is_two_frame o'
    /\ Camera.frame_lines Exact.inv (Camera.OpenCV o') distance = Ok l.
Proof.
  intros Ho.
  exists (OpenCVCamera.set_matrices o (astype_f4 two_frame_P) (astype_f4 two_frame_V)
            (astype_f4 (matmul two_frame_P two_frame_V))).
  eexists. split.
  { unfold Camera.update_matrices, OpenCVCamera.update_matrices.
    rewrite (two_frame_matrices Ho). reflexivity. }
  split; [exact Ho | ].
  unfold Camera.frame_lines, Camera.get_view_matrix, Camera.get_projection_matrix,
    OpenCVCamera.get_view_matrix, OpenCVCamera.get_projection_matrix,
    OpenCVCamera.set_matrices, OpenCVCamera.view_matrix, OpenCVCamera.projection_matrix,
    get_matrix, bind.
  rewrite two_frame_product, two_frame_inverse. reflexivity.
Qed.

Lemma two_frame_sweep (distance : R) (frames : list nat) :
  forall o : OpenCVCamera.t R,
    is_two_frame o ->
    exists r,
      Camera.sweep Exact.look_at Exact.inv 2 2 distance frames (Camera.OpenCV o) = Ok r.
Proof.
  induction frames as [ | i frames IH]; intros o Ho.
  - eexists. reflexivity.
  - assert (Hi : is_two_frame (OpenCVCamera.set_base o
                   (CameraBase.set_current_frame_id (OpenCVCamera.base o) i))) by exact Ho.
    destruct (two_frame_step distance Hi) as [o' [l [Hu [Ho' Hl]]]].
    destruct (IH o' Ho') as [[c ls] Hs].
    eexists. cbn [Camera.sweep].
    change (Camera.set_current_frame_id (Camera.OpenCV o) i)
      with (Camera.OpenCV (OpenCVCamera.set_base o
              (CameraBase.set_current_frame_id (OpenCVCamera.base o) i))).
    rewrite Hu. cbn [bind]. rewrite Hl. cbn [bind]. rewrite Hs. reflexivity.
Qed.

(** [show_frustum] returns on the two-frame camera. *)
Lemma show_frustum_runs :
  exists c' : Camera.t R,
    Camera.show_frustum Exact.look_at Exact.inv (Camera.OpenCV two_frame_opencv_camera) 2 2 1
    = Ok c'.
Proof.
  unfold Camera.show_frustum.
  assert (Ho : is_two_frame (OpenCVCamera.set_base two_frame_opencv_camera
                  (CameraBase.hide_frustum (OpenCVCamera.base two_frame_opencv_camera)))).
  { repeat split. }
  destruct (two_frame_sweep 1
              (seq 0 (Camera.n_frames
                        (Camera.hide_frustum (Camera.OpenCV two_frame_opencv_camera)))) Ho)
    as [[c ls] Hs].
  change (Camera.hide_frustum (Camera.OpenCV two_frame_opencv_camera))
    with (Camera.OpenCV (OpenCVCamera.set_base two_frame_opencv_camera
            (CameraBase.hide_frustum (OpenCVCamera.base two_frame_opencv_camera)))) in *.
  rewrite Hs. eexists. reflexivity.
Qed.
End ExactRuns.

(* ===================================================================== *)
(** * The properties at concrete inputs *)
(* ===================================================================== *)

Section Witnesses.
Import ExactInputs.
Local Open Scope R_scope.


(** C2 on the default pinhole camera after a zoom and a pan. *)
Lemma getters_fail_before_update_matrices_witness :
  before_update_matrices Exact.inv Exact.rotation_matrix 1
    (CameraInterface.Pinhole
       (PinholeCamera.pan (PinholeCamera.dolly_zoom 1 default_pinhole_camera 1 false) 3 4))
  /\ CameraInterface.get_view_projection_matrix
       (CameraInterface.Pinhole
          (PinholeCamera.pan (PinholeCamera.dolly_zoom 1 default_pinhole_camera 1 false) 3 4))
     = Err (AttributeError "view_projection_matrix").
Proof.
  assert (Hb : before_update_matrices Exact.inv Exact.rotation_matrix 1
                 (CameraInterface.Pinhole
                    (PinholeCamera.pan
                       (PinholeCamera.dolly_zoom 1 default_pinhole_camera 1 false) 3 4))).
  { eapply called; [ | apply call_pan].
    eapply called; [ | apply call_dolly_zoom].
    apply constructed. apply CameraInterface.fresh_pinhole. }
  split; [exact Hb | ].
  destruct (@getters_fail_before_update_matrices R Rexact Exact.inv Exact.rotation_matrix)
    as [Hg _].
  exact (proj2 (proj2 (proj2 (Hg 1 _ Hb)))).
Defined.

(** C3 on the default pinhole camera: zooming in, out and in again leaves it
    at 0.01 of the target or farther. *)
Lemma dolly_zoom_keeps_distance_exact_witness :
  PinholeCamera.position default_pinhole_camera <> PinholeCamera.target default_pinhole_camera
  /\ 1 / 100 <= distance_to_target (dolly_run 1 [1; -1; 5] default_pinhole_camera).
Proof.
  assert (N : PinholeCamera.position default_pinhole_camera
              <> PinholeCamera.target default_pinhole_camera).
  { simpl. unfold f0, dec. simpl. intros E. injection E as E. lra. }
  split; [exact N | ].
  destruct dolly_zoom_keeps_distance_exact as [_ [_ Hexact]].
  destruct (Hexact 1 [1; -1; 5] default_pinhole_camera N) as [_ [Hd _]].
  eapply Rle_trans; [ | exact Hd].
  apply Rmin_glb; [ | apply Rle_refl].
  unfold distance_to_target, linalg_norm, dot3. simpl. unfold f0, dec. simpl.
  apply Rsqr_incr_0_var; [ | apply sqrt_pos].
  rewrite Rsqr_sqrt by nra. unfold Rsqr. nra.
Defined.


(** C5 on the tilted pinhole camera, for a half turn. *)
Lemma rotate_azimuth_spec_witness :
  exists c : PinholeCamera.t R,
    (fltb (fabs PI) (dec 1 100000000)) = false
    /\ PinholeCamera.view_matrix c = Val tilted_view
    /\ Exact.inv tilted_view = Ok tilted_pose
    /\ PinholeCamera.rotate_azimuth Exact.inv Exact.rotation_matrix c PI
       = Ok (PinholeCamera.set_position c
               (_transform_vector
                  (Exact.rotation_matrix PI (col3_of4 (@w1 R) tilted_pose)
                     (PinholeCamera.target c))
                  (PinholeCamera.position c))).
Proof.
  destruct update_tilted_view as [c [_ [HV _]]].
  assert (Ha : fltb (fabs PI) (dec 1 100000000) = false).
  { apply Rltb_false. rcbn. pose proof PI_gt_3. rewrite Rabs_pos_eq by lra. lra. }
  exists c. split; [exact Ha | ]. split; [exact HV | ].
  split; [exact inv_tilted_view | ].
  exact (proj2 (@rotate_azimuth_spec R Rexact Exact.inv Exact.rotation_matrix c PI)
           tilted_view tilted_pose Ha HV inv_tilted_view).
Defined.

(** C10 on the default pinhole camera: a turn by one radian, and the ray
    through the centre of an 800 x 600 viewport. *)
Lemma navigation_fails_before_update_matrices_witness :
  (fltb (fabs 1) (dec 1 100000000)) = false
  /\ PinholeCamera.rotate_azimuth Exact.inv Exact.rotation_matrix default_pinhole_camera 1
     = Err (AttributeError "view_matrix")
  /\ PinholeCamera.get_ray Exact.deg2rad Rtrigo1.tan Exact.inv default_pinhole_camera
       400 300 800 600
     = Err (AttributeError "view_matrix").
Proof.
  assert (Ha : fltb (fabs 1) (dec 1 100000000) = false).
  { apply Rltb_false. rcbn. rewrite Rabs_pos_eq by lra. lra. }
  assert (Hw : feqb 800 f0 = false) by (apply Reqb_false; rcbn; lra).
  assert (Hh : feqb 600 f0 = false) by (apply Reqb_false; rcbn; lra).
  destruct (@navigation_fails_before_update_matrices R Rexact Exact.deg2rad Rtrigo1.tan
              Exact.inv Exact.rotation_matrix (of_Z 45) None (dec 1 10) (of_Z 1000))
    as [_ [Hrot [_ Hray]]].
  split; [exact Ha | ].
  split; [exact (Hrot 1 Ha) | exact (Hray 400 300 800 600 Hw Hh)].
Defined.
End Witnesses.

(** C6 on one frame of scale (1.2, 1.1) and translation (0.1, 0.2), image
    640 x 480 and viewport 1280 x 960: the aspect ratios match, and the
    first row of the projection is [[1.2, 0, 0, 0.1 * 1.2]]. *)
Lemma weak_perspective_projection_entries_witness :
  exists (c c' : WeakPerspectiveCamera.t spec_float) (P : mat4 spec_float),
    weak_camera = Ok c
    /\ WeakPerspectiveCamera.update_matrices (@CameraUtils.look_at spec_float b64) c
         (of_Z 1280) (of_Z 960) = Ok c'
    /\ WeakPerspectiveCamera.projection_matrix c' = Val (astype_f4 P)
    /\ w0 P = V4 (dec 12 10) f0 f0 (dec 1 10 * dec 12 10)%fl.
Proof.
  assert (Hc : exists c, weak_camera = Ok c) by (eexists; vm_compute; reflexivity).
  destruct Hc as [c Hc].
  assert (Hc' : exists c', WeakPerspectiveCamera.update_matrices
                             (@CameraUtils.look_at spec_float b64) c (of_Z 1280) (of_Z 960)
                           = Ok c').
  { vm_compute in Hc. injection Hc as <-. eexists. vm_compute. reflexivity. }
  destruct Hc' as [c' Hc'].
  destruct (@weak_perspective_projection_entries _ c c' (of_Z 1280) (of_Z 960) Hc')
    as [sx [sy [tx [ty [ar [P [Hs [Ht [_ [_ [HP [_ [_ [_ [_ Hm]]]]]]]]]]]]]]].
  vm_compute in Hc. injection Hc as <-.
  vm_compute in Hs. injection Hs as <- <-.
  vm_compute in Ht. injection Ht as <- <-.
  assert (Hrow : w0 P = V4 (dec 12 10) f0 f0 (dec 1 10 * dec 12 10)%fl).
  { apply Hm; vm_compute; reflexivity. }
  eexists _, c', P. split; [vm_compute; reflexivity | ].
  split; [exact Hc' | ]. split; [exact HP | exact Hrow].
Defined.

(* ===================================================================== *)
(** * Further properties of the cameras, in every arithmetic *)
(* ===================================================================== *)

Section MoreGeneric.
Context {F : Type} `{Scalar F}.
Local Open Scope fl_scope.

Variable look_at : vec3 F -> vec3 F -> vec3 F -> res (mat4 F).
Variable orthographic_projection : F -> F -> F -> F -> res (mat4 F).
Variable perspective_projection : F -> F -> F -> F -> res (mat4 F).
Variable deg2rad : F -> F.
Variable tan : F -> F.
Variable inv : mat4 F -> res (mat4 F).

(** ** [update_matrices] *)

(** X1.  [update_matrices] reads the parameters of the camera and never the
    matrices it cached before: a second call with the same viewport returns
    and leaves the camera exactly as the first call left it. *)
Theorem update_matrices_idempotent :
  forall (c c' : CameraInterface.t F) (width height : F),
    CameraInterface.update_matrices look_at orthographic_projection
      perspective_projection deg2rad c width height = Ok c' ->
    CameraInterface.update_matrices look_at orthographic_projection
      perspective_projection deg2rad c' width height = Ok c'.
Proof.
  intros [p | w | o] c' width height E; simpl in E;
    apply bind_ok in E; destruct E as [x [E1 E2]]; injection E2 as <-; simpl.
  - apply pinhole_update_matrices_stores in E1. destruct E1 as [P [V [E1 ->]]].
    unfold PinholeCamera.update_matrices.
    change (PinholeCamera.compute_matrices look_at orthographic_projection
              perspective_projection deg2rad
              (PinholeCamera.set_matrices p (astype_f4 P) (astype_f4 V)
                 (astype_f4 (matmul P V))) width height)
      with (PinholeCamera.compute_matrices look_at orthographic_projection
              perspective_projection deg2rad p width height).
    rewrite E1. reflexivity.
  - apply weak_update_matrices_stores in E1. destruct E1 as [P [V [E1 ->]]].
    unfold WeakPerspectiveCamera.update_matrices.
    change (WeakPerspectiveCamera.compute_matrices look_at
              (WeakPerspectiveCamera.set_matrices w (astype_f4 P) (astype_f4 V)
                 (astype_f4 (matmul P V))) width height)
      with (WeakPerspectiveCamera.compute_matrices look_at w width height).
    rewrite E1. reflexivity.
  - apply opencv_update_matrices_stores in E1. destruct E1 as [V [P [E1 ->]]].
    unfold OpenCVCamera.update_matrices.
    change (OpenCVCamera.compute_opengl_view_projection
              (OpenCVCamera.set_matrices o (astype_f4 P) (astype_f4 V)
                 (astype_f4 (matmul P V))) width height)
      with (OpenCVCamera.compute_opengl_view_projection o width height).
    rewrite E1. reflexivity.
Qed.

(** X2.  A viewport of height zero: [update_matrices(width, 0)] raises
    [ZeroDivisionError] on a pinhole and on an OpenCV camera in any state,
    and on a weak-perspective camera whose current frame index selects a
    scale and a translation; the weak-perspective camera raises [IndexError]
    before it divides when the index is past the end of [scale]. *)
Theorem update_matrices_zero_height :
  forall (width height : F),
    (height =? f0) = true ->
    (forall p : PinholeCamera.t F,
        PinholeCamera.update_matrices look_at orthographic_projection
          perspective_projection deg2rad p width height = Err ZeroDivisionError)
    /\ (forall o : OpenCVCamera.t F,
          OpenCVCamera.update_matrices o width height = Err ZeroDivisionError)
    /\ (forall (w : WeakPerspectiveCamera.t F) (s t : F * F),
          let i := CameraBase.current_frame_id (WeakPerspectiveCamera.base w) in
          nth_error (WeakPerspectiveCamera.scale w) i = Some s ->
          nth_error (WeakPerspectiveCamera.translation w) i = Some t ->
          WeakPerspectiveCamera.update_matrices look_at w width height
          = Err ZeroDivisionError)
    /\ (forall w : WeakPerspectiveCamera.t F,
          (List.length (WeakPerspectiveCamera.scale w)
           <= CameraBase.current_frame_id (WeakPerspectiveCamera.base w))%nat ->
          WeakPerspectiveCamera.update_matrices look_at w width height = Err IndexError).
Proof.
  intros width height Hz. split; [ | split; [ | split]].
  - intros p. unfold PinholeCamera.update_matrices, PinholeCamera.compute_matrices, pydiv.
    rewrite Hz. reflexivity.
  - intros o. unfold OpenCVCamera.update_matrices,
      OpenCVCamera.compute_opengl_view_projection, pydiv.
    rewrite Hz. reflexivity.
  - intros w [sx sy] [tx ty] i Hs Ht.
    unfold WeakPerspectiveCamera.update_matrices, WeakPerspectiveCamera.compute_matrices,
      WeakPerspectiveCamera.projection, WeakPerspectiveCamera.aspect_correction, index, pydiv.
    fold i. rewrite Hs, Ht, Hz. reflexivity.
  - intros w Hlen.
    unfold WeakPerspectiveCamera.update_matrices, WeakPerspectiveCamera.compute_matrices,
      WeakPerspectiveCamera.projection, index.
    apply nth_error_None in Hlen. rewrite Hlen. reflexivity.
Qed.

(** ** [get_ray] *)

(** X3.  [get_ray] divides by the sides of the viewport before it reads the
    view matrix: with a width or a height of zero it raises
    [ZeroDivisionError], in every state of the camera. *)
Theorem get_ray_zero_viewport :
  forall (c : PinholeCamera.t F) (x y width height : F),
    (width =? f0) = true \/ (height =? f0) = true ->
    PinholeCamera.get_ray deg2rad tan inv c x y width height = Err ZeroDivisionError.
Proof.
  intros c x y width height Hz.
  unfold PinholeCamera.get_ray, pydiv.
  destruct (width =? f0) eqn:Hw; [reflexivity | ].
  destruct Hz as [Hz | Hz]; [discriminate Hz | ].
  rewrite Hz. reflexivity.
Qed.

(** X4.  The rays of one camera through two pixels of one viewport: on a
    perspective camera they start at the same point, the image of the origin
    under the inverse of the view matrix; on an orthographic camera they
    have the same direction, [forward] divided by its norm. *)
Theorem get_ray_common_origin_or_direction :
  forall (c : PinholeCamera.t F) (x y x' y' width height : F)
         (o d o' d' : vec3 F),
    PinholeCamera.get_ray deg2rad tan inv c x y width height = Ok (o, d) ->
    PinholeCamera.get_ray deg2rad tan inv c x' y' width height = Ok (o', d') ->
    exists V cam2world : mat4 F,
      PinholeCamera.view_matrix c = Val V
      /\ inv V = Ok cam2world
      /\ (PinholeCamera.is_ortho c = false ->
          o = _transform_vector cam2world (V3 f0 f0 f0) /\ o' = o)
      /\ (PinholeCamera.is_ortho c = true ->
          d = vdivs (PinholeCamera.forward c) (linalg_norm (PinholeCamera.forward c))
          /\ d' = d).
Proof.
  intros c x y x' y' width height o d o' d' E E'.
  unfold PinholeCamera.get_ray in E, E'.
  apply bind_ok in E. destruct E as [qx [_ E]].
  apply bind_ok in E. destruct E as [qy [_ E]].
  apply bind_ok in E. destruct E as [V [EV E]].
  apply bind_ok in E. destruct E as [M [EM E]].
  apply bind_ok in E'. destruct E' as [qx' [_ E']].
  apply bind_ok in E'. destruct E' as [qy' [_ E']].
  apply bind_ok in E'. destruct E' as [V' [EV' E']].
  apply bind_ok in E'. destruct E' as [M' [EM' E']].
  rewrite EV in EV'. injection EV' as <-.
  rewrite EM in EM'. injection EM' as <-.
  exists V, M.
  split.
  { destruct (PinholeCamera.view_matrix c); simpl in EV; try discriminate EV.
    congruence. }
  split; [exact EM | ].
  destruct (PinholeCamera.is_ortho c); simpl in E, E';
    injection E as <- <-; injection E' as <- <-;
    split; intros Ho; try discriminate Ho; split; reflexivity.
Qed.

(** ** [save_cam] and [load_cam] *)

(** X5.  What [load_cam] restores.  After [save_cam] on a camera [c], a
    [load_cam] on a camera [c1] (the same camera, later) prints nothing,
    does not raise, and sets [position], [target], [up], the three factors
    and the clipping planes to those [c] had when it was saved; [fov],
    [is_ortho], [ortho_size] and the cached matrices are not saved: they
    stay as [c1] has them.  Loading straight after saving changes nothing. *)
Theorem load_cam_restores_saved :
  forall (c c1 : PinholeCamera.t F) (fs : PinholeCamera.store F),
    (exists c2 : PinholeCamera.t F,
        PinholeCamera.load_cam c1 (PinholeCamera.save_cam c fs) = ([], Ok c2)
        /\ PinholeCamera.position c2 = PinholeCamera.position c
        /\ PinholeCamera.target c2 = PinholeCamera.target c
        /\ PinholeCamera.up c2 = PinholeCamera.up c
        /\ PinholeCamera.ZOOM_FACTOR c2 = PinholeCamera.ZOOM_FACTOR c
        /\ PinholeCamera.ROT_FACTOR c2 = PinholeCamera.ROT_FACTOR c
        /\ PinholeCamera.PAN_FACTOR c2 = PinholeCamera.PAN_FACTOR c
        /\ PinholeCamera.near c2 = PinholeCamera.near c
        /\ PinholeCamera.far c2 = PinholeCamera.far c
        /\ PinholeCamera.fov c2 = PinholeCamera.fov c1
        /\ PinholeCamera.is_ortho c2 = PinholeCamera.is_ortho c1
        /\ PinholeCamera.ortho_size c2 = PinholeCamera.ortho_size c1
        /\ PinholeCamera.projection_matrix c2 = PinholeCamera.projection_matrix c1
        /\ PinholeCamera.view_matrix c2 = PinholeCamera.view_matrix c1
        /\ PinholeCamera.view_projection_matrix c2 = PinholeCamera.view_projection_matrix c1)
    /\ PinholeCamera.load_cam c (PinholeCamera.save_cam c fs) = ([], Ok c).
Proof.
  intros c c1 fs. split.
  - eexists. split; [reflexivity | ]. simpl. repeat split.
  - destruct c. reflexivity.
Qed.
(** ** [WeakPerspectiveCamera.__init__] *)

(** X21.  The frames of a weak-perspective camera.  [__init__] raises
    [AssertionError] when [scale] and [translation] differ in length;
    otherwise it returns a camera of as many frames as [scale] has entries,
    at frame 0, without frustum, and every frame index below [n_frames]
    selects a scale and a translation. *)
Theorem weak_init_frames :
  forall (scale translation : list (F * F)) (cols rows near far : F),
    (List.length scale <> List.length translation ->
     WeakPerspectiveCamera.__init__ scale translation cols rows near far
     = Err (AssertionError "Number of frames in scale and translation must match"))
    /\ (List.length scale = List.length translation ->
        exists c : WeakPerspectiveCamera.t F,
          WeakPerspectiveCamera.__init__ scale translation cols rows near far = Ok c
          /\ Camera.n_frames (Camera.Weak c) = List.length scale
          /\ Camera.current_frame_id (Camera.Weak c) = 0%nat
          /\ Camera.frustum (Camera.Weak c) = None
          /\ Camera.origin (Camera.Weak c) = None
          /\ forall i : nat,
               (i < Camera.n_frames (Camera.Weak c))%nat ->
               exists s t : F * F,
                 index (WeakPerspectiveCamera.scale c) i = Ok s
                 /\ index (WeakPerspectiveCamera.translation c) i = Ok t).
Proof.
  intros scale translation cols rows near far.
  unfold WeakPerspectiveCamera.__init__. split; intros E.
  - apply Nat.eqb_neq in E. rewrite E. reflexivity.
  - pose proof E as E'. apply Nat.eqb_eq in E'. rewrite E'. simpl.
    eexists. split; [reflexivity | ]. simpl.
    repeat (split; [reflexivity | ]).
    intros i Hi. unfold Camera.n_frames in Hi. simpl in Hi. unfold index.
    destruct (nth_error scale i) as [s | ] eqn:Hs.
    2:{ apply nth_error_None in Hs. lia. }
    destruct (nth_error translation i) as [t | ] eqn:Ht.
    2:{ apply nth_error_None in Ht. lia. }
    exists s, t. split; reflexivity.
Qed.
(** ** When [update_matrices] raises *)

(** X22.  [OpenCVCamera.update_matrices] divides by [height], by
    [window_cols = width / height * rows], by [rows] and by [far - near],
    and by nothing else: it returns when none of the four is zero and raises
    [ZeroDivisionError] otherwise, whatever the calibration and the
    extrinsics. *)
Theorem opencv_update_matrices_raises :
  forall (o : OpenCVCamera.t F) (width height : F),
    let window_cols := width / height * OpenCVCamera.rows o in
    let ok := negb (height =? f0) && negb (window_cols =? f0)
              && negb (OpenCVCamera.rows o =? f0)
              && negb (OpenCVCamera.far o - OpenCVCamera.near o =? f0) in
    (ok = true -> exists o' : OpenCVCamera.t F,
                    OpenCVCamera.update_matrices o width height = Ok o')
    /\ (ok = false -> OpenCVCamera.update_matrices o width height = Err ZeroDivisionError).
Proof.
  intros o width height window_cols ok. unfold ok, window_cols.
  unfold OpenCVCamera.update_matrices, OpenCVCamera.compute_opengl_view_projection, pydiv.
  destruct (height =? f0); simpl.
  { split; intros E; [discriminate E | reflexivity]. }
  destruct (width / height * OpenCVCamera.rows o =? f0); simpl.
  { split; intros E; [discriminate E | reflexivity]. }
  destruct (OpenCVCamera.rows o =? f0); simpl.
  { split; intros E; [discriminate E | reflexivity]. }
  destruct (OpenCVCamera.far o - OpenCVCamera.near o =? f0); simpl.
  { split; intros E; [discriminate E | reflexivity]. }
  split; intros E; [eexists; reflexivity | discriminate E].
Qed.

(** X23.  The projection of [WeakPerspectiveCamera.update_matrices].  It
    raises [IndexError] when the current frame index is past the end of
    [scale] or of [translation]; otherwise it divides by [height], by
    [rows], by [width / height] and by [near - far]: it returns when none of
    the four is zero and raises [ZeroDivisionError] otherwise. *)
Theorem weak_projection_raises :
  forall (w : WeakPerspectiveCamera.t F) (width height : F),
    let i := CameraBase.current_frame_id (WeakPerspectiveCamera.base w) in
    let ok := negb (height =? f0) && negb (WeakPerspectiveCamera.rows w =? f0)
              && negb (width / height =? f0)
              && negb (WeakPerspectiveCamera.near w - WeakPerspectiveCamera.far w =? f0) in
    ((List.length (WeakPerspectiveCamera.scale w) <= i)%nat
     \/ (List.length (WeakPerspectiveCamera.translation w) <= i)%nat ->
     WeakPerspectiveCamera.projection w width height = Err IndexError)
    /\ ((i < List.length (WeakPerspectiveCamera.scale w))%nat ->
        (i < List.length (WeakPerspectiveCamera.translation w))%nat ->
        (ok = true -> exists P : mat4 F,
                        WeakPerspectiveCamera.projection w width height = Ok P)
        /\ (ok = false ->
            WeakPerspectiveCamera.projection w width height = Err ZeroDivisionError)).
Proof.
  intros w width height i ok. unfold ok.
  unfold WeakPerspectiveCamera.projection, WeakPerspectiveCamera.aspect_correction,
    index, pydiv.
  fold i. split.
  - intros [Hs | Ht].
    + apply nth_error_None in Hs. rewrite Hs. reflexivity.
    + apply nth_error_None in Ht. rewrite Ht.
      destruct (nth_error (WeakPerspectiveCamera.scale w) i) as [[sx sy] | ]; reflexivity.
  - intros Hs Ht.
    destruct (nth_error (WeakPerspectiveCamera.scale w) i) as [[sx sy] | ] eqn:Es.
    2:{ apply nth_error_None in Es. lia. }
    destruct (nth_error (WeakPerspectiveCamera.translation w) i) as [[tx ty] | ] eqn:Et.
    2:{ apply nth_error_None in Et. lia. }
    simpl.
    destruct (height =? f0); simpl.
    { split; intros E; [discriminate E | reflexivity]. }
    destruct (WeakPerspectiveCamera.rows w =? f0); simpl.
    { split; intros E; [discriminate E | reflexivity]. }
    destruct (width / height =? f0); simpl.
    { split; intros E; [discriminate E | reflexivity]. }
    destruct (WeakPerspectiveCamera.near w - WeakPerspectiveCamera.far w =? f0); simpl.
    { split; intros E; [discriminate E | reflexivity]. }
    split; intros E; [eexists; reflexivity | discriminate E].
Qed.
(** ** The [active] property of [Camera] *)

Lemma set_active_keeps (c : CameraAppearance.t F) (a : bool) :
  let c' := CameraAppearance.set_active c a in
  CameraAppearance.active c' = a
  /\ CameraAppearance.active_color c' = CameraAppearance.active_color c
  /\ CameraAppearance.inactive_color c' = CameraAppearance.inactive_color c
  /\ CameraAppearance.mesh_color c'
     = (if a then CameraAppearance.active_color c else CameraAppearance.inactive_color c).
Proof. destruct a; repeat split. Qed.

Lemma last_cons_default {A : Type} (l : list A) :
  forall a d : A, last (a :: l) d = last l a.
Proof.
  induction l as [ | b l IH]; intros a d; [reflexivity | ].
  change (last (a :: b :: l) d) with (last (b :: l) d).
  rewrite !IH. reflexivity.
Qed.

(** X24.  The colour of the camera mesh follows the [active] flag.  After
    [__init__] and any sequence of assignments to [active], the flag is the
    last value assigned ([False] if there was none), the mesh has the
    active colour when the flag is set and the inactive colour otherwise,
    and the two colours are those given to [__init__]. *)
Theorem mesh_color_follows_active :
  forall (inactive_color active_color : vec4 F) (flags : list bool),
    let c := fold_left CameraAppearance.set_active flags
               (CameraAppearance.__init__ inactive_color active_color) in
    CameraAppearance.active c = last flags false
    /\ CameraAppearance.mesh_color c
       = (if CameraAppearance.active c then active_color else inactive_color)
    /\ CameraAppearance.active_color c = active_color
    /\ CameraAppearance.inactive_color c = inactive_color.
Proof.
  intros inactive_color active_color flags.
  assert (G : forall (c0 : CameraAppearance.t F),
             CameraAppearance.mesh_color c0
             = (if CameraAppearance.active c0 then active_color else inactive_color) ->
             CameraAppearance.active_color c0 = active_color ->
             CameraAppearance.inactive_color c0 = inactive_color ->
             let c := fold_left CameraAppearance.set_active flags c0 in
             CameraAppearance.active c = last flags (CameraAppearance.active c0)
             /\ CameraAppearance.mesh_color c
                = (if CameraAppearance.active c then active_color else inactive_color)
             /\ CameraAppearance.active_color c = active_color
             /\ CameraAppearance.inactive_color c = inactive_color).
  { induction flags as [ | a flags IH]; intros c0 Hm Ha Hi.
    - simpl. auto.
    - destruct (set_active_keeps c0 a) as [K1 [K2 [K3 K4]]].
      cbn [fold_left].
      destruct (IH (CameraAppearance.set_active c0 a)) as [I1 I2].
      + rewrite K4, K1, Ha, Hi. reflexivity.
      + rewrite K2. exact Ha.
      + rewrite K3. exact Hi.
      + split; [ | exact I2].
        rewrite I1, K1. symmetry. apply last_cons_default. }
  apply G; reflexivity.
Qed.
End MoreGeneric.

(* ===================================================================== *)
(** * Further properties of [show_frustum] and [hide_frustum] *)
(* ===================================================================== *)

Section MoreFrustum.
Context {F : Type} `{Scalar F}.
Local Open Scope fl_scope.

Variable look_at : vec3 F -> vec3 F -> vec3 F -> res (mat4 F).
Variable inv : mat4 F -> res (mat4 F).

Lemma parameters_set_current_frame_id (c : Camera.t F) (i : nat) :
  parameters (Camera.set_current_frame_id c i) = parameters c.
Proof. destruct c; reflexivity. Qed.

Lemma parameters_update_matrices (c c' : Camera.t F) (width height : F) :
  Camera.update_matrices look_at c width height = Ok c' ->
  parameters c' = parameters c.
Proof.
  destruct c as [w | o]; simpl; intros E;
    apply bind_ok in E; destruct E as [x [E1 E2]]; injection E2 as <-.
  - apply weak_update_matrices_stores in E1. destruct E1 as [P [V [_ ->]]]. reflexivity.
  - apply opencv_update_matrices_stores in E1. destruct E1 as [V [P [_ ->]]]. reflexivity.
Qed.

Lemma parameters_sweep (width height distance : F) (frames : list nat) :
  forall (c c' : Camera.t F) (all_lines : list (lines F)),
    Camera.sweep look_at inv width height distance frames c = Ok (c', all_lines) ->
    parameters c' = parameters c.
Proof.
  induction frames as [ | i frames IH]; intros c c' all_lines E; simpl in E.
  - injection E as <- _. reflexivity.
  - apply bind_ok in E. destruct E as [c1 [E1 E]].
    apply bind_ok in E. destruct E as [raw [_ E]].
    apply bind_ok in E. destruct E as [[c2 ls] [E3 E]].
    injection E as <- _.
    rewrite (IH _ _ _ E3), (parameters_update_matrices _ _ _ E1).
    apply parameters_set_current_frame_id.
Qed.

(** The pose of a camera is part of its parameters. *)
Lemma parameters_pose (a b : Camera.t F) :
  parameters a = parameters b ->
  Camera.position a = Camera.position b /\ orientation a = orientation b
  /\ Camera.n_frames a = Camera.n_frames b
  /\ Camera.frustum a = Camera.frustum b /\ Camera.origin a = Camera.origin b.
Proof.
  destruct a as [a | a], b as [b | b]; simpl; intros E; try discriminate E;
    injection E as E; destruct a, b; simpl in *;
    repeat match goal with
           | b : CameraBase.t _ |- _ => destruct b
           end;
    unfold CameraBase.set_current_frame_id in *; simpl in *.
  - subst. repeat split.
  - subst.
    unfold orientation, Camera.position, Camera.right, Camera.up, Camera.forward,
      OpenCVCamera.position, OpenCVCamera.right, OpenCVCamera.up, OpenCVCamera.forward.
    simpl. repeat split.
Qed.
(** [update_matrices] after the frame index is set depends on the
    parameters only. *)
Lemma update_matrices_parameters (a b : Camera.t F) (i : nat) (width height : F) :
  parameters a = parameters b ->
  Camera.frustum a = Camera.frustum b -> Camera.origin a = Camera.origin b ->
  Camera.update_matrices look_at (Camera.set_current_frame_id a i) width height
  = Camera.update_matrices look_at (Camera.set_current_frame_id b i) width height.
Proof.
  destruct a as [a | a], b as [b | b]; simpl; intros E; try discriminate E;
    injection E as E; destruct a, b; simpl in *;
    repeat match goal with
           | b : CameraBase.t _ |- _ => destruct b
           end;
    unfold CameraBase.set_current_frame_id in *; simpl in *;
    intros; subst; reflexivity.
Qed.

Lemma sweep_parameters (width height distance : F) (i : nat) (frames : list nat)
    (a b : Camera.t F) :
  parameters a = parameters b ->
  Camera.sweep look_at inv width height distance (i :: frames) a
  = Camera.sweep look_at inv width height distance (i :: frames) b.
Proof.
  intros E. destruct (parameters_pose _ _ E) as [_ [_ [_ [Hf Ho]]]].
  simpl. rewrite (update_matrices_parameters _ _ i width height E Hf Ho). reflexivity.
Qed.

Lemma hide_frustum_shown (c : Camera.t F) (all_lines : list (lines F))
    (o : vec3 F * mat3 F) (i : nat) :
  let c1 := Camera.set_base c (CameraBase.set_frustum (Camera.base c) all_lines) in
  let c2 := Camera.set_base c1 (CameraBase.set_origin (Camera.base c1) o) in
  Camera.hide_frustum (Camera.set_current_frame_id c2 i)
  = Camera.hide_frustum (Camera.set_current_frame_id c i).
Proof. destruct c; reflexivity. Qed.

Lemma hide_frustum_twice (c : Camera.t F) :
  Camera.hide_frustum (Camera.set_current_frame_id (Camera.hide_frustum c)
                         (Camera.current_frame_id c))
  = Camera.hide_frustum c.
Proof. destruct c as [[[]] | [[]]]; reflexivity. Qed.

Lemma parameters_hide_frustum (a b : Camera.t F) (i : nat) :
  parameters a = parameters b ->
  parameters (Camera.hide_frustum (Camera.set_current_frame_id a i))
  = parameters (Camera.hide_frustum b).
Proof.
  destruct a as [a | a], b as [b | b]; simpl; intros E; try discriminate E;
    injection E as E; destruct a, b; simpl in *;
    repeat match goal with
           | b : CameraBase.t _ |- _ => destruct b
           end;
    unfold CameraBase.set_current_frame_id in *; simpl in *;
    subst; reflexivity.
Qed.

(** ** The frames of the sweep *)

Lemma frame_lines_spec (c : Camera.t F) (distance : F) (raw : lines F) :
  Camera.frame_lines inv c distance = Ok raw ->
  exists P V world_from_ndc : mat4 F,
    Camera.get_projection_matrix c = Ok P
    /\ Camera.get_view_matrix c = Ok V
    /\ inv (matmul32 P V) = Ok world_from_ndc
    /\ let ndc_p := matvec4 (matmul32 P V) (homogeneous (Camera.world_point c distance)) in
       let z := w2 ndc_p / w3 ndc_p in
       raw = map (fun x => let v := matvec4 world_from_ndc (homogeneous x) in
                           vdivs (head3 v) (w3 v))
               (Camera.ndc_corners z).
Proof.
  unfold Camera.frame_lines. intros E.
  apply bind_ok in E. destruct E as [V [EV E]].
  apply bind_ok in E. destruct E as [P [EP E]].
  apply bind_ok in E. destruct E as [W [EW E]].
  exists P, V, W. split; [exact EP | ]. split; [exact EV | ]. split; [exact EW | ].
  cbv zeta. congruence.
Qed.

(** Each step of the sweep computes the frame it is at from the camera the
    sweep started with: the cameras in between differ from it in the frame
    index and the cached matrices only. *)
Lemma sweep_frames (width height distance : F) (c0 : Camera.t F) (frames : list nat) :
  forall (c c' : Camera.t F) (all_lines : list (lines F)),
    parameters c = parameters c0 ->
    Camera.sweep look_at inv width height distance frames c = Ok (c', all_lines) ->
    Forall2 (frustum_of_frame look_at inv c0 width height distance) frames all_lines.
Proof.
  induction frames as [ | i frames IH]; intros c c' all_lines Hp E; simpl in E.
  - injection E as _ <-. constructor.
  - apply bind_ok in E. destruct E as [c1 [E1 E]].
    apply bind_ok in E. destruct E as [raw [E2 E]].
    apply bind_ok in E. destruct E as [[c2 ls] [E3 E]].
    injection E as _ <-.
    assert (Hp1 : parameters c1 = parameters c0).
    { rewrite (parameters_update_matrices _ _ _ E1), parameters_set_current_frame_id.
      exact Hp. }
    constructor; [ | exact (IH _ _ _ Hp1 E3)].
    destruct (parameters_pose _ _ Hp) as [_ [_ [_ [Hf Ho]]]].
    rewrite (update_matrices_parameters _ _ i width height Hp Hf Ho) in E1.
    destruct (frame_lines_spec _ _ E2) as [P [V [W [EP [EV [EW Eraw]]]]]].
    exists c1, P, V, W.
    split; [exact E1 | ].
    split.
    { unfold Camera.current_frame_id.
      rewrite (base_update_matrices look_at _ _ _ E1). apply current_frame_id_set. }
    split; [exact EP | ]. split; [exact EV | ]. split; [exact EW | ].
    cbv zeta in Eraw |- *. rewrite Eraw. reflexivity.
Qed.

(** C9.  When [show_frustum(width, height, distance)] returns, the camera's
    current frame index and number of frames are what they were before the
    call, and the stored frustum holds one line list per frame index
    [0 .. n_frames - 1], in that order, each of 24 points: the list at index
    [i] is the frustum of frame [i] of this camera (the camera as
    [hide_frustum] leaves it, with its frame index set to [i] and its
    matrices updated for the viewport), that is the 24 corners of
    normalised device coordinates with depths [-1] and [z], taken to the
    world by the inverse of the product of the projection and view matrices
    of that frame. *)
Theorem show_frustum_restores_frame :
  forall (c c' : Camera.t F) (width height distance : F),
    Camera.show_frustum look_at inv c width height distance = Ok c' ->
    Camera.current_frame_id c' = Camera.current_frame_id c
    /\ Camera.n_frames c' = Camera.n_frames c
    /\ exists all_lines : list (lines F),
         Camera.frustum c' = Some all_lines
         /\ List.length all_lines = Camera.n_frames c
         /\ Forall (fun l => List.length l = 24%nat) all_lines
         /\ Forall2 (frustum_of_frame look_at inv (Camera.hide_frustum c)
                       width height distance)
              (seq 0 (Camera.n_frames c)) all_lines.
Proof.
  intros c c' width height distance E. unfold Camera.show_frustum in E.
  apply bind_ok in E. destruct E as [[c1 all_lines] [E1 E]].
  injection E as <-.
  destruct (sweep_spec look_at inv _ _ _ _ _ E1) as [Hn [_ [_ [Hlen H24]]]].
  pose proof (sweep_frames _ _ _ (Camera.hide_frustum c) _ _ eq_refl E1) as HF.
  assert (Hh : Camera.n_frames (Camera.hide_frustum c) = Camera.n_frames c)
    by (destruct c; reflexivity).
  assert (Hi : Camera.current_frame_id (Camera.hide_frustum c) = Camera.current_frame_id c)
    by (destruct c; reflexivity).
  rewrite Hh in *. rewrite Hi.
  split; [apply current_frame_id_set | ].
  split; [rewrite <- Hn; destruct c1; reflexivity | ].
  exists all_lines.
  split; [destruct c1; reflexivity | ].
  split; [rewrite Hlen; apply length_seq | ].
  split; [exact H24 | exact HF].
Qed.

(** X6.  [show_frustum] is idempotent: when it returns, a second call with
    the same arguments returns too and leaves the camera exactly as the
    first call left it (the frustum and the coordinate system are removed
    and computed again from the same parameters). *)
Theorem show_frustum_idempotent :
  forall (c c' : Camera.t F) (width height distance : F),
    Camera.show_frustum look_at inv c width height distance = Ok c' ->
    Camera.show_frustum look_at inv c' width height distance = Ok c'.
Proof.
  intros c c' width height distance E.
  pose proof E as E0. unfold Camera.show_frustum in E.
  apply bind_ok in E. destruct E as [[c1 all_lines] [E1 E]].
  injection E as E.
  assert (Hh : Camera.n_frames (Camera.hide_frustum c) = Camera.n_frames c)
    by (destruct c; reflexivity).
  assert (Hi : Camera.current_frame_id (Camera.hide_frustum c) = Camera.current_frame_id c)
    by (destruct c; reflexivity).
  rewrite Hh in E1. rewrite Hi in E.
  pose proof (parameters_sweep _ _ _ _ _ E1) as Hp.
  assert (Hhide : Camera.hide_frustum c'
                  = Camera.hide_frustum
                      (Camera.set_current_frame_id c1 (Camera.current_frame_id c))).
  { rewrite <- E. apply hide_frustum_shown. }
  assert (Hn : Camera.n_frames (Camera.hide_frustum c') = Camera.n_frames c).
  { rewrite Hhide.
    destruct (parameters_pose _ _ Hp) as [_ [_ [Hn _]]].
    rewrite <- Hh, <- Hn. destruct c1; reflexivity. }
  assert (Hid : Camera.current_frame_id (Camera.hide_frustum c') = Camera.current_frame_id c).
  { rewrite Hhide. destruct c1; reflexivity. }
  assert (Hs : Camera.sweep look_at inv width height distance
                 (seq 0 (Camera.n_frames c)) (Camera.hide_frustum c')
               = Ok (c1, all_lines)).
  { destruct (Camera.n_frames c) as [ | k] eqn:N.
    - simpl in E1 |- *. injection E1 as <- <-.
      rewrite Hhide, hide_frustum_twice. reflexivity.
    - change (seq 0 (S k)) with (0%nat :: seq 1 k) in E1 |- *.
      rewrite <- E1. apply sweep_parameters.
      rewrite Hhide.
      replace (Camera.hide_frustum c) with (Camera.hide_frustum (Camera.hide_frustum c))
        by (destruct c; reflexivity).
      apply parameters_hide_frustum. exact Hp. }
  unfold Camera.show_frustum. rewrite Hn, Hs, Hid. simpl. rewrite E. reflexivity.
Qed.

(** X7.  The coordinate system that [show_frustum] shows sits at the
    position of the camera, and the columns of its orientation are [right],
    [up] and [forward]; the sweep over the frames changes neither.  A
    [hide_frustum] after it removes the frustum and the coordinate system
    and keeps the current frame. *)
Theorem show_frustum_origin :
  forall (c c' : Camera.t F) (width height distance : F),
    Camera.show_frustum look_at inv c width height distance = Ok c' ->
    Camera.origin c' = Some (Camera.position c, orientation c)
    /\ Camera.position c' = Camera.position c
    /\ orientation c' = orientation c
    /\ Camera.frustum (Camera.hide_frustum c') = None
    /\ Camera.origin (Camera.hide_frustum c') = None
    /\ Camera.current_frame_id (Camera.hide_frustum c') = Camera.current_frame_id c.
Proof.
  intros c c' width height distance E.
  unfold Camera.show_frustum in E.
  apply bind_ok in E. destruct E as [[c1 all_lines] [E1 E]].
  injection E as <-.
  pose proof (parameters_sweep _ _ _ _ _ E1) as Hp.
  assert (Hpose : Camera.position c1 = Camera.position c /\ orientation c1 = orientation c).
  { destruct (parameters_pose _ _ Hp) as [P1 [P2 _]]. rewrite P1, P2.
    destruct c; split; reflexivity. }
  destruct Hpose as [P1 P2].
  assert (Hi : Camera.current_frame_id (Camera.hide_frustum c) = Camera.current_frame_id c)
    by (destruct c; reflexivity).
  rewrite Hi. rewrite <- P1, <- P2.
  destruct c1 as [[[]] | [[]]]; repeat split.
Qed.
End MoreFrustum.

(* ===================================================================== *)
(** * Further properties in exact arithmetic *)
(* ===================================================================== *)

Section MoreExact.
Import ExactInputs.
Local Open Scope R_scope.

Lemma Reqb_false_inv (a b : R) : RExact.eqb a b = false -> a <> b.
Proof. unfold RExact.eqb. destruct (Req_dec_T a b); [discriminate | auto]. Qed.

Lemma pydiv_R_ok (a b q : R) : pydiv a b = Ok q -> b <> 0 /\ q = a / b.
Proof.
  intros E. apply pydiv_ok in E. destruct E as [E ->].
  split; [ | reflexivity]. apply Reqb_false_inv in E. exact E.
Qed.

(** ** [_transform_vector] *)

Lemma transform_matmul (A B : mat4 R) (v : vec3 R) :
  affine B ->
  _transform_vector (matmul A B) v = _transform_vector A (_transform_vector B v).
Proof.
  destruct A as [[a00 a01 a02 a03] [a10 a11 a12 a13] [a20 a21 a22 a23] [a30 a31 a32 a33]],
           B as [[b00 b01 b02 b03] [b10 b11 b12 b13] [b20 b21 b22 b23] b3],
           v as [v0 v1 v2].
  unfold affine. simpl. intros ->. rcbn. req.
Qed.

Lemma matmul_eye4 (A : mat4 R) : matmul A eye4 = A.
Proof.
  destruct A as [[a00 a01 a02 a03] [a10 a11 a12 a13] [a20 a21 a22 a23] [a30 a31 a32 a33]].
  rcbn. req.
Qed.

Lemma transform_eye4 (v : vec3 R) : _transform_vector eye4 v = v.
Proof. destruct v as [v0 v1 v2]. rcbn. req. Qed.

(** X8.  [_transform_vector] applies transformations in the order of the
    matrix product: transforming by [A @ B], for an affine [B], is
    transforming by [B] and then by [A]; the identity matrix leaves every
    vector where it is. *)
Theorem transform_vector_compose :
  forall (A B : mat4 R) (v : vec3 R),
    affine B ->
    _transform_vector (matmul A B) v = _transform_vector A (_transform_vector B v)
    /\ _transform_vector (matmul A eye4) v = _transform_vector A v
    /\ _transform_vector eye4 v = v.
Proof.
  intros A B v HB.
  split; [exact (@transform_matmul A B v HB) | ].
  split; [rewrite matmul_eye4; reflexivity | apply transform_eye4].
Qed.

(** ** The axes of the pinhole camera *)

Lemma norm_normalized (a b c : R) :
  (a, b, c) <> (0, 0, 0) ->
  let n := sqrt (sumsq a b c) in
  sqrt (sumsq (a / n) (b / n) (c / n)) = 1.
Proof.
  intros N n. pose proof (sumsq_pos N) as Hp.
  assert (Hn : 0 < n) by (apply sqrt_lt_R0; exact Hp).
  assert (Hs : n * n = sumsq a b c) by (apply sqrt_sqrt; lra).
  apply sqrt_eq; [lra | ].
  unfold sumsq in *.
  replace (0 + a / n * (a / n) + b / n * (b / n) + c / n * (c / n))
    with ((0 + a * a + b * b + c * c) / (n * n)) by (field; lra).
  rewrite <- Hs. field. nra.
Qed.

Lemma forward_unit (c : PinholeCamera.t R) :
  PinholeCamera.position c <> PinholeCamera.target c ->
  linalg_norm (PinholeCamera.forward c) = 1.
Proof.
  intros N. unfold PinholeCamera.forward, PinholeCamera.position in *.
  destruct c as [fov io os [p0 p1 p2] [t0 t1 t2] [u0 u1 u2] zf rf pf nr fr pm vm vpm].
  simpl in N. rcbn.
  apply (norm_normalized (a := t0 - p0) (b := t1 - p1) (c := t2 - p2)).
  intros E. injection E as E0 E1 E2. apply N. f_equal; lra.
Qed.

(** X9.  The axes of a pinhole camera that is not at its target: [forward]
    is a unit vector, and [right] is perpendicular to [forward] and to
    [up]. *)
Theorem pinhole_axes :
  forall c : PinholeCamera.t R,
    PinholeCamera.position c <> PinholeCamera.target c ->
    linalg_norm (PinholeCamera.forward c) = 1
    /\ dot3 (PinholeCamera.right c) (PinholeCamera.forward c) = 0
    /\ dot3 (PinholeCamera.right c) (PinholeCamera.up c) = 0.
Proof.
  intros c N. split; [exact (@forward_unit c N) | ].
  unfold PinholeCamera.right.
  destruct (PinholeCamera.forward c) as [f0' f1' f2'],
    (PinholeCamera.up c) as [u0 u1 u2].
  rcbn. split; ring.
Qed.

(** ** [pan] and [dolly_zoom] *)

Lemma vsub_components (u v : vec3 R) :
  vsub u v = V3 (x0 u - x0 v) (x1 u - x1 v) (x2 u - x2 v).
Proof. reflexivity. Qed.

(** The distance and the viewing direction are functions of
    [target - position]. *)
Lemma same_offset (c c' : PinholeCamera.t R) :
  vsub (PinholeCamera.target c') (PinholeCamera.position c')
  = vsub (PinholeCamera.target c) (PinholeCamera.position c) ->
  distance_to_target c' = distance_to_target c
  /\ PinholeCamera.forward c' = PinholeCamera.forward c.
Proof.
  intros E. unfold distance_to_target, PinholeCamera.forward. cbv zeta.
  rewrite E. split; reflexivity.
Qed.

(** X10.  [pan] moves a pinhole camera that is not at its target in the
    image plane: [position] and [target] move by the same vector, which is
    perpendicular to [forward], so that the offset [target - position], the
    distance to the target and the viewing direction are kept; [up] is
    kept; and a mouse movement of zero moves nothing. *)
Theorem pan_is_rigid_in_image_plane :
  forall (c : PinholeCamera.t R) (mouse_dx mouse_dy : R),
    PinholeCamera.position c <> PinholeCamera.target c ->
    let c' := PinholeCamera.pan c mouse_dx mouse_dy in
    let moved := vsub (PinholeCamera.position c') (PinholeCamera.position c) in
    vsub (PinholeCamera.target c') (PinholeCamera.target c) = moved
    /\ dot3 (PinholeCamera.forward c) moved = 0
    /\ vsub (PinholeCamera.target c') (PinholeCamera.position c')
       = vsub (PinholeCamera.target c) (PinholeCamera.position c)
    /\ distance_to_target c' = distance_to_target c
    /\ PinholeCamera.forward c' = PinholeCamera.forward c
    /\ PinholeCamera.up c' = PinholeCamera.up c
    /\ PinholeCamera.pan c 0 0 = c.
Proof.
  intros c dx dy N c' moved.
  assert (Hoff : vsub (PinholeCamera.target c') (PinholeCamera.position c')
                 = vsub (PinholeCamera.target c) (PinholeCamera.position c)).
  { unfold c', PinholeCamera.pan. cbv zeta.
    set (speed := pymax _ _). set (fw := PinholeCamera.forward c).
    destruct c as [fov io os [p0 p1 p2] [t0 t1 t2] [u0 u1 u2] zf rf pf nr fr pm vm vpm].
    destruct fw as [f0' f1' f2']. rcbn. req. }
  destruct (same_offset c c' Hoff) as [Hd Hf].
  split; [ | split; [ | split; [exact Hoff | split; [exact Hd | split; [exact Hf | split]]]]].
  - unfold moved, c', PinholeCamera.pan. cbv zeta.
    set (speed := pymax _ _). set (fw := PinholeCamera.forward c).
    destruct c as [fov io os [p0 p1 p2] [t0 t1 t2] [u0 u1 u2] zf rf pf nr fr pm vm vpm].
    destruct fw as [f0' f1' f2']. rcbn. req.
  - unfold moved, c', PinholeCamera.pan. cbv zeta.
    set (speed := pymax _ _). set (fw := PinholeCamera.forward c).
    destruct c as [fov io os [p0 p1 p2] [t0 t1 t2] [u0 u1 u2] zf rf pf nr fr pm vm vpm].
    destruct fw as [f0' f1' f2']. rcbn. ring.
  - unfold c', PinholeCamera.pan. cbv zeta.
    destruct c; reflexivity.
  - unfold PinholeCamera.pan. cbv zeta.
    set (speed := pymax _ _). set (fw := PinholeCamera.forward c).
    destruct c as [fov io os [p0 p1 p2] [t0 t1 t2] [u0 u1 u2] zf rf pf nr fr pm vm vpm].
    destruct fw as [f0' f1' f2']. rcbn. f_equal; req.
Qed.

Lemma norm_sym (u v : vec3 R) : linalg_norm (vsub u v) = linalg_norm (vsub v u).
Proof.
  destruct u as [u0 u1 u2], v as [v0 v1 v2]. rcbn. f_equal. ring.
Qed.

(** X11.  [dolly_zoom(speed, move_target=True)] moves a pinhole camera that
    is not at its target rigidly: [position] and [target] move by the same
    vector, [forward * speed * zoom_speed * max(distance, 2)], so that the
    offset [target - position], the distance to the target and the viewing
    direction are kept. *)
Theorem dolly_zoom_with_target_is_rigid :
  forall (zoom speed : R) (c : PinholeCamera.t R),
    PinholeCamera.position c <> PinholeCamera.target c ->
    let c' := PinholeCamera.dolly_zoom zoom c speed true in
    let step := vscale (vscale (PinholeCamera.forward c) (speed * zoom))
                  (Rmax (distance_to_target c) 2) in
    PinholeCamera.position c' = vadd (PinholeCamera.position c) step
    /\ PinholeCamera.target c' = vadd (PinholeCamera.target c) step
    /\ vsub (PinholeCamera.target c') (PinholeCamera.position c')
       = vsub (PinholeCamera.target c) (PinholeCamera.position c)
    /\ distance_to_target c' = distance_to_target c
    /\ PinholeCamera.forward c' = PinholeCamera.forward c
    /\ PinholeCamera.up c' = PinholeCamera.up c.
Proof.
  intros zoom speed c N c' step.
  assert (Hp : PinholeCamera.position c' = vadd (PinholeCamera.position c) step).
  { unfold c', step, PinholeCamera.dolly_zoom, distance_to_target. cbv zeta.
    rewrite <- pymax_R, (norm_sym (PinholeCamera.target c)).
    destruct c; reflexivity. }
  assert (Ht : PinholeCamera.target c' = vadd (PinholeCamera.target c) step).
  { unfold c', step, PinholeCamera.dolly_zoom, distance_to_target. cbv zeta.
    rewrite <- pymax_R, (norm_sym (PinholeCamera.target c)).
    destruct c; reflexivity. }
  assert (Hoff : vsub (PinholeCamera.target c') (PinholeCamera.position c')
                 = vsub (PinholeCamera.target c) (PinholeCamera.position c)).
  { rewrite Hp, Ht.
    destruct (PinholeCamera.target c) as [t0 t1 t2],
      (PinholeCamera.position c) as [p0 p1 p2], step as [s0 s1 s2]. rcbn. req. }
  destruct (same_offset c c' Hoff) as [Hd Hf].
  split; [exact Hp | ]. split; [exact Ht | ]. split; [exact Hoff | ].
  split; [exact Hd | ]. split; [exact Hf | ].
  unfold c'. destruct c; reflexivity.
Qed.

(** X26.  How far [dolly_zoom(speed, move_target=False)] moves, in exact
    arithmetic, a pinhole camera at distance [d] of its target, where
    [want = speed * zoom_speed * max(d, 2)]: the new distance is
    [d - min(want, max(d - 0.01, 0))].  Zooming out ([want <= 0]) is never
    clamped; zooming in from [d >= 0.01] by [want >= d - 0.01] stops at
    exactly [0.01] from the target; and zooming in from within [0.01] of the
    target leaves the distance as it is. *)
Theorem dolly_zoom_distance :
  forall (zoom speed : R) (c : PinholeCamera.t R),
    PinholeCamera.position c <> PinholeCamera.target c ->
    let d := distance_to_target c in
    let want := speed * zoom * Rmax d 2 in
    let d' := distance_to_target (PinholeCamera.dolly_zoom zoom c speed false) in
    d' = d - Rmin want (Rmax (d - 1 / 100) 0)
    /\ (want <= 0 -> d' = d - want)
    /\ (1 / 100 <= d -> d - 1 / 100 <= want -> d' = 1 / 100)
    /\ (d <= 1 / 100 -> 0 <= want -> d' = d).
Proof.
  intros zoom speed c N d want d'.
  destruct (dolly_step zoom speed c N) as [_ [_ [_ [Hd _]]]].
  assert (Hm : PinholeCamera.dolly_movement zoom c speed
               = Rmin want (Rmax (d - 1 / 100) 0)).
  { unfold PinholeCamera.dolly_movement. cbv zeta.
    rewrite pymin_R, !pymax_R. unfold want, d, distance_to_target, dec, f0, f2.
    rewrite (norm_sym (PinholeCamera.position c)). reflexivity. }
  assert (E : d' = d - Rmin want (Rmax (d - 1 / 100) 0)).
  { unfold d'. rewrite Hd, Hm. reflexivity. }
  split; [exact E | ].
  rewrite E. clear E Hd Hm d'.
  pose proof (Rmax_r (d - 1 / 100) 0) as H0.
  split; [ | split].
  - intros Hw. rewrite Rmin_left; lra.
  - intros H1 H2. rewrite Rmax_left by lra. rewrite Rmin_right; lra.
  - intros H1 H2. rewrite Rmax_right by lra. rewrite Rmin_right; lra.
Qed.

Lemma np_sign_zero : np_sign (0 : R) = 0.
Proof.
  unfold np_sign. simpl. unfold f0. simpl.
  rewrite !Rltb_false by lra.
  unfold RExact.eqb. destruct (Req_dec_T 0 0); [reflexivity | contradiction].
Qed.

(** X12.  [dolly_zoom(0)] changes nothing on a pinhole camera that is not
    at its target and whose [ortho_size] is at least the lower bound
    [0.0001], with or without the target. *)
Theorem dolly_zoom_zero_speed :
  forall (zoom : R) (c : PinholeCamera.t R) (move_target : bool),
    PinholeCamera.position c <> PinholeCamera.target c ->
    1 / 10000 <= PinholeCamera.ortho_size c ->
    PinholeCamera.dolly_zoom zoom c 0 move_target = c.
Proof.
  intros zoom c move_target N Ho.
  unfold PinholeCamera.dolly_zoom, PinholeCamera.dolly_movement. cbv zeta.
  rewrite np_sign_zero, !pymax_R, pymin_R.
  replace (Rmax (dec 1 10000) (PinholeCamera.ortho_size c - dec 1 10 * 0))
    with (PinholeCamera.ortho_size c).
  2:{ unfold dec. simpl. rewrite Rmax_right; lra. }
  set (fw := PinholeCamera.forward _).
  set (n := Rmax _ f2).
  set (m := Rmax _ f0).
  cbn [fmul fsub fadd Rexact].
  assert (Hm : 0 <= m) by (unfold m, f0; simpl; apply Rmax_r).
  assert (Hmin : Rmin (0 * zoom * n) m = 0).
  { rewrite Rmin_left; lra. }
  rewrite Hmin.
  destruct c as [fov io os [p0 p1 p2] [t0 t1 t2] up zf rf pf nr fr pm vm vpm].
  destruct fw as [f0' f1' f2'].
  destruct move_target; rcbn; f_equal; req.
Qed.
(** ** Rotations about the target *)

Lemma rotation_keeps_distance (M : mat4 R) (p q : vec3 R) :
  rotation_about M p ->
  linalg_norm (vsub p (_transform_vector M q)) = linalg_norm (vsub p q).
Proof.
  intros [Ha [Hfix Hiso]].
  specialize (Hiso (vsub p q)).
  unfold linalg_norm. f_equal. rewrite <- Hiso. clear Hiso.
  destruct M as [[a00 a01 a02 a03] [a10 a11 a12 a13] [a20 a21 a22 a23] m3],
           p as [p0 p1 p2], q as [q0 q1 q2].
  unfold affine in Ha. simpl in Ha. subst m3.
  revert Hfix. rcbn. unfold linear_part. rcbn. intros Hfix.
  injection Hfix as H0 H1 H2.
  replace (p0 - (0 + a00 * q0 + a01 * q1 + a02 * q2 + a03 * 1))
    with (0 + a00 * (p0 - q0) + a01 * (p1 - q1) + a02 * (p2 - q2)) by lra.
  replace (p1 - (0 + a10 * q0 + a11 * q1 + a12 * q2 + a13 * 1))
    with (0 + a10 * (p0 - q0) + a11 * (p1 - q1) + a12 * (p2 - q2)) by lra.
  replace (p2 - (0 + a20 * q0 + a21 * q1 + a22 * q2 + a23 * 1))
    with (0 + a20 * (p0 - q0) + a21 * (p1 - q1) + a22 * (p2 - q2)) by lra.
  reflexivity.
Qed.

Section Collaborators.
Variable deg2rad : R -> R.
Variable tan : R -> R.
Variable inv : mat4 R -> res (mat4 R).
Variable rotation_matrix : R -> vec3 R -> vec3 R -> mat4 R.

(** X13.  The orbit rotations keep the distance to the target.  When
    [rotation_matrix] returns rotations about the target for the axes the
    methods pass (the x and the y axis of the camera pose), a
    [rotate_azimuth] or a [rotate_azimuth_elevation] that returns leaves
    [position] at the distance of the target it was at, the elevation being
    applied or skipped. *)
Theorem orbit_keeps_distance :
  forall (c : PinholeCamera.t R) (V cam_pose : mat4 R),
    PinholeCamera.view_matrix c = Val V ->
    inv V = Ok cam_pose ->
    (forall angle : R,
        rotation_about
          (rotation_matrix angle (col3_of4 (@w0 R) cam_pose) (PinholeCamera.target c))
          (PinholeCamera.target c)) ->
    (forall angle : R,
        rotation_about
          (rotation_matrix angle (col3_of4 (@w1 R) cam_pose) (PinholeCamera.target c))
          (PinholeCamera.target c)) ->
    (forall (angle : R) (c' : PinholeCamera.t R),
        PinholeCamera.rotate_azimuth inv rotation_matrix c angle = Ok c' ->
        distance_to_target c' = distance_to_target c)
    /\ (forall (mouse_dx mouse_dy : R) (c' : PinholeCamera.t R),
          PinholeCamera.rotate_azimuth_elevation inv rotation_matrix c mouse_dx mouse_dy
          = Ok c' ->
          distance_to_target c' = distance_to_target c).
Proof.
  intros c V M HV HM Hx Hy. split.
  - intros angle c' E. unfold PinholeCamera.rotate_azimuth in E.
    destruct (fabs angle <? dec 1 100000000)%fl.
    + injection E as <-. reflexivity.
    + rewrite HV in E. simpl in E. rewrite HM in E. simpl in E.
      injection E as <-.
      unfold distance_to_target.
      change (PinholeCamera.target (PinholeCamera.set_position c ?p))
        with (PinholeCamera.target c).
      change (PinholeCamera.position (PinholeCamera.set_position c ?p)) with p.
      apply rotation_keeps_distance. apply Hy.
  - intros dx dy c' E. unfold PinholeCamera.rotate_azimuth_elevation in E.
    rewrite HV in E. simpl in E. rewrite HM in E. simpl in E.
    injection E as <-.
    unfold distance_to_target.
    change (PinholeCamera.target (PinholeCamera.set_position c ?p))
      with (PinholeCamera.target c).
    change (PinholeCamera.position (PinholeCamera.set_position c ?p)) with p.
    destruct (PinholeCamera.elevation_guard dy _).
    + rewrite matmul_eye4.
      rewrite transform_matmul by (apply Hx).
      rewrite rotation_keeps_distance by (apply Hy).
      apply rotation_keeps_distance. apply Hx.
    + rewrite matmul_eye4.
      apply rotation_keeps_distance. apply Hy.
Qed.

(** ** Rays *)

Lemma transform_origin (M : mat4 R) :
  _transform_vector M (V3 0 0 0) = col3_of4 (@w3 R) M.
Proof.
  destruct M as [[a00 a01 a02 a03] [a10 a11 a12 a13] [a20 a21 a22 a23] m3].
  rcbn. req.
Qed.

Lemma transform_columns (M : mat4 R) (a b c : R) :
  _transform_vector M (V3 a b c)
  = vadd (vadd (vadd (col3_of4 (@w3 R) M) (vscale (col3_of4 (@w0 R) M) a))
               (vscale (col3_of4 (@w1 R) M) b))
         (vscale (col3_of4 (@w2 R) M) c).
Proof.
  destruct M as [[a00 a01 a02 a03] [a10 a11 a12 a13] [a20 a21 a22 a23] m3].
  rcbn. req.
Qed.

Lemma get_ray_perspective_runs (c : PinholeCamera.t R) (x y width height : R)
    (V cam2world : mat4 R) :
  PinholeCamera.is_ortho c = false ->
  PinholeCamera.view_matrix c = Val V ->
  inv V = Ok cam2world ->
  width <> 0 -> height <> 0 ->
  let scale := tan (deg2rad (PinholeCamera.fov c) / 2) in
  let sx := (2 * (x + 1 / 2) / width - 1) * (scale * width / height) in
  let sy := (1 - 2 * (y + 1 / 2) / height) * scale in
  let dir := vsub (vadd (vscale (col3_of4 (@w0 R) cam2world) sx)
                        (vscale (col3_of4 (@w1 R) cam2world) sy))
                  (col3_of4 (@w2 R) cam2world) in
  PinholeCamera.get_ray deg2rad tan inv c x y width height
  = Ok (col3_of4 (@w3 R) cam2world, vdivs dir (linalg_norm dir)).
Proof.
  intros Ho HV HM Hw Hh scale sx sy dir. rename cam2world into M.
  unfold PinholeCamera.get_ray. cbv zeta.
  rewrite !pydiv_R by assumption. cbn [bind].
  rewrite HV. cbn [bind read_array]. rewrite HM. cbn [bind]. rewrite Ho.
  change (@f0 R Rexact) with 0. rewrite transform_origin.
  match goal with
  | |- context [vsub (_transform_vector M ?p) ?o] =>
      replace (vsub (_transform_vector M p) o) with dir
  end.
  - reflexivity.
  - rewrite transform_columns. unfold dir, sx, sy, scale.
    destruct (col3_of4 (@w0 R) M) as [a0 a1 a2], (col3_of4 (@w1 R) M) as [b0 b1 b2],
      (col3_of4 (@w2 R) M) as [c0 c1 c2], (col3_of4 (@w3 R) M) as [d0 d1 d2].
    rcbn. req.
Qed.

(** X14.  The ray of a perspective pinhole camera through pixel [(x, y)] of
    a [width] x [height] viewport.  With the camera pose [cam2world], the
    inverse of the view matrix, the ray starts at the translation column of
    the pose and its direction is [sx * X + sy * Y - Z] divided by its norm,
    where [X], [Y], [Z] are the axes of the pose (its first three columns),
    [sx = (2 (x + 0.5) / width - 1) * tan(fov / 2) * width / height] and
    [sy = (1 - 2 (y + 0.5) / height) * tan(fov / 2)].  The ray through the
    middle of the viewport points along [-Z]. *)
Theorem get_ray_perspective :
  forall (c : PinholeCamera.t R) (x y width height : R) (V cam2world : mat4 R),
    PinholeCamera.is_ortho c = false ->
    PinholeCamera.view_matrix c = Val V ->
    inv V = Ok cam2world ->
    width <> 0 -> height <> 0 ->
    let scale := tan (deg2rad (PinholeCamera.fov c) / 2) in
    let sx := (2 * (x + 1 / 2) / width - 1) * (scale * width / height) in
    let sy := (1 - 2 * (y + 1 / 2) / height) * scale in
    let X := col3_of4 (@w0 R) cam2world in
    let Y := col3_of4 (@w1 R) cam2world in
    let Z := col3_of4 (@w2 R) cam2world in
    let dir := vsub (vadd (vscale X sx) (vscale Y sy)) Z in
    PinholeCamera.get_ray deg2rad tan inv c x y width height
    = Ok (col3_of4 (@w3 R) cam2world, vdivs dir (linalg_norm dir))
    /\ (x = (width - 1) / 2 -> y = (height - 1) / 2 -> dir = vneg Z).
Proof.
  intros c x y width height V M Ho HV HM Hw Hh scale sx sy X Y Z dir.
  split.
  - exact (@get_ray_perspective_runs c x y width height V M Ho HV HM Hw Hh).
  - intros -> ->. unfold dir, sx, sy.
    destruct X as [a0 a1 a2], Y as [b0 b1 b2], Z as [c0 c1 c2].
    rcbn. req.
Qed.

(** X15.  The ray of an orthographic pinhole camera that is not at its
    target: its direction is [forward], whatever the pixel, and it starts
    in the plane through the translation column of the camera pose spanned
    by the axes [X] and [Y] of the pose, at [sx * X + sy * Y] from it, with
    [ortho_size] in the place of the tangent. *)
Theorem get_ray_orthographic :
  forall (c : PinholeCamera.t R) (x y width height : R) (V cam2world : mat4 R),
    PinholeCamera.is_ortho c = true ->
    PinholeCamera.position c <> PinholeCamera.target c ->
    PinholeCamera.view_matrix c = Val V ->
    inv V = Ok cam2world ->
    width <> 0 -> height <> 0 ->
    let scale := PinholeCamera.ortho_size c in
    let sx := (2 * (x + 1 / 2) / width - 1) * (scale * width / height) in
    let sy := (1 - 2 * (y + 1 / 2) / height) * scale in
    let X := col3_of4 (@w0 R) cam2world in
    let Y := col3_of4 (@w1 R) cam2world in
    PinholeCamera.get_ray deg2rad tan inv c x y width height
    = Ok (vadd (vadd (col3_of4 (@w3 R) cam2world) (vscale X sx)) (vscale Y sy),
          PinholeCamera.forward c).
Proof.
  intros c x y width height V M Ho N HV HM Hw Hh scale sx sy X Y.
  unfold PinholeCamera.get_ray. cbv zeta.
  rewrite !pydiv_R by assumption. cbn [bind].
  rewrite HV. cbn [bind read_array]. rewrite HM. cbn [bind]. rewrite Ho.
  rewrite transform_columns, (@forward_unit c N).
  f_equal. f_equal.
  - unfold sx, sy, scale, X, Y.
    destruct (col3_of4 (@w0 R) M) as [a0 a1 a2], (col3_of4 (@w1 R) M) as [b0 b1 b2],
      (col3_of4 (@w2 R) M) as [c0 c1 c2], (col3_of4 (@w3 R) M) as [d0 d1 d2].
    rcbn. req.
  - destruct (PinholeCamera.forward c) as [a0 a1 a2]. rcbn. req.
Qed.
End Collaborators.
(** ** The model of [trimesh.transformations.rotation_matrix] *)

(** About a unit axis through [p], it returns a rotation about [p]. *)
Lemma trimesh_rotation_about (angle : R) (d p : vec3 R) :
  dot3 d d = 1 -> rotation_about (Exact.rotation_matrix angle d p) p.
Proof.
  intros Hd. unfold Exact.rotation_matrix, Trimesh.rotation_matrix. cbv zeta.
  change (fsqrt (dot3 d d)) with (sqrt (dot3 d d)). rewrite Hd, sqrt_1.
  assert (E : vdivs d 1 = d).
  { destruct d as [d0 d1 d2]. rcbn. req. }
  rewrite E. clear E.
  pose proof (sin2_cos2 angle) as Hsc. unfold Rsqr in Hsc.
  set (s := sin angle) in *. set (k := cos angle) in *.
  destruct d as [d0 d1 d2], p as [p0 p1 p2].
  revert Hd. rcbn. intros Hd.
  unfold rotation_about, affine, linear_part.
  split; [reflexivity | ]. split.
  - rcbn. req.
  - intros [v0 v1 v2]. rcbn. nsatz.
Qed.

(** ** The OpenCV camera *)

Lemma opencv_compute_ok (c : OpenCVCamera.t R) (width height : R) (V P : mat4 R) :
  OpenCVCamera.compute_opengl_view_projection c width height = Ok (V, P) ->
  let rows := OpenCVCamera.rows c in
  let cols := OpenCVCamera.cols c in
  let near := OpenCVCamera.near c in
  let far := OpenCVCamera.far c in
  let K := OpenCVCamera.K c in
  let Rt := OpenCVCamera.Rt c in
  let window_cols := width / height * rows in
  let x_offset := (window_cols - cols) * (5 / 10) in
  height <> 0 /\ window_cols <> 0 /\ rows <> 0 /\ far - near <> 0
  /\ V = V4 (x0 Rt) (map4 (fun a => a * - (1)) (x1 Rt)) (map4 (fun a => a * - (1)) (x2 Rt))
            (V4 0 0 0 1)
  /\ P = matmul
           (V4 (V4 (- (2) / window_cols) 0 0 1)
               (V4 0 (- (2) / rows) 0 (- (1)))
               (V4 0 0 (2 / (far - near)) (- (far + near) / (far - near)))
               (V4 0 0 0 1))
           (V4 (V4 (- x0 (x0 K)) 0 (- (cols - x2 (x0 K)) - x_offset) 0)
               (V4 0 (- x1 (x1 K)) (rows - x2 (x1 K)) 0)
               (V4 0 0 (- (near + far)) (- (near * far)))
               (V4 0 0 (- (1)) 0)).
Proof.
  unfold OpenCVCamera.compute_opengl_view_projection. cbv zeta. intros E.
  apply bind_ok in E. destruct E as [aspect [E1 E]].
  apply bind_ok in E. destruct E as [n00 [E2 E]].
  apply bind_ok in E. destruct E as [n11 [E3 E]].
  apply bind_ok in E. destruct E as [n22 [E4 E]].
  apply bind_ok in E. destruct E as [n23 [E5 E]].
  apply pydiv_R_ok in E1, E2, E3, E4, E5.
  destruct E1 as [H1 ->], E2 as [H2 ->], E3 as [H3 ->], E4 as [H4 ->], E5 as [_ ->].
  injection E as <- <-.
  repeat (split; [assumption | ]). split; reflexivity.
Qed.

(** X16.  The view matrix of an OpenCV camera whose rotation is
    orthonormal.  It is affine, it sends the position of the camera to the
    origin, and it sends the points one unit from there along [right], [up]
    and [forward] to (1, 0, 0), (0, 1, 0) and (0, 0, -1): in view space the
    camera looks down the negative z axis with y up, the OpenGL
    convention. *)
Theorem opencv_view_matrix_axes :
  forall (c : OpenCVCamera.t R) (width height : R) (V P : mat4 R),
    OpenCVCamera.compute_opengl_view_projection c width height = Ok (V, P) ->
    orthonormal_rotation (OpenCVCamera.Rt c) ->
    affine V
    /\ _transform_vector V (OpenCVCamera.position c) = V3 0 0 0
    /\ _transform_vector V (vadd (OpenCVCamera.position c) (OpenCVCamera.right c)) = V3 1 0 0
    /\ _transform_vector V (vadd (OpenCVCamera.position c) (OpenCVCamera.up c)) = V3 0 1 0
    /\ _transform_vector V (vadd (OpenCVCamera.position c) (OpenCVCamera.forward c))
       = V3 0 0 (- (1)).
Proof.
  intros c width height V P E Ho.
  destruct (opencv_compute_ok _ _ _ E) as [_ [_ [_ [_ [-> _]]]]].
  unfold OpenCVCamera.position, OpenCVCamera.right, OpenCVCamera.up, OpenCVCamera.forward,
    OpenCVCamera.rotation_part, OpenCVCamera.translation_column.
  revert Ho. unfold orthonormal_rotation.
  destruct (OpenCVCamera.Rt c) as [[r00 r01 r02 t0] [r10 r11 r12 t1] [r20 r21 r22 t2]].
  rcbn. intros [H00 [H11 [H22 [H01 [H02 H12]]]]].
  split; [reflexivity | ].
  repeat split; apply V3_eq; nsatz.
Qed.
Lemma opencv_projection_rows (c : OpenCVCamera.t R) (width height : R) (V P : mat4 R) :
  OpenCVCamera.compute_opengl_view_projection c width height = Ok (V, P) ->
  let rows := OpenCVCamera.rows c in
  let cols := OpenCVCamera.cols c in
  let near := OpenCVCamera.near c in
  let far := OpenCVCamera.far c in
  let fx := x0 (x0 (OpenCVCamera.K c)) in
  let fy := x1 (x1 (OpenCVCamera.K c)) in
  let cx := x2 (x0 (OpenCVCamera.K c)) in
  let cy := x2 (x1 (OpenCVCamera.K c)) in
  let window_cols := width / height * rows in
  let x_offset := (window_cols - cols) * (5 / 10) in
  far - near <> 0
  /\ P = V4 (V4 (2 * fx / window_cols) 0 (2 * (cols - cx + x_offset) / window_cols - 1) 0)
            (V4 0 (2 * fy / rows) (1 - 2 * (rows - cy) / rows) 0)
            (V4 0 0 (- (far + near) / (far - near)) (- (2) * far * near / (far - near)))
            (V4 0 0 (- (1)) 0).
Proof.
  intros E rows cols near far fx fy cx cy window_cols x_offset.
  destruct (opencv_compute_ok _ _ _ E) as [Hh [Hw [Hr [Hfn [_ HP]]]]].
  fold rows cols near far window_cols x_offset in Hw, Hr, Hfn, HP.
  split; [exact Hfn | ].
  rewrite HP. unfold fx, fy, cx, cy.
  destruct (OpenCVCamera.K c) as [[k00 k01 k02] [k10 k11 k12] [k20 k21 k22]].
  generalize dependent window_cols. intros window_cols x_offset Hw _.
  generalize dependent x_offset. intros x_offset.
  rcbn. repeat first [apply V4_eq | apply V3_eq]; field; assumption.
Qed.

(** X17.  The projection matrix of an OpenCV camera, [NDC @ Kgl] multiplied
    out.  With [window_cols = width / height * rows], the number of columns
    of an image of the viewport's aspect ratio, and
    [x_offset = (window_cols - cols) / 2], its rows are
    [[2 fx / window_cols, 0, 2 (cols - cx + x_offset) / window_cols - 1, 0]],
    [[0, 2 fy / rows, 1 - 2 (rows - cy) / rows, 0]],
    [[0, 0, -(far + near) / (far - near), -2 far near / (far - near)]] and
    [[0, 0, -1, 0]]; the skew [K[0][1]] is not used.  A point of view space
    at depth [near] in front of the camera has depth [-1] after the
    perspective division, and one at depth [far] has depth [1]. *)
Theorem opencv_projection_entries :
  forall (c : OpenCVCamera.t R) (width height : R) (V P : mat4 R),
    OpenCVCamera.compute_opengl_view_projection c width height = Ok (V, P) ->
    let rows := OpenCVCamera.rows c in
    let cols := OpenCVCamera.cols c in
    let near := OpenCVCamera.near c in
    let far := OpenCVCamera.far c in
    let fx := x0 (x0 (OpenCVCamera.K c)) in
    let fy := x1 (x1 (OpenCVCamera.K c)) in
    let cx := x2 (x0 (OpenCVCamera.K c)) in
    let cy := x2 (x1 (OpenCVCamera.K c)) in
    let window_cols := width / height * rows in
    let x_offset := (window_cols - cols) * (5 / 10) in
    P = V4 (V4 (2 * fx / window_cols) 0 (2 * (cols - cx + x_offset) / window_cols - 1) 0)
           (V4 0 (2 * fy / rows) (1 - 2 * (rows - cy) / rows) 0)
           (V4 0 0 (- (far + near) / (far - near)) (- (2) * far * near / (far - near)))
           (V4 0 0 (- (1)) 0)
    /\ (forall x y : R,
          near <> 0 ->
          let clip := matvec4 P (V4 x y (- near) 1) in w2 clip / w3 clip = - (1))
    /\ (forall x y : R,
          far <> 0 ->
          let clip := matvec4 P (V4 x y (- far) 1) in w2 clip / w3 clip = 1).
Proof.
  intros c width height V P E rows cols near far fx fy cx cy window_cols x_offset.
  destruct (opencv_projection_rows _ _ _ E) as [Hfn HP'].
  fold rows cols near far fx fy cx cy window_cols x_offset in Hfn, HP'.
  split; [exact HP' | ].
  split; intros x y Hz clip; unfold clip; rewrite HP'; rcbn; field; split; assumption.
Qed.

(** X18.  The pose that [OpenCVCamera.__init__] hands to the scene node:
    the columns of its rotation are [right], [up] and minus [forward], so
    that the rotation is the transpose of the linear part of the view
    matrix, and its position is the [position] of the camera. *)
Theorem opencv_node_pose :
  forall (K : mat3 R) (Rt : mat34 R) (cols rows : R) (dist_coeffs : option (list R))
         (near far : R) (n_frames : nat) (width height : R) (V P : mat4 R),
    let c := OpenCVCamera.__init__ K Rt cols rows dist_coeffs near far n_frames in
    OpenCVCamera.compute_opengl_view_projection c width height = Ok (V, P) ->
    transpose3 (OpenCVCamera.node_rotation c)
    = V3 (OpenCVCamera.right c) (OpenCVCamera.up c) (vneg (OpenCVCamera.forward c))
    /\ OpenCVCamera.node_rotation c = transpose3 (linear_part V)
    /\ OpenCVCamera.node_position c = OpenCVCamera.position c.
Proof.
  intros K Rt cols rows dist_coeffs near far n_frames width height V P c E.
  destruct (opencv_compute_ok _ _ _ E) as [_ [_ [_ [_ [-> _]]]]].
  unfold c, OpenCVCamera.__init__, OpenCVCamera.right, OpenCVCamera.up,
    OpenCVCamera.forward, OpenCVCamera.rotation_part, linear_part.
  destruct Rt as [[r00 r01 r02 t0] [r10 r11 r12 t1] [r20 r21 r22 t2]].
  cbn [OpenCVCamera.Rt OpenCVCamera.node_rotation OpenCVCamera.node_position].
  split; [rcbn; req | ]. split; [rcbn; req | reflexivity].
Qed.

(** ** The weak-perspective camera *)

(** X19.  What the projection matrix of a weak-perspective camera does to a
    point [(x, y, z)] of view space: the translation of the current frame
    is applied before its scale, [x] goes to [sx * ar * (x + tx)] and [y] to
    [sy * (y - ty)], the last coordinate stays 1 (there is no perspective
    division), and the depth goes to [(2 z + far + near) / (near - far)],
    which is [-1] at depth [near] in front of the camera and [1] at depth
    [far]. *)
Theorem weak_projection_action :
  forall (c : WeakPerspectiveCamera.t R) (width height : R) (P : mat4 R),
    WeakPerspectiveCamera.projection c width height = Ok P ->
    exists sx sy tx ty ar : R,
      let frame := CameraBase.current_frame_id (WeakPerspectiveCamera.base c) in
      let near := WeakPerspectiveCamera.near c in
      let far := WeakPerspectiveCamera.far c in
      index (WeakPerspectiveCamera.scale c) frame = Ok (sx, sy)
      /\ index (WeakPerspectiveCamera.translation c) frame = Ok (tx, ty)
      /\ WeakPerspectiveCamera.aspect_correction c width height = Ok ar
      /\ near <> far
      /\ (forall x y z : R,
            matvec4 P (V4 x y z 1)
            = V4 (sx * ar * (x + tx)) (sy * (y - ty))
                 ((2 * z + far + near) / (near - far)) 1)
      /\ (forall x y : R, w2 (matvec4 P (V4 x y (- near) 1)) = - (1))
      /\ (forall x y : R, w2 (matvec4 P (V4 x y (- far) 1)) = 1).
Proof.
  intros c width height P E. unfold WeakPerspectiveCamera.projection in E.
  apply bind_ok in E. destruct E as [[sx sy] [Es E]].
  apply bind_ok in E. destruct E as [[tx ty] [Et E]].
  apply bind_ok in E. destruct E as [ar [Ea E]].
  apply bind_ok in E. destruct E as [P22 [E22 E]].
  apply bind_ok in E. destruct E as [P23 [E23 E]].
  apply pydiv_R_ok in E22, E23. destruct E22 as [Hnf ->], E23 as [_ ->].
  injection E as <-.
  exists sx, sy, tx, ty, ar. cbv zeta.
  split; [exact Es | ]. split; [exact Et | ]. split; [exact Ea | ].
  cbn [fsub fadd Rexact] in Hnf.
  split; [lra | ].
  revert Hnf. generalize (WeakPerspectiveCamera.near c) (WeakPerspectiveCamera.far c).
  intros near far Hnf.
  split; [ | split]; intros; rcbn; req.
Qed.
(** ** The frustum of the OpenCV camera *)






Section FrustumDepth.
Variable inv : mat4 R -> res (mat4 R).

End FrustumDepth.
End MoreExact.

(* ===================================================================== *)
(** * Further properties in binary64 *)
(* ===================================================================== *)

Section MoreBinary64.
Local Open Scope fl_scope.

(** [<] is asymmetric, also on infinities; a NaN is below nothing. *)
Lemma b64_ltb_asym (x y : spec_float) : B64.ltb x y = true -> B64.ltb y x = false.
Proof.
  unfold B64.ltb, SFltb, SFcompare.
  destruct x as [sx | sx | | sx mx ex], y as [sy | sy | | sy my ey];
    try destruct sx; try destruct sy; try reflexivity; try discriminate.
  - rewrite (Z.compare_antisym ey ex).
    destruct (ey ?= ex)%Z; simpl; try reflexivity; try discriminate.
    pose proof (Pos.compare_cont_antisym mx my Eq) as A. simpl in A.
    destruct (Pos.compare_cont Eq mx my), (Pos.compare_cont Eq my mx);
      simpl in *; try discriminate; reflexivity.
  - rewrite (Z.compare_antisym ey ex).
    destruct (ey ?= ex)%Z; simpl; try reflexivity; try discriminate.
    pose proof (Pos.compare_cont_antisym mx my Eq) as A. simpl in A.
    destruct (Pos.compare_cont Eq mx my), (Pos.compare_cont Eq my mx);
      simpl in *; try discriminate; reflexivity.
Qed.

Lemma ortho_size_dolly_zoom {F : Type} `{Scalar F} (zoom : F) (c : PinholeCamera.t F)
    (speed : F) (move_target : bool) :
  PinholeCamera.ortho_size (PinholeCamera.dolly_zoom zoom c speed move_target)
  = pymax (dec 1 10000) (PinholeCamera.ortho_size c - dec 1 10 * np_sign speed).
Proof. unfold PinholeCamera.dolly_zoom. destruct move_target; reflexivity. Qed.

(** X20.  [dolly_zoom] keeps [ortho_size] at [0.0001] or above, with or
    without the target: in exact arithmetic, and in binary64 for every
    speed and every earlier [ortho_size], a NaN or an infinity included
    (the result is never below the bound; [max(0.0001, nan)] is the
    bound). *)
Theorem dolly_zoom_ortho_size_bound :
  (forall (zoom speed : R) (c : PinholeCamera.t R) (move_target : bool),
      (1 / 10000 <= PinholeCamera.ortho_size
                      (PinholeCamera.dolly_zoom zoom c speed move_target))%R)
  /\ (forall (zoom speed : spec_float) (c : PinholeCamera.t spec_float) (move_target : bool),
        (PinholeCamera.ortho_size (PinholeCamera.dolly_zoom zoom c speed move_target)
         <? dec 1 10000) = false)
  /\ (forall (zoom : spec_float) (c : PinholeCamera.t spec_float) (move_target : bool),
        PinholeCamera.ortho_size
          (PinholeCamera.dolly_zoom zoom c S754_nan move_target) = dec 1 10000).
Proof.
  split; [ | split].
  - intros zoom speed c move_target.
    rewrite ortho_size_dolly_zoom, pymax_R. unfold dec. simpl. apply Rmax_l.
  - intros zoom speed c move_target.
    rewrite ortho_size_dolly_zoom. unfold pymax.
    destruct (dec 1 10000 <? _) eqn:E.
    + exact (b64_ltb_asym _ _ E).
    + apply b64_ltb_irrefl.
  - intros zoom c move_target.
    rewrite ortho_size_dolly_zoom.
    replace (np_sign (S754_nan : spec_float)) with (S754_nan : spec_float) by reflexivity.
    destruct (PinholeCamera.ortho_size c) as [s | s | | s m e]; reflexivity.
Qed.
End MoreBinary64.

(* ===================================================================== *)
(** * The further properties at concrete inputs *)
(* ===================================================================== *)

Section MoreWitnesses.
Import ExactInputs MoreExactInputs.
Local Open Scope R_scope.

Lemma Reqb_refl (a : R) : RExact.eqb a a = true.
Proof. unfold RExact.eqb. destruct (Req_dec_T a a); [reflexivity | contradiction]. Qed.

(** X1 on the tilted pinhole camera and an 800 x 600 viewport. *)
Lemma update_matrices_idempotent_witness :
  exists c' : CameraInterface.t R,
    CameraInterface.update_matrices Exact.look_at Exact.orthographic_projection
      Exact.perspective_projection Exact.deg2rad
      (CameraInterface.Pinhole tilted_pinhole_camera) 800 600 = Ok c'
    /\ CameraInterface.update_matrices Exact.look_at Exact.orthographic_projection
         Exact.perspective_projection Exact.deg2rad c' 800 600 = Ok c'.
Proof.
  destruct update_tilted_view as [c [Hc _]].
  assert (E : CameraInterface.update_matrices Exact.look_at Exact.orthographic_projection
                Exact.perspective_projection Exact.deg2rad
                (CameraInterface.Pinhole tilted_pinhole_camera) 800 600
              = Ok (CameraInterface.Pinhole c)).
  { unfold CameraInterface.update_matrices. unfold update_800_600 in Hc.
    rewrite Hc. reflexivity. }
  exists (CameraInterface.Pinhole c). split; [exact E | ].
  exact (@update_matrices_idempotent R Rexact Exact.look_at Exact.orthographic_projection
           Exact.perspective_projection Exact.deg2rad _ _ _ _ E).
Defined.

(** X2 on the default pinhole camera and an 800 x 0 viewport. *)
Lemma update_matrices_zero_height_witness :
  feqb (0 : R) f0 = true
  /\ PinholeCamera.update_matrices Exact.look_at Exact.orthographic_projection
       Exact.perspective_projection Exact.deg2rad default_pinhole_camera 800 0
     = Err ZeroDivisionError.
Proof.
  assert (Hz : feqb (0 : R) f0 = true) by apply Reqb_refl.
  split; [exact Hz | ].
  exact (proj1 (@update_matrices_zero_height R Rexact Exact.look_at
                  Exact.orthographic_projection Exact.perspective_projection
                  Exact.deg2rad 800 0 Hz) default_pinhole_camera).
Defined.

(** X3 on the default pinhole camera, before any [update_matrices]: pixel
    (10, 20) of a viewport of width 0. *)
Lemma get_ray_zero_viewport_witness :
  (feqb (0 : R) f0 = true \/ feqb (600 : R) f0 = true)
  /\ PinholeCamera.get_ray Exact.deg2rad Rtrigo1.tan Exact.inv default_pinhole_camera
       10 20 0 600 = Err ZeroDivisionError.
Proof.
  assert (Hz : feqb (0 : R) f0 = true \/ feqb (600 : R) f0 = true)
    by (left; apply Reqb_refl).
  split; [exact Hz | ].
  exact (@get_ray_zero_viewport R Rexact Exact.deg2rad Rtrigo1.tan Exact.inv
           default_pinhole_camera 10 20 0 600 Hz).
Defined.

(** X4 on the tilted pinhole camera: the rays through the pixels (0, 0) and
    (799, 599) of an 800 x 600 viewport start at the same point. *)
Lemma get_ray_common_origin_or_direction_witness :
  exists (c : PinholeCamera.t R) (o d o' d' : vec3 R),
    PinholeCamera.get_ray Exact.deg2rad Rtrigo1.tan Exact.inv c 0 0 800 600 = Ok (o, d)
    /\ PinholeCamera.get_ray Exact.deg2rad Rtrigo1.tan Exact.inv c 799 599 800 600
       = Ok (o', d')
    /\ PinholeCamera.is_ortho c = false
    /\ o' = o.
Proof.
  destruct update_tilted_view as [c [Hc [HV _]]].
  assert (Ho : PinholeCamera.is_ortho c = false).
  { unfold update_800_600 in Hc.
    apply pinhole_update_matrices_stores in Hc. destruct Hc as [P [V [_ ->]]].
    reflexivity. }
  assert (Hw : 800 <> 0) by lra. assert (Hh : 600 <> 0) by lra.
  pose proof (@get_ray_perspective_runs Exact.deg2rad Rtrigo1.tan Exact.inv c 0 0 800 600
                tilted_view tilted_pose Ho HV inv_tilted_view Hw Hh) as E.
  pose proof (@get_ray_perspective_runs Exact.deg2rad Rtrigo1.tan Exact.inv c 799 599 800 600
                tilted_view tilted_pose Ho HV inv_tilted_view Hw Hh) as E'.
  cbv zeta in E, E'.
  destruct (@get_ray_common_origin_or_direction R Rexact Exact.deg2rad Rtrigo1.tan Exact.inv
              c 0 0 799 599 800 600 _ _ _ _ E E') as [V [M [_ [_ [Hp _]]]]].
  do 5 eexists. split; [exact E | ]. split; [exact E' | ]. split; [exact Ho | ].
  exact (proj2 (Hp Ho)).
Defined.

(** C9 on the two-frame OpenCV camera. *)
Lemma show_frustum_restores_frame_witness :
  exists (c' : Camera.t R) (all_lines : list (lines R)),
    Camera.show_frustum Exact.look_at Exact.inv (Camera.OpenCV two_frame_opencv_camera) 2 2 1
    = Ok c'
    /\ Camera.current_frame_id c' = 0%nat
    /\ Camera.frustum c' = Some all_lines
    /\ List.length all_lines = 2%nat
    /\ Forall2 (frustum_of_frame Exact.look_at Exact.inv
                  (Camera.hide_frustum (Camera.OpenCV two_frame_opencv_camera)) 2 2 1)
         [0%nat; 1%nat] all_lines.
Proof.
  destruct show_frustum_runs as [c' E].
  destruct (@show_frustum_restores_frame R Rexact Exact.look_at Exact.inv _ _ _ _ _ E)
    as [Hid [_ [all_lines [Hf [Hlen [_ HF]]]]]].
  exists c', all_lines.
  split; [exact E | ]. split; [exact Hid | ]. split; [exact Hf | ].
  split; [exact Hlen | exact HF].
Defined.

(** X6 and X7 on the two-frame OpenCV camera. *)
Lemma show_frustum_idempotent_witness :
  exists c' : Camera.t R,
    Camera.show_frustum Exact.look_at Exact.inv (Camera.OpenCV two_frame_opencv_camera) 2 2 1
    = Ok c'
    /\ Camera.show_frustum Exact.look_at Exact.inv c' 2 2 1 = Ok c'.
Proof.
  destruct show_frustum_runs as [c' E].
  exists c'. split; [exact E | ].
  exact (@show_frustum_idempotent R Rexact Exact.look_at Exact.inv _ _ _ _ _ E).
Defined.

Lemma show_frustum_origin_witness :
  exists c' : Camera.t R,
    Camera.show_frustum Exact.look_at Exact.inv (Camera.OpenCV two_frame_opencv_camera) 2 2 1
    = Ok c'
    /\ Camera.origin c'
       = Some (Camera.position (Camera.OpenCV two_frame_opencv_camera),
               orientation (Camera.OpenCV two_frame_opencv_camera))
    /\ Camera.frustum (Camera.hide_frustum c') = None.
Proof.
  destruct show_frustum_runs as [c' E].
  exists c'. split; [exact E | ].
  destruct (@show_frustum_origin R Rexact Exact.look_at Exact.inv _ _ _ _ _ E)
    as [Ho [_ [_ [Hf _]]]].
  split; [exact Ho | exact Hf].
Defined.

(** X8 on the view matrix of the tilted camera and its inverse. *)
Lemma transform_vector_compose_witness :
  affine tilted_view
  /\ _transform_vector (matmul tilted_pose tilted_view) (V3 0 3 4)
     = _transform_vector tilted_pose (_transform_vector tilted_view (V3 0 3 4)).
Proof.
  assert (Ha : affine tilted_view) by reflexivity.
  split; [exact Ha | ].
  exact (proj1 (@transform_vector_compose tilted_pose tilted_view (V3 0 3 4) Ha)).
Defined.

Lemma default_not_at_target :
  PinholeCamera.position default_pinhole_camera <> PinholeCamera.target default_pinhole_camera.
Proof. simpl. unfold f0, dec. simpl. intros E. injection E as E. lra. Qed.

(** X9 to X12 on the default pinhole camera. *)
Lemma pinhole_axes_witness :
  PinholeCamera.position default_pinhole_camera <> PinholeCamera.target default_pinhole_camera
  /\ linalg_norm (PinholeCamera.forward default_pinhole_camera) = 1.
Proof.
  split; [exact default_not_at_target | ].
  exact (proj1 (@pinhole_axes default_pinhole_camera default_not_at_target)).
Defined.

Lemma pan_is_rigid_in_image_plane_witness :
  PinholeCamera.position default_pinhole_camera <> PinholeCamera.target default_pinhole_camera
  /\ distance_to_target (PinholeCamera.pan default_pinhole_camera 30 (- 12))
     = distance_to_target default_pinhole_camera.
Proof.
  split; [exact default_not_at_target | ].
  destruct (@pan_is_rigid_in_image_plane default_pinhole_camera 30 (- 12)
              default_not_at_target) as [_ [_ [_ [Hd _]]]].
  exact Hd.
Defined.

Lemma dolly_zoom_with_target_is_rigid_witness :
  PinholeCamera.position default_pinhole_camera <> PinholeCamera.target default_pinhole_camera
  /\ distance_to_target (PinholeCamera.dolly_zoom 1 default_pinhole_camera 3 true)
     = distance_to_target default_pinhole_camera.
Proof.
  split; [exact default_not_at_target | ].
  destruct (@dolly_zoom_with_target_is_rigid 1 3 default_pinhole_camera
              default_not_at_target) as [_ [_ [_ [Hd _]]]].
  exact Hd.
Defined.

Lemma default_distance : distance_to_target default_pinhole_camera = 5 / 2.
Proof.
  unfold distance_to_target, default_pinhole_camera. rcbn.
  apply sqrt_eq; lra.
Qed.

(** X26 on the default pinhole camera: from a distance of 2.5, a zoom of
    speed 2 stops at 0.01 of the target. *)
Lemma dolly_zoom_distance_witness :
  PinholeCamera.position default_pinhole_camera <> PinholeCamera.target default_pinhole_camera
  /\ distance_to_target (PinholeCamera.dolly_zoom 1 default_pinhole_camera 2 false) = 1 / 100.
Proof.
  split; [exact default_not_at_target | ].
  destruct (@dolly_zoom_distance 1 2 default_pinhole_camera default_not_at_target)
    as [_ [_ [H _]]].
  rewrite default_distance in H.
  apply H; [lra | ].
  rewrite Rmax_left by lra. lra.
Defined.

Lemma dolly_zoom_zero_speed_witness :
  PinholeCamera.position default_pinhole_camera <> PinholeCamera.target default_pinhole_camera
  /\ 1 / 10000 <= PinholeCamera.ortho_size default_pinhole_camera
  /\ PinholeCamera.dolly_zoom 1 default_pinhole_camera 0 false = default_pinhole_camera.
Proof.
  assert (Ho : 1 / 10000 <= PinholeCamera.ortho_size default_pinhole_camera).
  { simpl. unfold f1. simpl. lra. }
  split; [exact default_not_at_target | ]. split; [exact Ho | ].
  exact (@dolly_zoom_zero_speed 1 default_pinhole_camera false default_not_at_target Ho).
Defined.
(** ** The tilted camera *)

Lemma tilted_axes_unit :
  dot3 (col3_of4 (@w0 R) tilted_pose) (col3_of4 (@w0 R) tilted_pose) = 1
  /\ dot3 (col3_of4 (@w1 R) tilted_pose) (col3_of4 (@w1 R) tilted_pose) = 1.
Proof. unfold tilted_pose. rcbn. split; field. Qed.

(** X13 on the tilted pinhole camera, with the model of trimesh's
    [rotation_matrix]. *)
Lemma orbit_keeps_distance_witness :
  exists c : PinholeCamera.t R,
    PinholeCamera.view_matrix c = Val tilted_view
    /\ Exact.inv tilted_view = Ok tilted_pose
    /\ (forall angle : R,
          rotation_about
            (Exact.rotation_matrix angle (col3_of4 (@w0 R) tilted_pose) (PinholeCamera.target c))
            (PinholeCamera.target c))
    /\ (forall angle : R,
          rotation_about
            (Exact.rotation_matrix angle (col3_of4 (@w1 R) tilted_pose) (PinholeCamera.target c))
            (PinholeCamera.target c))
    /\ (forall (mouse_dx mouse_dy : R) (c' : PinholeCamera.t R),
          PinholeCamera.rotate_azimuth_elevation Exact.inv Exact.rotation_matrix c
            mouse_dx mouse_dy = Ok c' ->
          distance_to_target c' = distance_to_target c).
Proof.
  destruct update_tilted_view as [c [_ [HV _]]].
  destruct tilted_axes_unit as [U0 U1].
  assert (Hx : forall angle : R,
             rotation_about
               (Exact.rotation_matrix angle (col3_of4 (@w0 R) tilted_pose)
                  (PinholeCamera.target c))
               (PinholeCamera.target c))
    by (intros angle; apply trimesh_rotation_about; exact U0).
  assert (Hy : forall angle : R,
             rotation_about
               (Exact.rotation_matrix angle (col3_of4 (@w1 R) tilted_pose)
                  (PinholeCamera.target c))
               (PinholeCamera.target c))
    by (intros angle; apply trimesh_rotation_about; exact U1).
  exists c. split; [exact HV | ]. split; [exact inv_tilted_view | ].
  split; [exact Hx | ]. split; [exact Hy | ].
  exact (proj2 (@orbit_keeps_distance Exact.inv Exact.rotation_matrix c tilted_view
                  tilted_pose HV inv_tilted_view Hx Hy)).
Defined.

(** X14 on the tilted pinhole camera: the ray through the middle of an
    800 x 600 viewport. *)
Lemma get_ray_perspective_witness :
  exists (c : PinholeCamera.t R) (d : vec3 R),
    PinholeCamera.is_ortho c = false
    /\ PinholeCamera.view_matrix c = Val tilted_view
    /\ Exact.inv tilted_view = Ok tilted_pose
    /\ 800 <> 0 /\ 600 <> 0
    /\ PinholeCamera.get_ray Exact.deg2rad Rtrigo1.tan Exact.inv c
         ((800 - 1) / 2) ((600 - 1) / 2) 800 600
       = Ok (col3_of4 (@w3 R) tilted_pose, d).
Proof.
  destruct update_tilted_view as [c [Hc [HV _]]].
  assert (Ho : PinholeCamera.is_ortho c = false).
  { unfold update_800_600 in Hc.
    apply pinhole_update_matrices_stores in Hc. destruct Hc as [P [V [_ ->]]].
    reflexivity. }
  assert (Hw : 800 <> 0) by lra. assert (Hh : 600 <> 0) by lra.
  destruct (@get_ray_perspective Exact.deg2rad Rtrigo1.tan Exact.inv c
              ((800 - 1) / 2) ((600 - 1) / 2) 800 600
              tilted_view tilted_pose Ho HV inv_tilted_view Hw Hh) as [E _].
  exists c. eexists.
  split; [exact Ho | ]. split; [exact HV | ]. split; [exact inv_tilted_view | ].
  split; [exact Hw | ]. split; [exact Hh | exact E].
Defined.

Lemma update_ortho_view :
  exists c : PinholeCamera.t R,
    update_800_600 ortho_pinhole_camera = Ok c
    /\ PinholeCamera.is_ortho c = true
    /\ PinholeCamera.view_matrix c = Val tilted_view
    /\ PinholeCamera.position c = V3 0 3 4
    /\ PinholeCamera.target c = V3 0 0 0.
Proof.
  unfold update_800_600, PinholeCamera.update_matrices, PinholeCamera.compute_matrices.
  rewrite pydiv_R by lra.
  unfold ortho_pinhole_camera.
  rcbn. unfold Exact.orthographic_projection, CameraUtils.orthographic_projection.
  rcbn. rewrite look_at_tilted. rcbn.
  eexists. split; [reflexivity | ]. rcbn. repeat split.
Qed.

(** X15 on the orthographic camera at (0, 3, 4). *)
Lemma get_ray_orthographic_witness :
  exists (c : PinholeCamera.t R) (o : vec3 R),
    PinholeCamera.is_ortho c = true
    /\ PinholeCamera.position c <> PinholeCamera.target c
    /\ PinholeCamera.view_matrix c = Val tilted_view
    /\ Exact.inv tilted_view = Ok tilted_pose
    /\ 800 <> 0 /\ 600 <> 0
    /\ PinholeCamera.get_ray Exact.deg2rad Rtrigo1.tan Exact.inv c 10 20 800 600
       = Ok (o, PinholeCamera.forward c).
Proof.
  destruct update_ortho_view as [c [_ [Ho [HV [Hp Ht]]]]].
  assert (N : PinholeCamera.position c <> PinholeCamera.target c).
  { rewrite Hp, Ht. intros E. injection E as E1 E2. lra. }
  assert (Hw : 800 <> 0) by lra. assert (Hh : 600 <> 0) by lra.
  pose proof (@get_ray_orthographic Exact.deg2rad Rtrigo1.tan Exact.inv c 10 20 800 600
                tilted_view tilted_pose Ho N HV inv_tilted_view Hw Hh) as E.
  cbv zeta in E.
  exists c. eexists.
  split; [exact Ho | ]. split; [exact N | ]. split; [exact HV | ].
  split; [exact inv_tilted_view | ]. split; [exact Hw | ]. split; [exact Hh | exact E].
Defined.

(** ** The two-frame OpenCV camera *)

Lemma two_frame_computes :
  OpenCVCamera.compute_opengl_view_projection two_frame_opencv_camera 2 2
  = Ok (two_frame_V, two_frame_P).
Proof. apply two_frame_matrices. repeat split. Qed.

Lemma two_frame_orthonormal : orthonormal_rotation (OpenCVCamera.Rt two_frame_opencv_camera).
Proof.
  unfold orthonormal_rotation, two_frame_opencv_camera, identity_Rt. rcbn.
  cbn [OpenCVCamera.Rt OpenCVCamera.__init__]. rcbn. repeat split; lra.
Qed.

(** X16 on the two-frame OpenCV camera and a 2 x 2 viewport. *)
Lemma opencv_view_matrix_axes_witness :
  OpenCVCamera.compute_opengl_view_projection two_frame_opencv_camera 2 2
  = Ok (two_frame_V, two_frame_P)
  /\ orthonormal_rotation (OpenCVCamera.Rt two_frame_opencv_camera)
  /\ _transform_vector two_frame_V (OpenCVCamera.position two_frame_opencv_camera) = V3 0 0 0
  /\ _transform_vector two_frame_V
       (vadd (OpenCVCamera.position two_frame_opencv_camera)
             (OpenCVCamera.forward two_frame_opencv_camera))
     = V3 0 0 (- (1)).
Proof.
  split; [exact two_frame_computes | ]. split; [exact two_frame_orthonormal | ].
  destruct (@opencv_view_matrix_axes two_frame_opencv_camera 2 2 two_frame_V two_frame_P
              two_frame_computes two_frame_orthonormal) as [_ [Hp [_ [_ Hf]]]].
  split; [exact Hp | exact Hf].
Defined.

(** X17 on the same camera: the point (5, 7) at depth [near = 1]. *)
Lemma opencv_projection_entries_witness :
  OpenCVCamera.compute_opengl_view_projection two_frame_opencv_camera 2 2
  = Ok (two_frame_V, two_frame_P)
  /\ OpenCVCamera.near two_frame_opencv_camera <> 0
  /\ w2 (matvec4 two_frame_P (V4 5 7 (- OpenCVCamera.near two_frame_opencv_camera) 1))
     / w3 (matvec4 two_frame_P (V4 5 7 (- OpenCVCamera.near two_frame_opencv_camera) 1))
     = - (1).
Proof.
  assert (Hn : OpenCVCamera.near two_frame_opencv_camera <> 0).
  { cbn [OpenCVCamera.near two_frame_opencv_camera OpenCVCamera.__init__]. lra. }
  split; [exact two_frame_computes | ]. split; [exact Hn | ].
  destruct (@opencv_projection_entries two_frame_opencv_camera 2 2 two_frame_V two_frame_P
              two_frame_computes) as [_ [Hnear _]].
  exact (Hnear 5 7 Hn).
Defined.

(** X18 on the same camera. *)
Lemma opencv_node_pose_witness :
  OpenCVCamera.compute_opengl_view_projection
    (OpenCVCamera.__init__ (V3 (V3 1 0 0) (V3 0 1 0) (V3 0 0 1)) identity_Rt 2 2 None 1 3 2)
    2 2 = Ok (two_frame_V, two_frame_P)
  /\ OpenCVCamera.node_rotation two_frame_opencv_camera = transpose3 (linear_part two_frame_V).
Proof.
  split; [exact two_frame_computes | ].
  exact (proj1 (proj2 (@opencv_node_pose (V3 (V3 1 0 0) (V3 0 1 0) (V3 0 0 1)) identity_Rt
                         2 2 None 1 3 2 2 2 two_frame_V two_frame_P two_frame_computes))).
Defined.

(** ** The weak-perspective camera *)

Lemma weak_exact_projection :
  exists (c : WeakPerspectiveCamera.t R) (P : mat4 R),
    weak_exact_camera = Ok c
    /\ WeakPerspectiveCamera.projection c 4 2 = Ok P.
Proof.
  unfold weak_exact_camera, WeakPerspectiveCamera.__init__. simpl negb. cbv iota.
  eexists. eexists. split; [reflexivity | ].
  unfold WeakPerspectiveCamera.projection, WeakPerspectiveCamera.aspect_correction, index.
  cbn [WeakPerspectiveCamera.base WeakPerspectiveCamera.scale
       WeakPerspectiveCamera.translation WeakPerspectiveCamera.cols
       WeakPerspectiveCamera.rows WeakPerspectiveCamera.near WeakPerspectiveCamera.far
       CameraBase.current_frame_id CameraBase.__init__ nth_error bind].
  rewrite (pydiv_R 4 (b := 2)) by lra. cbn [bind].
  rewrite (pydiv_R (4 / 2) (b := 4 / 2)) by lra. cbn [bind].
  rewrite !pydiv_R by (rcbn; lra). cbn [bind]. reflexivity.
Qed.

(** X19 on one frame of scale (2, 3) and translation (1/2, 1/4). *)
Lemma weak_projection_action_witness :
  exists (c : WeakPerspectiveCamera.t R) (P : mat4 R),
    WeakPerspectiveCamera.projection c 4 2 = Ok P
    /\ forall x y : R,
         w2 (matvec4 P (V4 x y (- WeakPerspectiveCamera.near c) 1)) = - (1).
Proof.
  destruct weak_exact_projection as [c [P [_ E]]].
  exists c, P. split; [exact E | ].
  destruct (@weak_projection_action c 4 2 P E) as [sx [sy [tx [ty [ar H]]]]].
  cbv zeta in H. destruct H as [_ [_ [_ [_ [_ [Hn _]]]]]].
  exact Hn.
Defined.
End MoreWitnesses.
